(** * video_transcriber.py: a shallow embedding and its verified properties

    The program extracts the audio track of a video, transcribes it with a
    speech-recognition model (whole file, or chunk by chunk after splitting
    on silence), writes the transcript into the working directory and
    removes its temporary files.

    The development has these parts:
    - [Path]: the pure string functions of [os.path] that the program calls
      (POSIX flavour: [posixpath.basename], [posixpath.splitext],
      [posixpath.join]);
    - [Effects]: a small monad for the effects of the program: a file
      system that is read and updated, exceptions that are raised and
      caught, and the trace of what the program printed and which external
      operation it called;
    - [Transcriber]: the five functions of the source, over a [World] that
      fixes what the external libraries (moviepy, pydub, whisper) and the
      operating system answer;
    - [Spec]: the vocabulary the properties are stated in, and small worlds
      to run the program in;
    - [EntryPoint]: the interactive [__main__] block;
    - [PathFacts], [EffectFacts], [ProgramFacts], [MoreFacts]: lemmas about
      these layers;
    - [Claims]: the properties of the specification, each settled against
      the embedding;
    - [Extras]: further properties of the program.

    Python strings are embedded as [string], the bytes of their UTF-8
    encoding; the messages of the source are kept as they are written
    there. Where the program counts characters ([len(text)], [text[:200]])
    the embedding counts the bytes that begin a character. *)

From stdpp Require Import gmap strings list fin_maps pretty.
From Stdlib Require Import ZArith String Ascii Lia.

Local Open Scope string_scope.
Local Open Scope list_scope.
Local Open Scope Z_scope.

(* ===================================================================== *)
(** * Strings and paths *)
(* ===================================================================== *)

Module Path.

(** [s.rfind(c)] for a one-character [c]: the highest index at which [c]
    occurs, [-1] when it does not occur. *)
Fixpoint rfind_from (c : ascii) (s : string) (i last : Z) : Z :=
  match s with
  | EmptyString => last
  | String a r => rfind_from c r (i + 1) (if Ascii.eqb a c then i else last)
  end.

Definition rfind (s : string) (c : ascii) : Z := rfind_from c s 0 (-1).

Fixpoint str_drop (n : nat) (s : string) : string :=
  match n, s with
  | O, _ => s
  | S k, String _ r => str_drop k r
  | S _, EmptyString => EmptyString
  end.

Fixpoint str_take (n : nat) (s : string) : string :=
  match n, s with
  | O, _ => EmptyString
  | S k, String a r => String a (str_take k r)
  | S _, EmptyString => EmptyString
  end.

(** Slices [s[i:]], [s[:j]] and [s[i:j]]; the program only takes them at
    indices that are not negative. In [os.path] every index comes from
    [rfind] on the same string and the characters looked for are ASCII, so
    counting bytes there cuts at the same places as counting characters. *)
Definition slice_from (s : string) (i : Z) : string := str_drop (Z.to_nat i) s.
Definition slice_to (s : string) (j : Z) : string := str_take (Z.to_nat j) s.
Definition slice (s : string) (i j : Z) : string :=
  str_take (Z.to_nat (j - i)) (str_drop (Z.to_nat i) s).

(** A byte [10xxxxxx] continues the UTF-8 encoding of a character; every
    other byte begins one. *)
Definition is_continuation (c : ascii) : bool :=
  (128 <=? nat_of_ascii c)%nat && (nat_of_ascii c <? 192)%nat.

(** [len(s)] for a text: the number of its characters (code points). *)
Fixpoint text_len (s : string) : nat :=
  match s with
  | EmptyString => O
  | String c r => if is_continuation c then text_len r else S (text_len r)
  end.

(** [s[:n]] for a text: its first [n] characters, each with all the bytes
    of its encoding. *)
Fixpoint text_slice_to (s : string) (n : nat) : string :=
  match s with
  | EmptyString => EmptyString
  | String c r =>
      if is_continuation c then String c (text_slice_to r n)
      else match n with
           | O => EmptyString
           | S k => String c (text_slice_to r k)
           end
  end.

(** [c in s] *)
Fixpoint contains (c : ascii) (s : string) : bool :=
  match s with
  | EmptyString => false
  | String a r => Ascii.eqb a c || contains c r
  end.

Definition sep : ascii := "/"%char.
Definition extsep : ascii := "."%char.

(** [posixpath.basename]:
<<
    i = p.rfind(sep) + 1
    return p[i:]
>> *)
Definition basename (p : string) : string :=
  let i := rfind p sep + 1 in
  slice_from p i.

(** The loop of [genericpath._splitext] that skips the leading dots of the
    file name; [todo] is [dotIndex - filenameIndex], the number of
    iterations that are left:
<<
        filenameIndex = sepIndex + 1
        while filenameIndex < dotIndex:
            if p[filenameIndex:filenameIndex+1] != extsep:
                return p[:dotIndex], p[dotIndex:]
            filenameIndex += 1
>> *)
Fixpoint splitext_loop (p : string) (dotIndex : Z) (todo : nat) : string * string :=
  match todo with
  | O => (p, slice_to p 0)
  | S k =>
      let filenameIndex := dotIndex - Z.of_nat todo in
      if negb (String.eqb (slice p filenameIndex (filenameIndex + 1)) (String extsep EmptyString))
      then (slice_to p dotIndex, slice_from p dotIndex)
      else splitext_loop p dotIndex k
  end.

(** [posixpath.splitext] ([altsep] is [None] on POSIX):
<<
    sepIndex = p.rfind(sep)
    dotIndex = p.rfind(extsep)
    if dotIndex > sepIndex:
        ... the loop above ...
    return p, p[:0]
>> *)
Definition splitext (p : string) : string * string :=
  let sepIndex := rfind p sep in
  let dotIndex := rfind p extsep in
  if sepIndex <? dotIndex
  then splitext_loop p dotIndex (Z.to_nat (dotIndex - (sepIndex + 1)))
  else (p, slice_to p 0).

(** [posixpath.join(a, b)] for two components. *)
Definition ends_with_sep (a : string) : bool :=
  String.eqb (slice_from a (Z.of_nat (String.length a) - 1)) (String sep EmptyString).

Definition starts_with_sep (b : string) : bool :=
  String.eqb (slice_to b 1) (String sep EmptyString).

Definition join (a b : string) : string :=
  if starts_with_sep b then b
  else if String.eqb a "" || ends_with_sep a then a +:+ b
  else a +:+ String sep EmptyString +:+ b.

End Path.

(* ===================================================================== *)
(** * Effects: file system, exceptions, trace *)
(* ===================================================================== *)

Module Effects.

(** The outcome of a Python expression: a value, or an exception that
    carries the message [str(e)]. Every exception of the model is an
    instance of [Exception], so [except Exception] catches it. *)
Inductive result (A : Type) : Type :=
| Ok (a : A)
| Raise (e : string).
Arguments Ok {A} a.
Arguments Raise {A} e.

(** The part of the file system the program can observe: regular files with
    their contents, and directories. Paths are kept as the program writes
    them (all of them relative to the working directory). *)
Record FS : Type := mkFS {
  files : gmap string string;
  dirs : gset string
}.

(** The external operations the program calls. *)
Inductive op : Type :=
| OpVideoFileClip (video_path : string)
| OpWriteAudiofile (audio_output_path : string)
| OpFromFile (audio_path : string)
| OpSplitOnSilence (min_silence_len silence_thresh keep_silence : Z)
| OpLoadModel (model_name : string)
| OpExport (chunk_filename : string)
| OpTranscribe (audio_path : string)
| OpMakedirs (path : string)
| OpRemove (path : string)
| OpRmtree (path : string)
| OpOpenWrite (path : string).

(** What a run leaves behind for an observer: the lines it printed and the
    external operations it called, in order; [ok] tells whether the call
    returned ([true]) or raised ([false]). *)
Inductive event : Type :=
| EPrint (line : string)
| ECall (o : op) (ok : bool).

#[global] Instance op_eq_dec : EqDecision op.
Proof. solve_decision. Defined.
#[global] Instance event_eq_dec : EqDecision event.
Proof. solve_decision. Defined.

(** A computation reads and updates the file system, emits events, and
    returns or raises. When it raises, the events emitted and the file
    system reached so far are kept. *)
Definition M (A : Type) : Type := FS -> list event * FS * result A.

Definition ret {A} (a : A) : M A := fun fs => ([], fs, Ok a).

Definition bind {A B} (m : M A) (k : A -> M B) : M B :=
  fun fs =>
    match m fs with
    | (t1, fs1, Ok a) =>
        match k a fs1 with
        | (t2, fs2, r) => (t1 ++ t2, fs2, r)
        end
    | (t1, fs1, Raise e) => (t1, fs1, Raise e)
    end.

(** [try: m  except Exception as e: h e] *)
Definition try_except {A} (m : M A) (h : string -> M A) : M A :=
  fun fs =>
    match m fs with
    | (t1, fs1, Ok a) => (t1, fs1, Ok a)
    | (t1, fs1, Raise e) =>
        match h e fs1 with
        | (t2, fs2, r) => (t1 ++ t2, fs2, r)
        end
    end.

Definition print (line : string) : M unit := fun fs => ([EPrint line], fs, Ok tt).

(** An external call: its outcome is decided by [body] from the current
    file system; the call is recorded with its outcome. A call that raises
    leaves the file system as it found it. *)
Definition call {A} (o : op) (body : FS -> result (A * FS)) : M A :=
  fun fs =>
    match body fs with
    | Ok (a, fs') => ([ECall o true], fs', Ok a)
    | Raise e => ([ECall o false], fs, Raise e)
    end.

(** An external call that writes as it goes: when it raises, [body] still
    gives the file system it leaves behind. *)
Definition call_writing {A} (o : op) (body : FS -> FS * result A) : M A :=
  fun fs =>
    match body fs with
    | (fs', Ok a) => ([ECall o true], fs', Ok a)
    | (fs', Raise e) => ([ECall o false], fs', Raise e)
    end.

Definition get_fs : M FS := fun fs => ([], fs, Ok fs).

(** The three components of a run. *)
Definition trace_of {A} (run : list event * FS * result A) : list event := run.1.1.
Definition fs_of {A} (run : list event * FS * result A) : FS := run.1.2.
Definition result_of {A} (run : list event * FS * result A) : result A := run.2.

#[global] Instance M_ret : MRet M := @ret.
#[global] Instance M_bind : MBind M := fun A B k m => bind m k.

(** [if c: m] *)
Definition when (c : bool) (m : M unit) : M unit := if c then m else ret tt.

(** ** File system primitives *)

(** [os.path.exists] *)
Definition path_exists (fs : FS) (p : string) : bool :=
  bool_decide (is_Some (files fs !! p)) || bool_decide (p ∈ dirs fs).

Definition fs_write (p content : string) (fs : FS) : FS :=
  mkFS (<[p := content]> (files fs)) (dirs fs).

Definition fs_delete (p : string) (fs : FS) : FS :=
  mkFS (delete p (files fs)) (dirs fs).

Definition fs_mkdir (p : string) (fs : FS) : FS :=
  mkFS (files fs) ({[p]} ∪ dirs fs).

(** [q] lies strictly below the directory [p]. *)
Definition below (p q : string) : bool :=
  String.prefix (p +:+ "/") q.

Definition fs_rmtree (p : string) (fs : FS) : FS :=
  mkFS (filter (fun kv => below p kv.1 = false) (files fs))
       (filter (fun d => d ≠ p ∧ below p d = false) (dirs fs)).

End Effects.

(* ===================================================================== *)
(** * The program *)
(* ===================================================================== *)

Module Transcriber.
Import Effects.

(** What the libraries and the operating system answer. The program treats
    moviepy, pydub and whisper as black boxes; a [World] fixes their
    answers, and the theorems below hold for every [World].

    Files are read through the file system: decoding and transcription get
    the bytes stored at the path they are given, and an export or an
    extraction that returns has stored the bytes it produced. An
    extraction that raises may have written part of the audio file
    already: [lib_write_audiofile_partial] tells what it leaves at the path,
    if anything. [os_fault]
    lets the operating system refuse a file operation (permissions, full
    disk, ...) with the message of the [OSError]. *)
Record World : Type := mkWorld {
  Clip : Type;
  Audio : Type;
  Chunk : Type;
  Model : Type;
  (** [mp.VideoFileClip(video_path)] *)
  lib_VideoFileClip : string -> result Clip;
  (** [video.audio.write_audiofile(path)]: the bytes written *)
  lib_write_audiofile : Clip -> string -> result string;
  (** what a [write_audiofile] that raises leaves at the path: no file, or
      the bytes written before the error *)
  lib_write_audiofile_partial : Clip -> string -> option string;
  (** [AudioSegment.from_file], from the bytes of the file *)
  lib_from_file : string -> result Audio;
  (** [split_on_silence(audio, min_silence_len, silence_thresh, keep_silence)] *)
  lib_split_on_silence : Audio -> Z -> Z -> Z -> result (list Chunk);
  (** [chunk.export(path, format="wav")]: the bytes written *)
  lib_export : Chunk -> string -> result string;
  (** [whisper.load_model(model_name)] *)
  lib_load_model : string -> result Model;
  (** [model.transcribe(...)["text"]], from the bytes of the file *)
  lib_transcribe : Model -> string -> result string;
  os_fault : op -> option string
}.

Definition no_such_file (p : string) : string :=
  "[Errno 2] No such file or directory: '" +:+ p +:+ "'".
Definition file_exists (p : string) : string :=
  "[Errno 17] File exists: '" +:+ p +:+ "'".
Definition is_a_directory (p : string) : string :=
  "[Errno 21] Is a directory: '" +:+ p +:+ "'".
Definition not_a_directory (p : string) : string :=
  "[Errno 20] Not a directory: '" +:+ p +:+ "'".

Definition newline : string := String (ascii_of_nat 10) EmptyString.

Section Program.
Context (w : World).

(** ** External calls *)

Definition VideoFileClip (video_path : string) : M (Clip w) :=
  call (OpVideoFileClip video_path) (fun fs =>
    match lib_VideoFileClip w video_path with
    | Ok video => Ok (video, fs)
    | Raise e => Raise e
    end).

Definition write_audiofile (video : Clip w) (audio_output_path : string) : M unit :=
  call_writing (OpWriteAudiofile audio_output_path) (fun fs =>
    match lib_write_audiofile w video audio_output_path with
    | Ok bytes => (fs_write audio_output_path bytes fs, Ok tt)
    | Raise e =>
        (match lib_write_audiofile_partial w video audio_output_path with
         | Some bytes => fs_write audio_output_path bytes fs
         | None => fs
         end, Raise e)
    end).

Definition AudioSegment_from_file (audio_path : string) : M (Audio w) :=
  call (OpFromFile audio_path) (fun fs =>
    match files fs !! audio_path with
    | None => Raise (no_such_file audio_path)
    | Some bytes =>
        match lib_from_file w bytes with
        | Ok audio => Ok (audio, fs)
        | Raise e => Raise e
        end
    end).

Definition split_on_silence (audio : Audio w)
    (min_silence_len silence_thresh keep_silence : Z) : M (list (Chunk w)) :=
  call (OpSplitOnSilence min_silence_len silence_thresh keep_silence) (fun fs =>
    match lib_split_on_silence w audio min_silence_len silence_thresh keep_silence with
    | Ok chunks => Ok (chunks, fs)
    | Raise e => Raise e
    end).

Definition chunk_export (chunk : Chunk w) (chunk_filename : string) : M unit :=
  call (OpExport chunk_filename) (fun fs =>
    match lib_export w chunk chunk_filename with
    | Ok bytes => Ok (tt, fs_write chunk_filename bytes fs)
    | Raise e => Raise e
    end).

Definition whisper_load_model (model_name : string) : M (Model w) :=
  call (OpLoadModel model_name) (fun fs =>
    match lib_load_model w model_name with
    | Ok model => Ok (model, fs)
    | Raise e => Raise e
    end).

(** [model.transcribe(audio_path)["text"]] *)
Definition model_transcribe (model : Model w) (audio_path : string) : M string :=
  call (OpTranscribe audio_path) (fun fs =>
    match files fs !! audio_path with
    | None => Raise (no_such_file audio_path)
    | Some bytes =>
        match lib_transcribe w model bytes with
        | Ok text => Ok (text, fs)
        | Raise e => Raise e
        end
    end).

Definition os_path_exists (p : string) : M bool :=
  fs ← get_fs; mret (path_exists fs p).

Definition os_makedirs (p : string) : M unit :=
  call (OpMakedirs p) (fun fs =>
    match os_fault w (OpMakedirs p) with
    | Some e => Raise e
    | None =>
        if path_exists fs p then Raise (file_exists p)
        else Ok (tt, fs_mkdir p fs)
    end).

Definition os_remove (p : string) : M unit :=
  call (OpRemove p) (fun fs =>
    match os_fault w (OpRemove p) with
    | Some e => Raise e
    | None =>
        match files fs !! p with
        | Some _ => Ok (tt, fs_delete p fs)
        | None => Raise (no_such_file p)
        end
    end).

Definition shutil_rmtree (p : string) : M unit :=
  call (OpRmtree p) (fun fs =>
    match os_fault w (OpRmtree p) with
    | Some e => Raise e
    | None =>
        if bool_decide (p ∈ dirs fs) then Ok (tt, fs_rmtree p fs)
        else Raise (not_a_directory p)
    end).

(** [with open(p, "w", encoding="utf-8") as f: f.write(text)] *)
Definition open_write (p text : string) : M unit :=
  call (OpOpenWrite p) (fun fs =>
    match os_fault w (OpOpenWrite p) with
    | Some e => Raise e
    | None =>
        if bool_decide (p ∈ dirs fs) then Raise (is_a_directory p)
        else Ok (tt, fs_write p text fs)
    end).

(** ** The functions of [video_transcriber.py] *)

Definition extract_audio_from_video (video_path audio_output_path : string) : M bool :=
  try_except
    (video ← VideoFileClip video_path;
     write_audiofile video audio_output_path;;
     print ("音频已成功提取到: " +:+ audio_output_path);;
     mret true)
    (fun e =>
     print ("提取音频时发生错误: " +:+ e);;
     mret false).

Definition transcribe_audio_with_whisper (audio_path model_name : string) : M (option string) :=
  try_except
    (print ("正在加载 Whisper 模型: " +:+ model_name +:+ "...");;
     model ← whisper_load_model model_name;
     print ("正在转录音频: " +:+ audio_path +:+ "...");;
     text ← model_transcribe model audio_path;
     mret (Some text))
    (fun e =>
     print ("转录音频时发生错误: " +:+ e);;
     mret None).

(** The defaults of the keyword arguments. *)
Definition default_model_name : string := "base".
Definition default_output_dir : string := "audio_chunks".
Definition default_min_silence_len : Z := 500.
Definition default_silence_thresh : Z := -40.

Definition chunk_filename_of (output_dir : string) (i : nat) : string :=
  Path.join output_dir ("chunk_" +:+ pretty i +:+ ".wav").

(** The body of [for i, chunk in enumerate(chunks)], from index [i] on;
    [total] is [len(chunks)] and [full_text] the list built so far. *)
Fixpoint transcribe_chunks (model : Model w) (output_dir : string) (total : nat)
    (i : nat) (chunks : list (Chunk w)) (full_text : list string) : M (list string) :=
  match chunks with
  | [] => mret full_text
  | chunk :: rest =>
      let chunk_filename := chunk_filename_of output_dir i in
      chunk_export chunk chunk_filename;;
      print ("正在转录分块 " +:+ pretty (i + 1)%nat +:+ "/" +:+ pretty total +:+ ": " +:+ chunk_filename);;
      text ← model_transcribe model chunk_filename;
      let full_text := full_text ++ [text] in
      print ("分块 " +:+ pretty (i + 1)%nat +:+ " 转录完成。");;
      try_except
        (os_remove chunk_filename;;
         print ("✓ 已删除分块文件: " +:+ chunk_filename))
        (fun e =>
         print ("⚠️  删除分块文件时出错: " +:+ e));;
      transcribe_chunks model output_dir total (S i) rest full_text
  end.

Definition split_and_transcribe_audio (audio_path output_dir : string)
    (min_silence_len silence_thresh : Z) (model_name : string) : M (option string) :=
  exists_ ← os_path_exists output_dir;
  when (negb exists_) (os_makedirs output_dir);;
  try_except
    (audio ← AudioSegment_from_file audio_path;
     chunks ← split_on_silence audio min_silence_len silence_thresh 200;
     model ← whisper_load_model model_name;
     print ("正在加载 Whisper 模型: " +:+ model_name +:+ "...");;
     full_text ← transcribe_chunks model output_dir (List.length chunks) 0 chunks [];
     mret (Some (String.concat " " full_text)))
    (fun e =>
     print ("分段和转录音频时发生错误: " +:+ e);;
     mret None).

Definition get_filename_without_extension (file_path : string) : string :=
  let base_name := Path.basename file_path in
  let filename_without_ext := fst (Path.splitext base_name) in
  filename_without_ext.

(** The names [process_video_to_text] derives from the video path. *)
Definition audio_file_of (video_path : string) : string :=
  get_filename_without_extension video_path +:+ "_temp_audio.mp3".
Definition text_output_file_of (video_path : string) : string :=
  get_filename_without_extension video_path +:+ ".txt".
Definition chunks_dir_of (video_path : string) : string :=
  get_filename_without_extension video_path +:+ "_audio_chunks".

(** [text[:200] + "..." if len(text) > 200 else text]; [len] and the slice
    count characters. *)
Definition preview (text : string) : string :=
  if 200 <? Z.of_nat (Path.text_len text)
  then Path.text_slice_to text 200 +:+ "..."
  else text.

Definition process_video_to_text (video_path model_name : string)
    (use_segmentation : bool) : M bool :=
  exists_ ← os_path_exists video_path;
  if negb exists_ then
    print ("错误：视频文件不存在: " +:+ video_path);;
    mret false
  else
    let video_name := get_filename_without_extension video_path in
    let audio_file := video_name +:+ "_temp_audio.mp3" in
    let text_output_file := video_name +:+ ".txt" in
    print ("正在处理视频: " +:+ video_path);;
    print ("输出文本文件将保存为: " +:+ text_output_file);;
    extracted ← extract_audio_from_video video_path audio_file;
    if negb extracted then
      print "音频提取失败，无法继续处理。";;
      mret false
    else
      transcribed_text ←
        (if use_segmentation then
           print (newline +:+ "--- 正在使用分段转录 ---");;
           split_and_transcribe_audio audio_file (video_name +:+ "_audio_chunks")
             700 (-35) model_name
         else
           print (newline +:+ "--- 正在使用直接转录 ---");;
           transcribe_audio_with_whisper audio_file model_name);
      match transcribed_text with
      | Some (String _ _ as text) =>
          print (newline +:+ "--- 转录完成 ---");;
          print "转录结果预览:";;
          print (preview text);;
          saved ← try_except
            (open_write text_output_file text;;
             print (newline +:+ "转录文本已成功保存到: " +:+ text_output_file);;
             mret true)
            (fun e =>
             print ("保存文件时发生错误: " +:+ e);;
             mret false);
          if negb saved then mret false
          else
            try_except
              (audio_exists ← os_path_exists audio_file;
               when audio_exists
                 (os_remove audio_file;;
                  print ("已删除临时音频文件: " +:+ audio_file));;
               when use_segmentation
                 (let chunks_dir := video_name +:+ "_audio_chunks" in
                  dir_exists ← os_path_exists chunks_dir;
                  when dir_exists
                    (shutil_rmtree chunks_dir;;
                     print ("已删除临时音频分块目录: " +:+ chunks_dir))))
              (fun e =>
               print ("清理临时文件时发生警告: " +:+ e));;
            mret true
      | _ =>
          print "转录失败。";;
          mret false
      end.

End Program.
End Transcriber.

(* ===================================================================== *)
(** * Vocabulary of the specification *)
(* ===================================================================== *)

Module Spec.
Import Effects Transcriber.

(** A name all of whose characters are dots. *)
Fixpoint all_dots (s : string) : bool :=
  match s with
  | EmptyString => true
  | String a r => Ascii.eqb a Path.extsep && all_dots r
  end.

(** ** Safety properties of a computation

    [keeps E R m]: every event [m] emits satisfies [E], and the file system
    [m] ends in is related by [R] to the one it started from, whether [m]
    returns or raises. *)
Definition keeps {A} (E : event -> Prop) (R : FS -> FS -> Prop) (m : M A) : Prop :=
  ∀ fs, Forall E (trace_of (m fs)) ∧ R fs (fs_of (m fs)).

(** File-system relations used as frames. *)
Definition any_fs : relation FS := fun _ _ => True.
Definition untouched (q : string) : relation FS :=
  fun fs fs' => files fs' !! q = files fs !! q.

(** What [split_and_transcribe_audio] can print or call. *)
Inductive split_event (audio_path output_dir : string) (msl thr : Z)
    (model_name : string) : event -> Prop :=
| se_print line : split_event audio_path output_dir msl thr model_name (EPrint line)
| se_makedirs ok :
    split_event audio_path output_dir msl thr model_name (ECall (OpMakedirs output_dir) ok)
| se_from_file ok :
    split_event audio_path output_dir msl thr model_name (ECall (OpFromFile audio_path) ok)
| se_split ok :
    split_event audio_path output_dir msl thr model_name
      (ECall (OpSplitOnSilence msl thr 200) ok)
| se_load ok :
    split_event audio_path output_dir msl thr model_name (ECall (OpLoadModel model_name) ok)
| se_export i ok :
    split_event audio_path output_dir msl thr model_name
      (ECall (OpExport (chunk_filename_of output_dir i)) ok)
| se_transcribe i ok :
    split_event audio_path output_dir msl thr model_name
      (ECall (OpTranscribe (chunk_filename_of output_dir i)) ok)
| se_remove i ok :
    split_event audio_path output_dir msl thr model_name
      (ECall (OpRemove (chunk_filename_of output_dir i)) ok).

(** ** The loop over the chunks, as a specification *)

Section World.
Context (w : World).

(** What chunk [i] contributes to the transcript: the text of the bytes
    exported for it, or the exception of the export or of the
    transcription. *)
Definition chunk_result (model : Model w) (output_dir : string) (i : nat)
    (chunk : Chunk w) : result string :=
  match lib_export w chunk (chunk_filename_of output_dir i) with
  | Ok bytes => lib_transcribe w model bytes
  | Raise e => Raise e
  end.

(** The per-chunk results, in chunk order, from index [i] on; the exception
    of the first chunk that fails. *)
Fixpoint chunk_texts (model : Model w) (output_dir : string) (i : nat)
    (chunks : list (Chunk w)) : result (list string) :=
  match chunks with
  | [] => Ok []
  | chunk :: rest =>
      match chunk_result model output_dir i chunk with
      | Ok text =>
          match chunk_texts model output_dir (S i) rest with
          | Ok texts => Ok (text :: texts)
          | Raise e => Raise e
          end
      | Raise e => Raise e
      end
  end.

(** The events of one iteration whose export and transcription return:
    write, transcribe, then try to delete, and only then go on. *)
Definition iteration_trace (output_dir : string) (total i : nat) : list event :=
  let chunk_filename := chunk_filename_of output_dir i in
  [ECall (OpExport chunk_filename) true;
   EPrint ("正在转录分块 " +:+ pretty (i + 1)%nat +:+ "/" +:+ pretty total +:+ ": " +:+ chunk_filename);
   ECall (OpTranscribe chunk_filename) true;
   EPrint ("分块 " +:+ pretty (i + 1)%nat +:+ " 转录完成。")] ++
  match os_fault w (OpRemove chunk_filename) with
  | None => [ECall (OpRemove chunk_filename) true;
             EPrint ("✓ 已删除分块文件: " +:+ chunk_filename)]
  | Some e => [ECall (OpRemove chunk_filename) false;
               EPrint ("⚠️  删除分块文件时出错: " +:+ e)]
  end.

(** The file system after such an iteration. *)
Definition iteration_fs (output_dir : string) (i : nat) (chunk : Chunk w) (fs : FS) : FS :=
  let chunk_filename := chunk_filename_of output_dir i in
  match lib_export w chunk chunk_filename with
  | Ok bytes =>
      match os_fault w (OpRemove chunk_filename) with
      | None => fs_delete chunk_filename (fs_write chunk_filename bytes fs)
      | Some _ => fs_write chunk_filename bytes fs
      end
  | Raise _ => fs
  end.

Fixpoint chunks_fs (output_dir : string) (i : nat) (chunks : list (Chunk w)) (fs : FS) : FS :=
  match chunks with
  | [] => fs
  | chunk :: rest => chunks_fs output_dir (S i) rest (iteration_fs output_dir i chunk fs)
  end.

(** ** The parts of [split_and_transcribe_audio] *)

(** The directory step, when it does not raise. *)
Definition makedirs_trace (fs : FS) (output_dir : string) : list event :=
  if path_exists fs output_dir then [] else [ECall (OpMakedirs output_dir) true].
Definition makedirs_fs (fs : FS) (output_dir : string) : FS :=
  if path_exists fs output_dir then fs else fs_mkdir output_dir fs.

(** The events before the loop, when loading, splitting and model loading
    return. *)
Definition setup_trace (audio_path : string) (msl thr : Z) (model_name : string)
    : list event :=
  [ECall (OpFromFile audio_path) true;
   ECall (OpSplitOnSilence msl thr 200) true;
   ECall (OpLoadModel model_name) true;
   EPrint ("正在加载 Whisper 模型: " +:+ model_name +:+ "...")].

(** The [try] statement of [split_and_transcribe_audio]. *)
Definition split_body (audio_path output_dir : string)
    (min_silence_len silence_thresh : Z) (model_name : string) : M (option string) :=
  try_except
    (audio ← AudioSegment_from_file w audio_path;
     chunks ← split_on_silence w audio min_silence_len silence_thresh 200;
     model ← whisper_load_model w model_name;
     print ("正在加载 Whisper 模型: " +:+ model_name +:+ "...");;
     full_text ← transcribe_chunks w model output_dir (List.length chunks) 0 chunks [];
     mret (Some (String.concat " " full_text)))
    (fun e =>
     print ("分段和转录音频时发生错误: " +:+ e);;
     mret None).

(** ** The parts of [extract_audio_from_video] *)

(** The file system a [write_audiofile] that raised leaves behind. *)
Definition partial_fs (video : Clip w) (audio_output_path : string) (fs : FS) : FS :=
  match lib_write_audiofile_partial w video audio_output_path with
  | Some bytes => fs_write audio_output_path bytes fs
  | None => fs
  end.

(** ** The parts of [process_video_to_text] *)

Definition banner (use_segmentation : bool) : string :=
  if use_segmentation then newline +:+ "--- 正在使用分段转录 ---"
  else newline +:+ "--- 正在使用直接转录 ---".

(** Step 2, after its banner. *)
Definition transcriber (video_path model_name : string) (use_segmentation : bool)
    : M (option string) :=
  if use_segmentation
  then split_and_transcribe_audio w (audio_file_of video_path)
         (chunks_dir_of video_path) 700 (-35) model_name
  else transcribe_audio_with_whisper w (audio_file_of video_path) model_name.

(** Step 3, the [try] statement that writes the output file. *)
Definition save_text (video_path text : string) : M bool :=
  try_except
    (open_write w (text_output_file_of video_path) text;;
     print (newline +:+ "转录文本已成功保存到: " +:+ text_output_file_of video_path);;
     mret true)
    (fun e =>
     print ("保存文件时发生错误: " +:+ e);;
     mret false).

(** Step 4, the [try] statement that removes the temporary files. *)
Definition cleanup (video_path : string) (use_segmentation : bool) : M unit :=
  try_except
    (audio_exists ← os_path_exists (audio_file_of video_path);
     when audio_exists
       (os_remove w (audio_file_of video_path);;
        print ("已删除临时音频文件: " +:+ audio_file_of video_path));;
     when use_segmentation
       (dir_exists ← os_path_exists (chunks_dir_of video_path);
        when dir_exists
          (shutil_rmtree w (chunks_dir_of video_path);;
           print ("已删除临时音频分块目录: " +:+ chunks_dir_of video_path))))
    (fun e =>
     print ("清理临时文件时发生警告: " +:+ e)).

(** Steps 3 and 4 for a transcript that is not empty. *)
Definition save_and_cleanup (video_path : string) (use_segmentation : bool)
    (text : string) : M bool :=
  print (newline +:+ "--- 转录完成 ---");;
  print "转录结果预览:";;
  print (preview text);;
  saved ← save_text video_path text;
  if negb saved then mret false
  else cleanup video_path use_segmentation;; mret true.

Definition process_prefix (video_path : string) : list event :=
  [EPrint ("正在处理视频: " +:+ video_path);
   EPrint ("输出文本文件将保存为: " +:+ text_output_file_of video_path)].

End World.

(** ** Chunk files on disk, read off a trace *)

(** The chunk files a run has exported and not deleted. *)
Definition live_step (s : gset string) (e : event) : gset string :=
  match e with
  | ECall (OpExport p) true => {[p]} ∪ s
  | ECall (OpRemove p) true => s ∖ {[p]}
  | _ => s
  end.

Definition live (t : list event) (s : gset string) : gset string :=
  foldl live_step s t.

(** The largest number of them on disk at any point of the trace. *)
Fixpoint peak (t : list event) (s : gset string) : nat :=
  match t with
  | [] => size s
  | e :: t' => Nat.max (size s) (peak t' (live_step s e))
  end.

(** ** Events that neither write the transcript nor clean up *)

Definition no_save (audio_file : string) (e : event) : Prop :=
  match e with
  | ECall (OpOpenWrite _) _ => False
  | ECall (OpRmtree _) _ => False
  | ECall (OpRemove q) _ => q ≠ audio_file
  | _ => True
  end.

(** What [process_video_to_text] can print or call. *)
Inductive process_event (video_path model_name : string) : event -> Prop :=
| pe_print line : process_event video_path model_name (EPrint line)
| pe_clip ok : process_event video_path model_name (ECall (OpVideoFileClip video_path) ok)
| pe_write_audio ok :
    process_event video_path model_name
      (ECall (OpWriteAudiofile (audio_file_of video_path)) ok)
| pe_split e :
    split_event (audio_file_of video_path) (chunks_dir_of video_path) 700 (-35)
      model_name e →
    process_event video_path model_name e
| pe_load ok : process_event video_path model_name (ECall (OpLoadModel model_name) ok)
| pe_transcribe ok :
    process_event video_path model_name (ECall (OpTranscribe (audio_file_of video_path)) ok)
| pe_open_write ok :
    process_event video_path model_name
      (ECall (OpOpenWrite (text_output_file_of video_path)) ok)
| pe_remove ok :
    process_event video_path model_name (ECall (OpRemove (audio_file_of video_path)) ok)
| pe_rmtree ok :
    process_event video_path model_name (ECall (OpRmtree (chunks_dir_of video_path)) ok).

(** ** Worlds to run the program in *)

(** A world in which videos and audio are strings: extraction and export
    keep the bytes, silence detection answers [chunks], the model names of
    whisper load, the chunk [noise] cannot be transcribed and every other
    chunk is transcribed as itself; [fault] is what the operating system
    refuses. *)
Definition demo_world (chunks : list string) (fault : op -> option string) : World :=
  {| Clip := string; Audio := string; Chunk := string; Model := string;
     lib_VideoFileClip := fun video_path => Ok video_path;
     lib_write_audiofile := fun video _ => Ok ("mp3:" +:+ video);
     lib_write_audiofile_partial := fun _ _ => None;
     lib_from_file := fun bytes => Ok bytes;
     lib_split_on_silence := fun _ _ _ _ => Ok chunks;
     lib_export := fun chunk _ => Ok chunk;
     lib_load_model := fun model_name =>
       if bool_decide (model_name ∈ ["tiny"; "base"; "small"; "medium"; "large"])
       then Ok model_name
       else Raise ("unknown model: " +:+ model_name);
     lib_transcribe := fun _ bytes =>
       if String.eqb bytes "noise" then Raise "cannot decode audio" else Ok bytes;
     os_fault := fault |}.

Definition no_fault : op -> option string := fun _ => None.

(** Deleting [path] is refused. *)
Definition remove_denied (path : string) : op -> option string :=
  fun o => if bool_decide (o = OpRemove path) then Some "[Errno 13] Permission denied" else None.

(** Creating directories is refused. *)
Definition makedirs_denied : op -> option string :=
  fun o => match o with OpMakedirs _ => Some "[Errno 13] Permission denied" | _ => None end.

(** A working directory that holds the video [videos/clip.mp4] and an old
    transcript [clip.txt]. *)
Definition demo_fs : FS :=
  mkFS {[ "videos/clip.mp4" := "VIDEO"; "clip.txt" := "old transcript" ]} ∅.

(** A working directory that holds the audio file [speech.mp3]. *)
Definition audio_fs : FS := mkFS {[ "speech.mp3" := "AUDIO" ]} ∅.
End Spec.

(* ===================================================================== *)
(** * The interactive entry point *)
(* ===================================================================== *)

Module EntryPoint.
Import Effects Transcriber.

(** The string methods the entry point calls on what the user typed.
    [s.strip()] and [s.lower()] follow the Unicode tables of the
    interpreter; they are parameters of the model. *)
Record Builtins : Type := mkBuiltins {
  str_strip : string -> string;
  str_lower : string -> string
}.

(** [c in chars] *)
Definition char_in (chars : list ascii) (c : ascii) : bool :=
  existsb (Ascii.eqb c) chars.

(** [s.lstrip(chars)], [s.rstrip(chars)] and [s.strip(chars)] for a set of
    characters. *)
Fixpoint lstrip_chars (chars : list ascii) (s : string) : string :=
  match s with
  | EmptyString => EmptyString
  | String a r => if char_in chars a then lstrip_chars chars r else s
  end.

Fixpoint rstrip_chars (chars : list ascii) (s : string) : string :=
  match s with
  | EmptyString => EmptyString
  | String a r =>
      match rstrip_chars chars r with
      | EmptyString => if char_in chars a then EmptyString else String a EmptyString
      | r' => String a r'
      end
  end.

Definition strip_chars (chars : list ascii) (s : string) : string :=
  lstrip_chars chars (rstrip_chars chars s).

(** The characters the path is stripped of: the double quote (code 34)
    and the single quote (code 39). *)
Definition quote_chars : list ascii := [ascii_of_nat 34; ascii_of_nat 39].

(** The standard input: the lines still to be read. [input(prompt)] writes
    the prompt to the standard output and returns the next line, or raises
    [EOFError] when there is none. *)
Definition input (prompt : string) (stdin : list string) : M (string * list string) :=
  fun fs =>
    match stdin with
    | [] => ([EPrint prompt], fs, Raise "EOF when reading a line")
    | line :: rest => ([EPrint prompt], fs, Ok (line, rest))
    end.

Definition model_map : gmap string string :=
  {[ "1" := "tiny"; "2" := "base"; "3" := "small"; "4" := "medium"; "5" := "large" ]}.

(** The block under [if __name__ == "__main__"]. The value is the exit
    status of the process: [exit(1)] ends it with status 1, the end of the
    script with status 0; an exception nobody catches ends it with a
    traceback. *)
Definition main (w : World) (b : Builtins) (stdin : list string) : M Z :=
  '(line, stdin) ← input "请输入视频文件路径: " stdin;
  let video_path := strip_chars quote_chars (str_strip b line) in
  if String.eqb video_path "" then
    print "错误：未提供视频文件路径";;
    mret 1
  else
    print (newline +:+ "可用的Whisper模型:");;
    print "1. tiny - 最快，准确度最低";;
    print "2. base - 平衡速度和准确度（推荐）";;
    print "3. small - 较好准确度";;
    print "4. medium - 高准确度";;
    print "5. large - 最高准确度，需要更多资源";;
    '(line, stdin) ← input (newline +:+ "请选择模型 (1-5，默认为2): ") stdin;
    let model_choice := str_strip b line in
    let selected_model := default "base" (model_map !! model_choice) in
    print ("已选择模型: " +:+ selected_model);;
    '(line, stdin) ← input (newline +:+ "是否使用分段转录？(适合长视频，y/N): ") stdin;
    let segmentation_choice := str_lower b (str_strip b line) in
    let use_segmentation := bool_decide (segmentation_choice ∈ ["y"; "yes"; "是"]) in
    success ← (process_video_to_text w video_path selected_model use_segmentation : M bool);
    if success : bool then
      print (newline +:+ "🎉 视频转录完成！");;
      mret 0
    else
      print (newline +:+ "❌ 视频转录失败。");;
      mret 0.

(** ** Vocabulary for the properties of the entry point *)

(** The model names of the menu. *)
Definition whisper_models : list string := ["tiny"; "base"; "small"; "medium"; "large"].

(** The lines the entry point prints before it asks for the model. *)
Definition menu : list event :=
  [EPrint (newline +:+ "可用的Whisper模型:");
   EPrint "1. tiny - 最快，准确度最低";
   EPrint "2. base - 平衡速度和准确度（推荐）";
   EPrint "3. small - 较好准确度";
   EPrint "4. medium - 高准确度";
   EPrint "5. large - 最高准确度，需要更多资源"].

(** What the entry point has printed when it calls
    [process_video_to_text]. *)
Definition dialogue (selected_model : string) : list event :=
  [EPrint "请输入视频文件路径: "] ++ menu ++
  [EPrint (newline +:+ "请选择模型 (1-5，默认为2): ");
   EPrint ("已选择模型: " +:+ selected_model);
   EPrint (newline +:+ "是否使用分段转录？(适合长视频，y/N): ")].

(** The last line of a run that reached [process_video_to_text]. *)
Definition final_banner (success : bool) : string :=
  if success then newline +:+ "🎉 视频转录完成！" else newline +:+ "❌ 视频转录失败。".

(** All characters of [s] are in [chars]. *)
Fixpoint all_in (chars : list ascii) (s : string) : bool :=
  match s with
  | EmptyString => true
  | String a r => char_in chars a && all_in chars r
  end.

(** The first, the last character of [s] is in [chars]. *)
Definition starts_in (chars : list ascii) (s : string) : bool :=
  match s with
  | EmptyString => false
  | String a _ => char_in chars a
  end.

Fixpoint ends_in (chars : list ascii) (s : string) : bool :=
  match s with
  | EmptyString => false
  | String a EmptyString => char_in chars a
  | String _ r => ends_in chars r
  end.

(** The two methods on ASCII text: white space is the six characters of
    [string.whitespace] and the four separators 28 to 31, and the capital
    letters are [A] to [Z]. *)
Definition ascii_whitespace : list ascii :=
  map ascii_of_nat [32; 9; 10; 11; 12; 13; 28; 29; 30; 31]%nat.

Definition ascii_lower_char (c : ascii) : ascii :=
  let n := nat_of_ascii c in
  if (65 <=? n)%nat && (n <=? 90)%nat then ascii_of_nat (n + 32) else c.

Fixpoint ascii_lower (s : string) : string :=
  match s with
  | EmptyString => EmptyString
  | String a r => String (ascii_lower_char a) (ascii_lower r)
  end.

Definition ascii_builtins : Builtins :=
  {| str_strip := strip_chars ascii_whitespace; str_lower := ascii_lower |}.

(** The operations only segmented mode needs. *)
Definition chunk_op (o : op) : bool :=
  match o with
  | OpMakedirs _ | OpFromFile _ | OpSplitOnSilence _ _ _ | OpExport _
  | OpRmtree _ => true
  | _ => false
  end.

(** ** More worlds to run the program in *)

(** A world like [demo_world] in which no video can be opened. *)
Definition unreadable_world : World :=
  {| Clip := string; Audio := string; Chunk := string; Model := string;
     lib_VideoFileClip := fun _ => Raise "MoviePy error: the file could not be read";
     lib_write_audiofile := fun video _ => Ok ("mp3:" +:+ video);
     lib_write_audiofile_partial := fun _ _ => None;
     lib_from_file := fun bytes => Ok bytes;
     lib_split_on_silence := fun _ _ _ _ => Ok [];
     lib_export := fun chunk _ => Ok chunk;
     lib_load_model := fun model_name => Ok model_name;
     lib_transcribe := fun _ bytes => Ok bytes;
     os_fault := fun _ => None |}.

(** A world like [demo_world] in which the extraction breaks off after it
    has written the first bytes of the audio file. *)
Definition truncating_world : World :=
  {| Clip := string; Audio := string; Chunk := string; Model := string;
     lib_VideoFileClip := fun video_path => Ok video_path;
     lib_write_audiofile := fun _ _ => Raise "[Errno 28] No space left on device";
     lib_write_audiofile_partial := fun _ _ => Some "mp3:";
     lib_from_file := fun bytes => Ok bytes;
     lib_split_on_silence := fun _ _ _ _ => Ok [];
     lib_export := fun chunk _ => Ok chunk;
     lib_load_model := fun model_name => Ok model_name;
     lib_transcribe := fun _ bytes => Ok bytes;
     os_fault := fun _ => None |}.


(** An event of direct mode. *)
Definition not_chunk_op (e : event) : Prop :=
  match e with
  | ECall o _ => chunk_op o = false
  | EPrint _ => True
  end.

End EntryPoint.

(* ===================================================================== *)
(** * Facts about strings and paths *)
(* ===================================================================== *)

Module PathFacts.
Import Path Spec.

#[local] Arguments String.append : simpl nomatch.

Lemma str_app_nil_r (s : string) : s +:+ "" = s.
Proof. induction s as [|a s IH]; simpl; [reflexivity | now rewrite IH]. Qed.

Lemma str_app_assoc (a b c : string) : (a +:+ b) +:+ c = a +:+ (b +:+ c).
Proof. induction a as [|x a IH]; simpl; [reflexivity | now rewrite IH]. Qed.

Lemma str_length_app (a b : string) :
  String.length (a +:+ b) = (String.length a + String.length b)%nat.
Proof. induction a as [|x a IH]; simpl; [reflexivity | now rewrite IH]. Qed.

Lemma contains_app (c : ascii) (a b : string) :
  contains c (a +:+ b) = contains c a || contains c b.
Proof.
  induction a as [|x a IH]; simpl; [reflexivity|].
  rewrite IH. now destruct (Ascii.eqb x c).
Qed.

Lemma str_drop_app (a b : string) : str_drop (String.length a) (a +:+ b) = b.
Proof. induction a as [|x a IH]; simpl; [now destruct b | exact IH]. Qed.

Lemma str_take_app (a b : string) : str_take (String.length a) (a +:+ b) = a.
Proof.
  induction a as [|x a IH]; simpl; [now destruct b | now rewrite IH].
Qed.

Lemma str_take_drop (n : nat) (s : string) : str_take n s +:+ str_drop n s = s.
Proof.
  revert s. induction n as [|n IH]; intros s; [reflexivity|].
  destruct s as [|a s]; simpl; [reflexivity | now rewrite IH].
Qed.

(** The occurrences of a character in a string: none, or a last one. *)
Lemma last_occurrence (c : ascii) (s : string) :
  contains c s = false ∨
  ∃ a b, s = a +:+ String c b ∧ contains c b = false.
Proof.
  induction s as [|x s IH]; [now left|].
  destruct IH as [Hno | (a & b & -> & Hb)].
  - simpl. destruct (Ascii.eqb_spec x c) as [->|Hne].
    + right. exists "", s. now split.
    + left. exact Hno.
  - right. exists (String x a), b. now split.
Qed.

Lemma rfind_from_absent (c : ascii) (s : string) (i last : Z) :
  contains c s = false → rfind_from c s i last = last.
Proof.
  revert i last. induction s as [|x s IH]; intros i last H; [reflexivity|].
  simpl in *. apply orb_false_iff in H as [Hx Hs].
  rewrite Hx. now apply IH.
Qed.

Lemma rfind_from_app (c : ascii) (a b : string) (i last : Z) :
  rfind_from c (a +:+ b) i last =
  rfind_from c b (i + Z.of_nat (String.length a)) (rfind_from c a i last).
Proof.
  revert i last. induction a as [|x a IH]; intros i last; simpl.
  - now rewrite Z.add_0_r.
  - rewrite IH. f_equal. lia.
Qed.

Lemma rfind_absent (c : ascii) (s : string) :
  contains c s = false → rfind s c = -1.
Proof. apply rfind_from_absent. Qed.

Lemma rfind_last (c : ascii) (a b : string) :
  contains c b = false → rfind (a +:+ String c b) c = Z.of_nat (String.length a).
Proof.
  intros Hb. unfold rfind. rewrite rfind_from_app. simpl.
  rewrite Ascii.eqb_refl. now rewrite rfind_from_absent.
Qed.

(** ** [basename] *)

Lemma basename_bare (b : string) : contains sep b = false → basename b = b.
Proof. intros H. unfold basename. now rewrite rfind_absent. Qed.

Lemma basename_app (a b : string) :
  contains sep b = false → basename (a +:+ String sep b) = b.
Proof.
  intros H. unfold basename, slice_from. rewrite rfind_last by exact H.
  replace (Z.to_nat (Z.of_nat (String.length a) + 1))
    with (String.length (a +:+ String sep "")) by (rewrite str_length_app; simpl; lia).
  replace (a +:+ String sep b) with ((a +:+ String sep "") +:+ b)
    by now rewrite str_app_assoc.
  apply str_drop_app.
Qed.

Lemma basename_no_sep (p : string) : contains sep (basename p) = false.
Proof.
  destruct (last_occurrence sep p) as [H | (a & b & -> & H)].
  - now rewrite basename_bare.
  - now rewrite basename_app.
Qed.

(** ** [splitext] *)

Lemma splitext_loop_concat (p : string) (d : Z) (todo : nat) :
  fst (splitext_loop p d todo) +:+ snd (splitext_loop p d todo) = p.
Proof.
  induction todo as [|k IH]; simpl.
  - apply str_app_nil_r.
  - destruct (negb _); [apply str_take_drop | exact IH].
Qed.

(** [root + ext == p], as the documentation of [os.path.splitext] says. *)
Lemma splitext_concat (p : string) : fst (splitext p) +:+ snd (splitext p) = p.
Proof.
  unfold splitext. destruct (_ <? _).
  - apply splitext_loop_concat.
  - apply str_app_nil_r.
Qed.

Lemma splitext_no_sep (p : string) :
  contains sep p = false → contains sep (fst (splitext p)) = false.
Proof.
  intros H. rewrite <- (splitext_concat p), contains_app in H.
  now apply orb_false_iff in H as [H _].
Qed.


Lemma slice_one (pre r : string) (c : ascii) :
  slice (pre +:+ String c r) (Z.of_nat (String.length pre))
        (Z.of_nat (String.length pre) + 1) = String c "".
Proof.
  unfold slice.
  replace (Z.to_nat (_ + 1 - _)) with 1%nat by lia.
  rewrite Nat2Z.id, str_drop_app. reflexivity.
Qed.

Lemma splitext_loop_found (pre suf rest : string) :
  all_dots suf = false →
  splitext_loop ((pre +:+ suf) +:+ rest)
    (Z.of_nat (String.length (pre +:+ suf))) (String.length suf)
  = (pre +:+ suf, rest).
Proof.
  revert pre. induction suf as [|c suf IH]; intros pre Hdots; [discriminate|].
  cbn [String.length splitext_loop].
  replace (Z.of_nat (String.length (pre +:+ String c suf)) -
           Z.of_nat (S (String.length suf)))
    with (Z.of_nat (String.length pre)) by (rewrite str_length_app; simpl; lia).
  assert (Hs : slice ((pre +:+ String c suf) +:+ rest) (Z.of_nat (String.length pre))
                 (Z.of_nat (String.length pre) + 1) = String c "")
    by (rewrite str_app_assoc; exact (slice_one pre (suf +:+ rest) c)).
  rewrite Hs; clear Hs.
  destruct (Ascii.eqb_spec c extsep) as [->|Hne].
  - simpl in Hdots. simpl negb.
    replace (pre +:+ String extsep suf) with ((pre +:+ String extsep "") +:+ suf)
      by now rewrite str_app_assoc.
    apply IH. exact Hdots.
  - replace (String.eqb (String c "") (String extsep "")) with false.
    + simpl negb. cbv iota.
      unfold slice_to, slice_from. rewrite Nat2Z.id.
      now rewrite str_take_app, str_drop_app.
    + symmetry. apply String.eqb_neq. congruence.
Qed.

(** A file name [stem.ext] whose stem is not made of dots only and whose
    extension has no further dot is split at that dot. *)
Lemma splitext_stem_ext (stem ext : string) :
  contains sep stem = false → all_dots stem = false →
  contains sep ext = false → contains extsep ext = false →
  splitext (stem +:+ String extsep ext) = (stem, String extsep ext).
Proof.
  intros Hs Hd He Hx. unfold splitext.
  rewrite rfind_absent by (rewrite contains_app; simpl; now rewrite Hs, He).
  rewrite rfind_last by exact Hx.
  replace (-1 <? Z.of_nat (String.length stem)) with true
    by (symmetry; apply Z.ltb_lt; lia).
  replace (Z.to_nat (Z.of_nat (String.length stem) - (-1 + 1)))
    with (String.length stem) by lia.
  exact (splitext_loop_found "" stem (String extsep ext) Hd).
Qed.

End PathFacts.

(* ===================================================================== *)
(** * Reasoning about runs *)
(* ===================================================================== *)

Module EffectFacts.
Import Effects Spec.

Lemma run_bind {A B} (m : M A) (k : A -> M B) (fs : FS) :
  (m ≫= k) fs =
  match result_of (m fs) with
  | Ok a => (trace_of (m fs) ++ trace_of (k a (fs_of (m fs))),
             fs_of (k a (fs_of (m fs))),
             result_of (k a (fs_of (m fs))))
  | Raise e => (trace_of (m fs), fs_of (m fs), Raise e)
  end.
Proof.
  unfold mbind, M_bind, bind, trace_of, fs_of, result_of.
  destruct (m fs) as [[t1 fs1] [a|e]]; simpl; [|reflexivity].
  now destruct (k a fs1) as [[t2 fs2] r].
Qed.

Lemma run_try_except {A} (m : M A) (h : string -> M A) (fs : FS) :
  try_except m h fs =
  match result_of (m fs) with
  | Ok a => (trace_of (m fs), fs_of (m fs), Ok a)
  | Raise e => (trace_of (m fs) ++ trace_of (h e (fs_of (m fs))),
                fs_of (h e (fs_of (m fs))),
                result_of (h e (fs_of (m fs))))
  end.
Proof.
  unfold try_except, trace_of, fs_of, result_of.
  destruct (m fs) as [[t1 fs1] [a|e]]; simpl; [reflexivity|].
  now destruct (h e fs1) as [[t2 fs2] r].
Qed.


Section Keeps.
Context (E : event -> Prop) (R : FS -> FS -> Prop).
Context `{!Reflexive R, !Transitive R}.

Lemma keeps_ret {A} (a : A) : keeps E R (mret a).
Proof. intros fs. split; [constructor | reflexivity]. Qed.

Lemma keeps_get_fs : keeps E R get_fs.
Proof. intros fs. split; [constructor | reflexivity]. Qed.

Lemma keeps_print (line : string) : E (EPrint line) → keeps E R (print line).
Proof. intros H fs. split; [repeat constructor; exact H | reflexivity]. Qed.

Lemma keeps_call {A} (o : op) (body : FS -> result (A * FS)) :
  (∀ ok, E (ECall o ok)) →
  (∀ fs a fs', body fs = Ok (a, fs') → R fs fs') →
  keeps E R (call o body).
Proof.
  intros HE HR fs. unfold call, trace_of, fs_of.
  destruct (body fs) as [[a fs']|e] eqn:Hb; simpl.
  - split; [repeat constructor; apply HE | eapply HR, Hb].
  - split; [repeat constructor; apply HE | reflexivity].
Qed.

Lemma keeps_bind {A B} (m : M A) (k : A -> M B) :
  keeps E R m → (∀ a, keeps E R (k a)) → keeps E R (m ≫= k).
Proof.
  intros Hm Hk fs. rewrite run_bind.
  destruct (Hm fs) as [Ht Hf].
  destruct (result_of (m fs)) as [a|e]; [|by split].
  destruct (Hk a (fs_of (m fs))) as [Ht' Hf'].
  unfold trace_of, fs_of in *; simpl. split.
  - apply Forall_app; by split.
  - etrans; eassumption.
Qed.

Lemma keeps_try_except {A} (m : M A) (h : string -> M A) :
  keeps E R m → (∀ e, keeps E R (h e)) → keeps E R (try_except m h).
Proof.
  intros Hm Hh fs. rewrite run_try_except.
  destruct (Hm fs) as [Ht Hf].
  destruct (result_of (m fs)) as [a|e]; [by split|].
  destruct (Hh e (fs_of (m fs))) as [Ht' Hf'].
  unfold trace_of, fs_of in *; simpl. split.
  - apply Forall_app; by split.
  - etrans; eassumption.
Qed.

Lemma keeps_when (c : bool) (m : M unit) :
  keeps E R m → keeps E R (when c m).
Proof. intros Hm. destruct c; [exact Hm | apply keeps_ret]. Qed.

End Keeps.



End EffectFacts.

Module ProgramFacts.
Import Effects Transcriber Spec PathFacts EffectFacts.

Section Keeps.
Context (w : World) (E : event -> Prop) (R : FS -> FS -> Prop).
Context `{!Reflexive R, !Transitive R}.
Hypothesis E_print : ∀ line, E (EPrint line).

Lemma keeps_print' (line : string) : keeps E R (print line).
Proof. apply keeps_print; [apply _ | apply E_print]. Qed.

(** *** The external calls *)

Lemma keeps_pure_call {A B} (o : op) (r : result A) (f : A -> B) :
  (∀ ok, E (ECall o ok)) →
  keeps E R (call o (fun fs => match r with Ok a => Ok (f a, fs) | Raise e => Raise e end)).
Proof.
  intros HE. apply keeps_call; [apply _..|exact HE|].
  intros fs a fs'. destruct r; intros [= <- <-]. reflexivity.
Qed.

Lemma keeps_VideoFileClip (video_path : string) :
  (∀ ok, E (ECall (OpVideoFileClip video_path) ok)) →
  keeps E R (VideoFileClip w video_path).
Proof. intros HE. exact (keeps_pure_call _ _ (fun a => a) HE). Qed.

Lemma keeps_write_audiofile (video : Clip w) (p : string) :
  (∀ ok, E (ECall (OpWriteAudiofile p) ok)) →
  (∀ bytes fs, R fs (fs_write p bytes fs)) →
  keeps E R (write_audiofile w video p).
Proof.
  intros HE HR fs. unfold write_audiofile, call_writing, trace_of, fs_of.
  destruct (lib_write_audiofile _ _ _); simpl.
  - split; [repeat constructor; apply HE | apply HR].
  - split; [repeat constructor; apply HE|].
    destruct (lib_write_audiofile_partial _ _ _); [apply HR | reflexivity].
Qed.

Lemma keeps_from_file (p : string) :
  (∀ ok, E (ECall (OpFromFile p) ok)) →
  keeps E R (AudioSegment_from_file w p).
Proof.
  intros HE. apply keeps_call; [apply _..|exact HE|].
  intros fs a fs'. destruct (files fs !! p); [|discriminate].
  destruct (lib_from_file _ _); intros [= <- <-]. reflexivity.
Qed.

Lemma keeps_split_on_silence (audio : Audio w) (msl thr keep : Z) :
  (∀ ok, E (ECall (OpSplitOnSilence msl thr keep) ok)) →
  keeps E R (split_on_silence w audio msl thr keep).
Proof. intros HE. exact (keeps_pure_call _ _ (fun a => a) HE). Qed.

Lemma keeps_chunk_export (chunk : Chunk w) (p : string) :
  (∀ ok, E (ECall (OpExport p) ok)) →
  (∀ bytes fs, R fs (fs_write p bytes fs)) →
  keeps E R (chunk_export w chunk p).
Proof.
  intros HE HR. apply keeps_call; [apply _..|exact HE|].
  intros fs [] fs'. destruct (lib_export _ _ _); intros [= <-]. apply HR.
Qed.

Lemma keeps_load_model (model_name : string) :
  (∀ ok, E (ECall (OpLoadModel model_name) ok)) →
  keeps E R (whisper_load_model w model_name).
Proof. intros HE. exact (keeps_pure_call _ _ (fun a => a) HE). Qed.

Lemma keeps_model_transcribe (model : Model w) (p : string) :
  (∀ ok, E (ECall (OpTranscribe p) ok)) →
  keeps E R (model_transcribe w model p).
Proof.
  intros HE. apply keeps_call; [apply _..|exact HE|].
  intros fs a fs'. destruct (files fs !! p); [|discriminate].
  destruct (lib_transcribe _ _ _); intros [= <- <-]. reflexivity.
Qed.

Lemma keeps_os_path_exists (p : string) : keeps E R (os_path_exists p).
Proof.
  apply keeps_bind; [apply _..|apply keeps_get_fs; apply _|].
  intros fs. apply keeps_ret; apply _.
Qed.

Lemma keeps_os_makedirs (p : string) :
  (∀ ok, E (ECall (OpMakedirs p) ok)) →
  (∀ fs, R fs (fs_mkdir p fs)) →
  keeps E R (os_makedirs w p).
Proof.
  intros HE HR. apply keeps_call; [apply _..|exact HE|].
  intros fs [] fs'. destruct (os_fault _ _); [discriminate|].
  destruct (path_exists fs p); intros [= <-]. apply HR.
Qed.

Lemma keeps_os_remove (p : string) :
  (∀ ok, E (ECall (OpRemove p) ok)) →
  (∀ fs, R fs (fs_delete p fs)) →
  keeps E R (os_remove w p).
Proof.
  intros HE HR. apply keeps_call; [apply _..|exact HE|].
  intros fs [] fs'. destruct (os_fault _ _); [discriminate|].
  destruct (files fs !! p); intros [= <-]. apply HR.
Qed.

Lemma keeps_shutil_rmtree (p : string) :
  (∀ ok, E (ECall (OpRmtree p) ok)) →
  (∀ fs, R fs (fs_rmtree p fs)) →
  keeps E R (shutil_rmtree w p).
Proof.
  intros HE HR. apply keeps_call; [apply _..|exact HE|].
  intros fs [] fs'. destruct (os_fault _ _); [discriminate|].
  destruct (bool_decide _); intros [= <-]. apply HR.
Qed.

Lemma keeps_open_write (p text : string) :
  (∀ ok, E (ECall (OpOpenWrite p) ok)) →
  (∀ fs, R fs (fs_write p text fs)) →
  keeps E R (open_write w p text).
Proof.
  intros HE HR. apply keeps_call; [apply _..|exact HE|].
  intros fs [] fs'. destruct (os_fault _ _); [discriminate|].
  destruct (bool_decide _); intros [= <-]. apply HR.
Qed.

(** The loop over the chunks only exports, transcribes and removes chunk
    files. *)
Lemma keeps_transcribe_chunks (model : Model w) (output_dir : string) (total : nat)
    (i : nat) (chunks : list (Chunk w)) (full_text : list string) :
  (∀ i ok, E (ECall (OpExport (chunk_filename_of output_dir i)) ok)) →
  (∀ i ok, E (ECall (OpTranscribe (chunk_filename_of output_dir i)) ok)) →
  (∀ i ok, E (ECall (OpRemove (chunk_filename_of output_dir i)) ok)) →
  (∀ i bytes fs, R fs (fs_write (chunk_filename_of output_dir i) bytes fs)) →
  (∀ i fs, R fs (fs_delete (chunk_filename_of output_dir i) fs)) →
  keeps E R (transcribe_chunks w model output_dir total i chunks full_text).
Proof.
  intros Hex Htr Hrm Hw Hd. revert i full_text.
  induction chunks as [|chunk rest IH]; intros i full_text.
  - apply keeps_ret; apply _.
  - cbn [transcribe_chunks].
    apply keeps_bind; [apply _..| |intros _].
    { apply keeps_chunk_export; [apply Hex | apply Hw]. }
    apply keeps_bind; [apply _..|apply keeps_print'|intros _].
    apply keeps_bind; [apply _..| |intros text].
    { apply keeps_model_transcribe, Htr. }
    apply keeps_bind; [apply _..|apply keeps_print'|intros _].
    apply keeps_bind; [apply _..| |intros _; apply IH].
    apply keeps_try_except; [apply _..| |intros e; apply keeps_print'].
    apply keeps_bind; [apply _..| |intros _; apply keeps_print'].
    apply keeps_os_remove; [apply Hrm | apply Hd].
Qed.

End Keeps.

Definition only_chunks (output_dir : string) : relation FS :=
  fun fs fs' =>
    ∀ q, (∀ i, q ≠ chunk_filename_of output_dir i) → files fs' !! q = files fs !! q.

#[global] Instance any_fs_refl : Reflexive any_fs.
Proof. by intros ?. Qed.
#[global] Instance any_fs_trans : Transitive any_fs.
Proof. by intros ???. Qed.
#[global] Instance untouched_refl q : Reflexive (untouched q).
Proof. by intros ?. Qed.
#[global] Instance untouched_trans q : Transitive (untouched q).
Proof. unfold untouched. intros ??? H1 H2. by rewrite H2. Qed.
#[global] Instance only_chunks_refl d : Reflexive (only_chunks d).
Proof. by intros ??. Qed.
#[global] Instance only_chunks_trans d : Transitive (only_chunks d).
Proof. intros ??? H1 H2 q Hq. by rewrite H2, H1. Qed.

Ltac keeps_step :=
  lazymatch goal with
  | |- keeps _ _ (mret _) => apply keeps_ret; apply _
  | |- keeps _ _ (_ ≫= _) => apply keeps_bind; [apply _ .. | | intros ?]
  | |- keeps _ _ (try_except _ _) => apply keeps_try_except; [apply _ .. | | intros ?]
  | |- keeps _ _ (when _ _) => apply keeps_when; [apply _ .. | ]
  | |- keeps _ _ (print _) => apply keeps_print'; [apply _ .. | ]
  | |- keeps _ _ (os_path_exists _) => apply keeps_os_path_exists; apply _
  | |- keeps _ _ (VideoFileClip _ _) => apply keeps_VideoFileClip; [apply _ .. | ]
  | |- keeps _ _ (write_audiofile _ _ _) => apply keeps_write_audiofile; [apply _ .. | | ]
  | |- keeps _ _ (AudioSegment_from_file _ _) => apply keeps_from_file; [apply _ .. | ]
  | |- keeps _ _ (split_on_silence _ _ _ _ _) => apply keeps_split_on_silence; [apply _ .. | ]
  | |- keeps _ _ (chunk_export _ _ _) => apply keeps_chunk_export; [apply _ .. | | ]
  | |- keeps _ _ (whisper_load_model _ _) => apply keeps_load_model; [apply _ .. | ]
  | |- keeps _ _ (model_transcribe _ _ _) => apply keeps_model_transcribe; [apply _ .. | ]
  | |- keeps _ _ (os_makedirs _ _) => apply keeps_os_makedirs; [apply _ .. | | ]
  | |- keeps _ _ (os_remove _ _) => apply keeps_os_remove; [apply _ .. | | ]
  | |- keeps _ _ (shutil_rmtree _ _) => apply keeps_shutil_rmtree; [apply _ .. | | ]
  | |- keeps _ _ (open_write _ _ _) => apply keeps_open_write; [apply _ .. | | ]
  | |- keeps _ _ (transcribe_chunks _ _ _ _ _ _ _) =>
      apply keeps_transcribe_chunks; [apply _ .. | | | | | | ]
  | |- keeps _ _ (if ?b then _ else _) => destruct b
  | |- keeps _ _ (match ?x with _ => _ end) => destruct x
  end.


Lemma split_and_transcribe_audio_footprint (w : World)
    (audio_path output_dir : string) (msl thr : Z) (model_name : string) :
  keeps (split_event audio_path output_dir msl thr model_name) (only_chunks output_dir)
    (split_and_transcribe_audio w audio_path output_dir msl thr model_name).
Proof.
  unfold split_and_transcribe_audio.
  repeat keeps_step; try (intros; by constructor).
  - intros i bytes fs q Hq. simpl. apply lookup_insert_ne. intros Heq. by apply (Hq i).
  - intros i fs q Hq. simpl. apply lookup_delete_ne. intros Heq. by apply (Hq i).
Qed.

(** ** Names *)

Lemma str_drop_app_plus (a b : string) (n : nat) :
  Path.str_drop (String.length a + n) (a +:+ b) = Path.str_drop n b.
Proof. induction a as [|x a IH]; [reflexivity | exact IH]. Qed.

Lemma ends_with_sep_app (a b : string) (c : ascii) :
  Path.ends_with_sep (a +:+ String c b) = Path.ends_with_sep (String c b).
Proof.
  unfold Path.ends_with_sep, Path.slice_from. rewrite str_length_app.
  replace (Z.to_nat (Z.of_nat (String.length a + String.length (String c b)) - 1))
    with (String.length a + String.length b)%nat by (simpl; lia).
  rewrite str_drop_app_plus.
  replace (Z.to_nat (Z.of_nat (String.length (String c b)) - 1))
    with (String.length b) by (simpl; lia).
  reflexivity.
Qed.

Lemma app_not_empty (a b : string) (c : ascii) : a +:+ String c b ≠ "".
Proof. destruct a; discriminate. Qed.

Lemma chunk_filename_in_chunks_dir (name : string) (i : nat) :
  chunk_filename_of (name +:+ "_audio_chunks") i =
  name +:+ "_audio_chunks/chunk_" +:+ pretty i +:+ ".wav".
Proof.
  unfold chunk_filename_of, Path.join.
  change (Path.starts_with_sep _) with false. cbv iota.
  rewrite ends_with_sep_app.
  change (Path.ends_with_sep _) with false. rewrite orb_false_r.
  destruct (String.eqb_spec (name +:+ "_audio_chunks") "") as [H|_].
  - by apply app_not_empty in H.
  - by rewrite !str_app_assoc.
Qed.

Lemma audio_file_not_chunk (name : string) (i : nat) :
  name +:+ "_temp_audio.mp3" ≠ chunk_filename_of (name +:+ "_audio_chunks") i.
Proof.
  rewrite chunk_filename_in_chunks_dir. intros H.
  apply String.app_inj in H. discriminate.
Qed.

Lemma text_file_not_chunk (name : string) (i : nat) :
  name +:+ ".txt" ≠ chunk_filename_of (name +:+ "_audio_chunks") i.
Proof.
  rewrite chunk_filename_in_chunks_dir. intros H.
  apply String.app_inj in H. discriminate.
Qed.

Lemma text_file_not_audio (name : string) :
  name +:+ ".txt" ≠ name +:+ "_temp_audio.mp3".
Proof. intros H. apply String.app_inj in H. discriminate. Qed.

Lemma prefix_app (a b c : string) : String.prefix (a +:+ b) (a +:+ c) = String.prefix b c.
Proof.
  induction a as [|x a IH]; [reflexivity|].
  cbn [String.prefix]. change (String x a +:+ b) with (String x (a +:+ b)).
  change (String x a +:+ c) with (String x (a +:+ c)). cbn [String.prefix].
  by destruct (ascii_dec x x).
Qed.

Lemma text_file_not_below_chunks_dir (name : string) :
  below (name +:+ "_audio_chunks") (name +:+ ".txt") = false.
Proof. unfold below. by rewrite str_app_assoc, prefix_app. Qed.

(** ** Chunk files on disk *)

Lemma live_app (a b : list event) (s : gset string) :
  live (a ++ b) s = live b (live a s).
Proof. apply foldl_app. Qed.

Lemma size_le_peak (t : list event) (s : gset string) : (size s ≤ peak t s)%nat.
Proof. destruct t; simpl; lia. Qed.

Lemma peak_app (a b : list event) (s : gset string) :
  peak (a ++ b) s = Nat.max (peak a s) (peak b (live a s)).
Proof.
  revert s. induction a as [|e a IH]; intros s; simpl.
  - pose proof (size_le_peak b s). lia.
  - rewrite IH. unfold live. lia.
Qed.

(** ** The loop over the chunks *)

Section Runs.
Context (w : World).

Lemma lookup_fs_write_eq (p c : string) (fs : FS) :
  files (fs_write p c fs) !! p = Some c.
Proof. apply lookup_insert_eq. Qed.

Lemma transcribe_chunks_success (model : Model w) (output_dir : string) (total : nat)
    (chunks : list (Chunk w)) :
  ∀ i full_text texts fs,
    chunk_texts w model output_dir i chunks = Ok texts →
    transcribe_chunks w model output_dir total i chunks full_text fs =
    (flat_map (iteration_trace w output_dir total) (seq i (List.length chunks)),
     chunks_fs w output_dir i chunks fs,
     Ok (full_text ++ texts)).
Proof.
  induction chunks as [|chunk rest IH]; intros i full_text texts fs H.
  - injection H as <-. simpl. by rewrite app_nil_r.
  - cbn [transcribe_chunks chunk_texts chunks_fs List.length seq flat_map] in *.
    unfold chunk_result, iteration_fs, iteration_trace in *.
    destruct (lib_export w chunk _) as [bytes|] eqn:Hex; [|discriminate].
    destruct (lib_transcribe w model bytes) as [text|] eqn:Htr; [|discriminate].
    destruct (chunk_texts w model output_dir (S i) rest) as [ts|] eqn:Hts; [|discriminate].
    injection H as <-.
    unfold mbind, M_bind, bind, chunk_export, model_transcribe, os_remove, try_except, call, print.
    rewrite Hex, lookup_fs_write_eq, Htr.
    destruct (os_fault w (OpRemove _)) as [e|] eqn:Hf.
    + rewrite (IH (S i) (full_text ++ [text]) ts _ Hts). cbn [app].
      by rewrite <- (assoc_L _ full_text).
    + rewrite lookup_fs_write_eq.
      rewrite (IH (S i) (full_text ++ [text]) ts _ Hts). cbn [app].
      by rewrite <- (assoc_L _ full_text).
Qed.


Lemma transcribe_chunks_result (model : Model w) (output_dir : string) (total : nat)
    (chunks : list (Chunk w)) :
  ∀ i full_text fs,
    result_of (transcribe_chunks w model output_dir total i chunks full_text fs) =
    match chunk_texts w model output_dir i chunks with
    | Ok texts => Ok (full_text ++ texts)
    | Raise e => Raise e
    end.
Proof.
  induction chunks as [|chunk rest IH]; intros i full_text fs.
  - simpl. by rewrite app_nil_r.
  - cbn [transcribe_chunks chunk_texts]. unfold chunk_result.
    unfold mbind, M_bind, bind, chunk_export, model_transcribe, os_remove,
      try_except, call, print.
    destruct (lib_export w chunk _) as [bytes|e]; [|reflexivity].
    rewrite lookup_fs_write_eq.
    destruct (lib_transcribe w model bytes) as [text|e]; [|reflexivity].
    specialize (IH (S i) (full_text ++ [text])).
    destruct (os_fault w (OpRemove _)) as [e|].
    + specialize (IH (fs_write (chunk_filename_of output_dir i) bytes fs)).
      destruct (transcribe_chunks _ _ _ _ _ _ _ _) as [[t2 fs2] r2].
      cbn in *. rewrite IH. destruct (chunk_texts _ _ _ _); [|reflexivity].
      by rewrite <- (assoc_L _ full_text).
    + rewrite lookup_fs_write_eq.
      specialize (IH (fs_delete (chunk_filename_of output_dir i)
                       (fs_write (chunk_filename_of output_dir i) bytes fs))).
      destruct (transcribe_chunks _ _ _ _ _ _ _ _) as [[t2 fs2] r2].
      cbn in *. rewrite IH. destruct (chunk_texts _ _ _ _); [|reflexivity].
      by rewrite <- (assoc_L _ full_text).
Qed.

Lemma transcribe_chunks_abort (model : Model w) (output_dir : string) (total : nat)
    (chunks : list (Chunk w)) (p : string) :
  ∀ i full_text fs,
    ECall (OpTranscribe p) false ∈
      trace_of (transcribe_chunks w model output_dir total i chunks full_text fs) →
    ∃ t0 e,
      trace_of (transcribe_chunks w model output_dir total i chunks full_text fs) =
        t0 ++ [ECall (OpTranscribe p) false] ∧
      result_of (transcribe_chunks w model output_dir total i chunks full_text fs) =
        Raise e.
Proof.
  induction chunks as [|chunk rest IH]; intros i full_text fs.
  - simpl. intros H. by apply elem_of_nil in H.
  - cbn [transcribe_chunks].
    unfold mbind, M_bind, bind, chunk_export, model_transcribe, os_remove,
      try_except, call, print.
    destruct (lib_export w chunk _) as [bytes|e].
    2:{ cbn. intros H. apply list_elem_of_singleton in H. discriminate. }
    rewrite lookup_fs_write_eq.
    destruct (lib_transcribe w model bytes) as [text|e].
    2:{ cbn. intros H. rewrite !elem_of_cons in H.
        destruct H as [H|[H|[H|H]]]; try discriminate; [|by apply elem_of_nil in H].
        injection H as ->.
        eexists [_; _], e. by split. }
    specialize (IH (S i) (full_text ++ [text])).
    destruct (os_fault w (OpRemove _)) as [e|].
    + specialize (IH (fs_write (chunk_filename_of output_dir i) bytes fs)).
      destruct (transcribe_chunks _ _ _ _ _ _ _ _) as [[t2 fs2] r2].
      cbn in *. intros H. rewrite !elem_of_cons in H.
      destruct H as [H|[H|[H|[H|[H|[H|H]]]]]]; try discriminate.
      destruct (IH H) as (t0 & e' & -> & ->).
      eexists (_ :: _ :: _ :: _ :: _ :: _ :: t0), e'. by split.
    + rewrite lookup_fs_write_eq.
      specialize (IH (fs_delete (chunk_filename_of output_dir i)
                       (fs_write (chunk_filename_of output_dir i) bytes fs))).
      destruct (transcribe_chunks _ _ _ _ _ _ _ _) as [[t2 fs2] r2].
      cbn in *. intros H. rewrite !elem_of_cons in H.
      destruct H as [H|[H|[H|[H|[H|[H|H]]]]]]; try discriminate.
      destruct (IH H) as (t0 & e' & -> & ->).
      eexists (_ :: _ :: _ :: _ :: _ :: _ :: t0), e'. by split.
Qed.

(** ** [split_and_transcribe_audio], step by step *)

Lemma chunk_texts_lookup (model : Model w) (output_dir : string)
    (chunks : list (Chunk w)) :
  ∀ i texts,
    chunk_texts w model output_dir i chunks = Ok texts →
    List.length texts = List.length chunks ∧
    ∀ j chunk, chunks !! j = Some chunk →
      ∃ text, texts !! j = Some text ∧
              chunk_result w model output_dir (i + j) chunk = Ok text.
Proof.
  induction chunks as [|c rest IH]; intros i texts H.
  - injection H as <-. split; [reflexivity|]. intros j chunk Hj. discriminate.
  - cbn [chunk_texts] in H.
    destruct (chunk_result w model output_dir i c) as [text|] eqn:Hc; [|discriminate].
    destruct (chunk_texts w model output_dir (S i) rest) as [ts|] eqn:Hts; [|discriminate].
    injection H as <-. destruct (IH _ _ Hts) as [Hlen Hall]. split.
    + simpl. by rewrite Hlen.
    + intros [|j] chunk Hj.
      * injection Hj as <-. exists text. by rewrite Nat.add_0_r.
      * destruct (Hall j chunk Hj) as (t & Ht & Hr). exists t. split; [exact Ht|].
        by replace (i + S j)%nat with (S i + j)%nat by lia.
Qed.

Lemma split_makedirs_raises (audio_path output_dir : string) (msl thr : Z)
    (model_name : string) (fs : FS) (e : string) :
  path_exists fs output_dir = false →
  os_fault w (OpMakedirs output_dir) = Some e →
  split_and_transcribe_audio w audio_path output_dir msl thr model_name fs =
  ([ECall (OpMakedirs output_dir) false], fs, Raise e).
Proof.
  intros Hex Hf. unfold split_and_transcribe_audio.
  unfold mbind at 1, M_bind at 1, bind at 1, os_path_exists at 1.
  unfold mbind at 1, M_bind at 1, bind at 1, get_fs at 1, mret at 1, M_ret at 1, ret at 1.
  rewrite Hex. cbn [negb when].
  unfold mbind at 1, M_bind at 1, bind at 1, os_makedirs at 1, call at 1.
  by rewrite Hf.
Qed.

Lemma split_run_ready (audio_path output_dir : string) (msl thr : Z)
    (model_name : string) (fs : FS) :
  path_exists fs output_dir = true ∨ os_fault w (OpMakedirs output_dir) = None →
  let body := split_body w audio_path output_dir msl thr model_name
                (makedirs_fs fs output_dir) in
  split_and_transcribe_audio w audio_path output_dir msl thr model_name fs =
  (makedirs_trace fs output_dir ++ trace_of body, fs_of body, result_of body).
Proof.
  intros Hready body. subst body. unfold split_and_transcribe_audio.
  fold (split_body w audio_path output_dir msl thr model_name).
  unfold makedirs_trace, makedirs_fs.
  unfold mbind at 1, M_bind at 1, bind at 1, os_path_exists at 1.
  unfold mbind at 1, M_bind at 1, bind at 1, get_fs at 1, mret at 1, M_ret at 1, ret at 1.
  destruct (path_exists fs output_dir) eqn:Hex; cbn [negb when].
  - unfold mbind, M_bind, bind, ret.
    by destruct (split_body _ _ _ _ _ _ fs) as [[t f] r].
  - destruct Hready as [?|Hf]; [discriminate|].
    unfold mbind, M_bind, bind, os_makedirs, call. rewrite Hf, Hex.
    by destruct (split_body _ _ _ _ _ _ _) as [[t f] r].
Qed.

Lemma split_body_success (audio_path output_dir : string) (msl thr : Z)
    (model_name : string) (fs : FS) bytes audio chunks model texts :
  files fs !! audio_path = Some bytes →
  lib_from_file w bytes = Ok audio →
  lib_split_on_silence w audio msl thr 200 = Ok chunks →
  lib_load_model w model_name = Ok model →
  chunk_texts w model output_dir 0 chunks = Ok texts →
  split_body w audio_path output_dir msl thr model_name fs =
  (setup_trace audio_path msl thr model_name ++
   flat_map (iteration_trace w output_dir (List.length chunks))
     (seq 0 (List.length chunks)),
   chunks_fs w output_dir 0 chunks fs,
   Ok (Some (String.concat " " texts))).
Proof.
  intros Hb Ha Hc Hm Ht. unfold split_body.
  unfold try_except, mbind, M_bind, bind, AudioSegment_from_file, split_on_silence,
    whisper_load_model, call, print.
  rewrite Hb, Ha, Hc, Hm.
  rewrite (transcribe_chunks_success model output_dir _ chunks 0 [] texts fs Ht).
  unfold setup_trace, mret, M_ret, ret. cbn [app]. by rewrite List.app_nil_r.
Qed.

Lemma split_body_inv (audio_path output_dir : string) (msl thr : Z)
    (model_name : string) (fs : FS) (text : string) :
  result_of (split_body w audio_path output_dir msl thr model_name fs) = Ok (Some text) →
  ∃ bytes audio chunks model texts,
    files fs !! audio_path = Some bytes ∧
    lib_from_file w bytes = Ok audio ∧
    lib_split_on_silence w audio msl thr 200 = Ok chunks ∧
    lib_load_model w model_name = Ok model ∧
    chunk_texts w model output_dir 0 chunks = Ok texts ∧
    text = String.concat " " texts.
Proof.
  unfold split_body.
  unfold try_except, mbind, M_bind, bind, AudioSegment_from_file, split_on_silence,
    whisper_load_model, call, print.
  destruct (files fs !! audio_path) as [bytes|]; [|discriminate].
  destruct (lib_from_file w bytes) as [audio|] eqn:Ha; [|discriminate].
  destruct (lib_split_on_silence w audio msl thr 200) as [chunks|] eqn:Hc; [|discriminate].
  destruct (lib_load_model w model_name) as [model|] eqn:Hm; [|discriminate].
  pose proof (transcribe_chunks_result model output_dir (List.length chunks) chunks 0 [] fs) as Hr.
  destruct (transcribe_chunks _ _ _ _ _ _ _ _) as [[t2 fs2] r2].
  cbn in Hr. subst r2.
  destruct (chunk_texts w model output_dir 0 chunks) as [texts|] eqn:Ht; cbn; [|discriminate].
  intros [= <-]. by exists bytes, audio, chunks, model, texts.
Qed.

Lemma split_body_abort (audio_path output_dir : string) (msl thr : Z)
    (model_name : string) (fs : FS) (p : string) :
  ECall (OpTranscribe p) false ∈
    trace_of (split_body w audio_path output_dir msl thr model_name fs) →
  result_of (split_body w audio_path output_dir msl thr model_name fs) = Ok None ∧
  ∃ t0 e,
    trace_of (split_body w audio_path output_dir msl thr model_name fs) =
    t0 ++ [ECall (OpTranscribe p) false; EPrint ("分段和转录音频时发生错误: " +:+ e)].
Proof.
  unfold split_body.
  unfold try_except, mbind, M_bind, bind, AudioSegment_from_file, split_on_silence,
    whisper_load_model, call, print.
  destruct (files fs !! audio_path) as [bytes|].
  2:{ cbn. rewrite !elem_of_cons. intros [H|[H|H]]; try discriminate.
      by apply elem_of_nil in H. }
  destruct (lib_from_file w bytes) as [audio|].
  2:{ cbn. rewrite !elem_of_cons. intros [H|[H|H]]; try discriminate.
      by apply elem_of_nil in H. }
  destruct (lib_split_on_silence w audio msl thr 200) as [chunks|].
  2:{ cbn. rewrite !elem_of_cons. intros [H|[H|[H|H]]]; try discriminate.
      by apply elem_of_nil in H. }
  destruct (lib_load_model w model_name) as [model|].
  2:{ cbn. rewrite !elem_of_cons. intros [H|[H|[H|[H|H]]]]; try discriminate.
      by apply elem_of_nil in H. }
  pose proof (transcribe_chunks_abort model output_dir (List.length chunks) chunks p 0 [] fs) as Hab.
  pose proof (transcribe_chunks_result model output_dir (List.length chunks) chunks 0 [] fs) as Hr.
  destruct (transcribe_chunks _ _ _ _ _ _ _ _) as [[t2 fs2] r2].
  cbn [trace_of result_of fst snd] in *.
  destruct r2 as [full_text|e]; cbn; rewrite !elem_of_cons; intros [H|[H|[H|[H|H]]]];
    try discriminate.
  - rewrite List.app_nil_r in H. destruct (Hab H) as (? & ? & _ & ?). discriminate.
  - apply elem_of_app in H as [H|H].
    + destruct (Hab H) as (t0 & e' & -> & _). split; [reflexivity|].
      eexists (_ :: _ :: _ :: _ :: t0), e. by rewrite <- List.app_assoc.
    + rewrite elem_of_cons in H. destruct H as [H|H]; [discriminate|].
      by apply elem_of_nil in H.
Qed.

(** ** Chunk files during and after the loop *)

Lemma iteration_live (output_dir : string) (total i : nat) :
  os_fault w (OpRemove (chunk_filename_of output_dir i)) = None →
  live (iteration_trace w output_dir total i) ∅ = ∅ ∧
  peak (iteration_trace w output_dir total i) ∅ = 1%nat.
Proof.
  intros Hf. unfold iteration_trace. rewrite Hf. cbn.
  assert (H1 : ({[chunk_filename_of output_dir i]} ∪ ∅ : gset string) =
               {[chunk_filename_of output_dir i]}) by apply union_empty_r_L.
  assert (H2 : ({[chunk_filename_of output_dir i]} ∖ {[chunk_filename_of output_dir i]}
                : gset string) = ∅) by apply difference_diag_L.
  rewrite H1, H2, size_singleton, size_empty. done.
Qed.

Lemma iterations_live (output_dir : string) (total n : nat) :
  (∀ i, os_fault w (OpRemove (chunk_filename_of output_dir i)) = None) →
  ∀ i,
    live (flat_map (iteration_trace w output_dir total) (seq i n)) ∅ = ∅ ∧
    (peak (flat_map (iteration_trace w output_dir total) (seq i n)) ∅ ≤ 1)%nat.
Proof.
  intros Hf. induction n as [|n IH]; intros i.
  - cbn. rewrite size_empty. split; [done | lia].
  - cbn [seq flat_map]. rewrite live_app, peak_app.
    destruct (iteration_live output_dir total i (Hf i)) as [-> ->].
    destruct (IH (S i)) as [-> Hp]. split; [done | lia].
Qed.

Lemma chunks_fs_stays_absent (model : Model w) (output_dir : string)
    (chunks : list (Chunk w)) (q : string) :
  (∀ i, os_fault w (OpRemove (chunk_filename_of output_dir i)) = None) →
  ∀ i texts fs,
    chunk_texts w model output_dir i chunks = Ok texts →
    files fs !! q = None →
    files (chunks_fs w output_dir i chunks fs) !! q = None.
Proof.
  intros Hf. induction chunks as [|c rest IH]; intros i texts fs Ht Hq; [exact Hq|].
  cbn [chunk_texts chunks_fs] in *. unfold chunk_result, iteration_fs in *.
  destruct (lib_export w c _) as [bytes|]; [|discriminate].
  destruct (lib_transcribe w model bytes); [|discriminate].
  destruct (chunk_texts w model output_dir (S i) rest) as [ts|] eqn:Hts; [|discriminate].
  rewrite Hf. apply (IH _ _ _ Hts). cbn.
  destruct (decide (chunk_filename_of output_dir i = q)) as [<-|Hne].
  - apply lookup_delete_eq.
  - by rewrite lookup_delete_ne, lookup_insert_ne.
Qed.

Lemma chunks_fs_absent (model : Model w) (output_dir : string)
    (chunks : list (Chunk w)) :
  (∀ i, os_fault w (OpRemove (chunk_filename_of output_dir i)) = None) →
  ∀ i texts fs j,
    chunk_texts w model output_dir i chunks = Ok texts →
    (i ≤ j < i + List.length chunks)%nat →
    files (chunks_fs w output_dir i chunks fs) !! chunk_filename_of output_dir j = None.
Proof.
  intros Hf. induction chunks as [|c rest IH]; intros i texts fs j Ht Hj.
  { simpl in Hj. lia. }
  cbn [chunk_texts chunks_fs] in *.
  destruct (chunk_result w model output_dir i c) as [text|] eqn:Hc; [|discriminate].
  destruct (chunk_texts w model output_dir (S i) rest) as [ts|] eqn:Hts; [|discriminate].
  destruct (decide (j = i)) as [->|Hne].
  - apply (chunks_fs_stays_absent model output_dir rest _ Hf _ _ _ Hts).
    unfold iteration_fs, chunk_result in *.
    destruct (lib_export w c _) as [bytes|]; [|discriminate].
    rewrite Hf. apply lookup_delete_eq.
  - apply (IH _ _ _ _ Hts). simpl in Hj. lia.
Qed.

(** ** The parts of [process_video_to_text] *)

Lemma extract_total (video_path audio : string) (fs : FS) :
  ∃ b, result_of (extract_audio_from_video w video_path audio fs) = Ok b.
Proof.
  unfold extract_audio_from_video, try_except, mbind, M_bind, bind, VideoFileClip,
    write_audiofile, call, print.
  destruct (lib_VideoFileClip w video_path) as [video|]; [|by eexists].
  destruct (lib_write_audiofile w video audio); by eexists.
Qed.

Lemma extract_true (video_path audio : string) (fs : FS) :
  result_of (extract_audio_from_video w video_path audio fs) = Ok true →
  ∃ bytes, files (fs_of (extract_audio_from_video w video_path audio fs)) !! audio
           = Some bytes.
Proof.
  unfold extract_audio_from_video, try_except, mbind, M_bind, bind, VideoFileClip,
    write_audiofile, call, print.
  destruct (lib_VideoFileClip w video_path) as [video|]; [|discriminate].
  destruct (lib_write_audiofile w video audio) as [bytes|]; [|discriminate].
  intros _. exists bytes. apply lookup_fs_write_eq.
Qed.

Lemma extract_no_save (video_path audio q : string) :
  keeps (no_save q) any_fs (extract_audio_from_video w video_path audio).
Proof.
  unfold extract_audio_from_video. repeat keeps_step; by intros.
Qed.

Lemma whisper_load_fails (audio_path model_name e : string) (fs : FS) :
  lib_load_model w model_name = Raise e →
  transcribe_audio_with_whisper w audio_path model_name fs =
  ([EPrint ("正在加载 Whisper 模型: " +:+ model_name +:+ "...");
    ECall (OpLoadModel model_name) false;
    EPrint ("转录音频时发生错误: " +:+ e)], fs, Ok None).
Proof.
  intros H. unfold transcribe_audio_with_whisper, try_except, mbind, M_bind, bind,
    whisper_load_model, call, print.
  by rewrite H.
Qed.

Lemma transcriber_no_save (video_path model_name : string) (seg : bool) :
  keeps (no_save (audio_file_of video_path)) (untouched (audio_file_of video_path))
    (transcriber w video_path model_name seg).
Proof.
  unfold transcriber, transcribe_audio_with_whisper, split_and_transcribe_audio.
  repeat keeps_step; try (by intros); intros i; intros.
  - cbn. intros H. symmetry in H. revert H. apply audio_file_not_chunk.
  - unfold untouched. cbn. apply lookup_insert_ne.
    intros H. symmetry in H. revert H. apply audio_file_not_chunk.
  - unfold untouched. cbn. apply lookup_delete_ne.
    intros H. symmetry in H. revert H. apply audio_file_not_chunk.
Qed.

Lemma cleanup_frame (video_path : string) (seg : bool) :
  keeps (fun _ => True) (untouched (text_output_file_of video_path))
    (cleanup w video_path seg).
Proof.
  unfold cleanup. repeat keeps_step; try (by intros); intros fs; unfold untouched; cbn.
  - apply lookup_delete_ne. intros H. symmetry in H. revert H. apply text_file_not_audio.
  - destruct (files fs !! text_output_file_of video_path) as [text|] eqn:Ht.
    + apply map_lookup_filter_Some. split; [exact Ht|].
      apply text_file_not_below_chunks_dir.
    + apply map_lookup_filter_None. by left.
Qed.

Lemma cleanup_total (video_path : string) (seg : bool) (fs : FS) :
  result_of (cleanup w video_path seg fs) = Ok tt.
Proof.
  unfold cleanup, try_except.
  match goal with
  | |- context [match ?run with _ => _ end] => by destruct run as [[t f] [[]|e]]
  end.
Qed.

Lemma save_text_ok (video_path text : string) (fs : FS) :
  os_fault w (OpOpenWrite (text_output_file_of video_path)) = None →
  text_output_file_of video_path ∉ dirs fs →
  save_text w video_path text fs =
  ([ECall (OpOpenWrite (text_output_file_of video_path)) true;
    EPrint (newline +:+ "转录文本已成功保存到: " +:+ text_output_file_of video_path)],
   fs_write (text_output_file_of video_path) text fs, Ok true).
Proof.
  intros Hf Hd.
  unfold save_text, try_except, mbind, M_bind, bind, open_write, call, print.
  by rewrite Hf, bool_decide_eq_false_2 by exact Hd.
Qed.

Lemma save_and_cleanup_saves (video_path text : string) (seg : bool) (fs : FS) :
  os_fault w (OpOpenWrite (text_output_file_of video_path)) = None →
  text_output_file_of video_path ∉ dirs fs →
  result_of (save_and_cleanup w video_path seg text fs) = Ok true ∧
  files (fs_of (save_and_cleanup w video_path seg text fs))
    !! text_output_file_of video_path = Some text.
Proof.
  intros Hf Hd. unfold save_and_cleanup.
  unfold mbind, M_bind, bind, print, mret, M_ret, ret.
  rewrite (save_text_ok _ _ _ Hf Hd). cbn [negb].
  pose proof (cleanup_total video_path seg
                (fs_write (text_output_file_of video_path) text fs)) as Hc.
  destruct (cleanup_frame video_path seg
              (fs_write (text_output_file_of video_path) text fs)) as [_ Hu].
  destruct (cleanup w video_path seg _) as [[t f] r].
  cbn [fs_of result_of fst snd] in *. subst r. split; [reflexivity|].
  change (files f !! text_output_file_of video_path = Some text).
  unfold untouched in Hu. rewrite Hu. apply lookup_fs_write_eq.
Qed.

Lemma process_footprint (video_path model_name : string) (seg : bool) :
  keeps (process_event video_path model_name) any_fs
    (process_video_to_text w video_path model_name seg).
Proof.
  unfold process_video_to_text, extract_audio_from_video, transcribe_audio_with_whisper,
    split_and_transcribe_audio.
  repeat keeps_step; try (by intros); try (intros; by constructor);
    intros; apply pe_split; constructor.
Qed.

(** ** [process_video_to_text], step by step *)

Lemma process_run (video_path model_name : string) (seg : bool) (fs : FS) :
  path_exists fs video_path = true →
  let x := extract_audio_from_video w video_path (audio_file_of video_path) fs in
  let t := transcriber w video_path model_name seg (fs_of x) in
  let pre := process_prefix video_path ++ trace_of x ++ [EPrint (banner seg)] ++ trace_of t in
  result_of x = Ok true →
  process_video_to_text w video_path model_name seg fs =
  match result_of t with
  | Raise e => (pre, fs_of t, Raise e)
  | Ok (Some (String c s)) =>
      let f := save_and_cleanup w video_path seg (String c s) (fs_of t) in
      (pre ++ trace_of f, fs_of f, result_of f)
  | Ok _ => (pre ++ [EPrint "转录失败。"], fs_of t, Ok false)
  end.
Proof.
  intros Hex x t pre Hx. subst pre t x.
  unfold process_video_to_text, transcriber, process_prefix, banner, audio_file_of,
    chunks_dir_of, text_output_file_of in *.
  set (name := get_filename_without_extension video_path) in *.
  unfold mbind at 1, M_bind at 1, bind at 1. unfold os_path_exists at 1.
  unfold mbind at 1, M_bind at 1, bind at 1, get_fs at 1, mret at 1, M_ret at 1, ret at 1.
  rewrite Hex. cbn [negb].
  unfold mbind at 1, M_bind at 1, bind at 1, print at 1.
  unfold mbind at 1, M_bind at 1, bind at 1, print at 1.
  unfold mbind at 1, M_bind at 1, bind at 1.
  destruct (extract_audio_from_video w video_path _ fs) as [[t1 fs1] r1].
  cbn [result_of trace_of fs_of fst snd] in *. subst r1. cbn [negb].
  unfold mbind at 1, M_bind at 1, bind at 1.
  destruct seg.
  - unfold mbind at 1, M_bind at 1, bind at 1, print at 1.
    destruct (split_and_transcribe_audio w _ _ _ _ _ fs1) as [[t2 fs2] [[[|c s]|]|e]];
      cbn [result_of trace_of fs_of fst snd app];
      rewrite ?app_nil_r; try reflexivity.
    + unfold mbind at 1, M_bind at 1, bind at 1, print at 1.
      by rewrite <- !List.app_assoc.
    + destruct (save_and_cleanup _ _ _ _ fs2) as [[t3 fs3] r3] eqn:Hf.
      unfold save_and_cleanup, save_text, cleanup, text_output_file_of,
        audio_file_of, chunks_dir_of in Hf. fold name in Hf.
      rewrite Hf. cbn. by rewrite <- !List.app_assoc.
    + unfold mbind at 1, M_bind at 1, bind at 1, print at 1.
      by rewrite <- !List.app_assoc.
  - unfold mbind at 1, M_bind at 1, bind at 1, print at 1.
    destruct (transcribe_audio_with_whisper w _ _ fs1) as [[t2 fs2] [[[|c s]|]|e]];
      cbn [result_of trace_of fs_of fst snd app];
      rewrite ?app_nil_r; try reflexivity.
    + unfold mbind at 1, M_bind at 1, bind at 1, print at 1.
      by rewrite <- !List.app_assoc.
    + destruct (save_and_cleanup _ _ _ _ fs2) as [[t3 fs3] r3] eqn:Hf.
      unfold save_and_cleanup, save_text, cleanup, text_output_file_of,
        audio_file_of, chunks_dir_of in Hf. fold name in Hf.
      rewrite Hf. cbn. by rewrite <- !List.app_assoc.
    + unfold mbind at 1, M_bind at 1, bind at 1, print at 1.
      by rewrite <- !List.app_assoc.
Qed.

End Runs.

(** ** The names derived from the video path *)

Lemma get_filename_no_sep (p : string) :
  Path.contains Path.sep (get_filename_without_extension p) = false.
Proof. apply splitext_no_sep, basename_no_sep. Qed.

Lemma get_filename_basename (p : string) :
  get_filename_without_extension (Path.basename p) = get_filename_without_extension p.
Proof.
  unfold get_filename_without_extension.
  by rewrite (basename_bare (Path.basename p)) by apply basename_no_sep.
Qed.

Lemma get_filename_stem (p stem ext : string) :
  Path.basename p = stem +:+ String Path.extsep ext →
  all_dots stem = false →
  Path.contains Path.extsep ext = false →
  get_filename_without_extension p = stem.
Proof.
  intros Hb Hd Hx. unfold get_filename_without_extension.
  pose proof (basename_no_sep p) as Hs. rewrite Hb in *.
  rewrite contains_app in Hs. apply orb_false_iff in Hs as [Hs1 Hs2].
  cbn in Hs2. rewrite splitext_stem_ext; try done.
Qed.

Lemma contains_sep_suffix (name suffix : string) :
  Path.contains Path.sep name = false →
  Path.contains Path.sep suffix = false →
  Path.contains Path.sep (name +:+ suffix) = false.
Proof. intros H1 H2. by rewrite contains_app, H1, H2. Qed.

Lemma no_save_not_in (audio : string) (t : list event) :
  Forall (no_save audio) t →
  (∀ q ok, ECall (OpOpenWrite q) ok ∉ t) ∧
  (∀ ok, ECall (OpRemove audio) ok ∉ t) ∧
  (∀ q ok, ECall (OpRmtree q) ok ∉ t).
Proof.
  intros H. rewrite Forall_forall in H.
  repeat split; intros; intros Hin; by apply H in Hin.
Qed.

(** ** Runs whose transcription gives nothing *)

Section FailedRuns.
Context (w : World).

Lemma process_falsy_run (video_path model_name : string) (seg : bool) (fs : FS)
    (r : option string) :
  path_exists fs video_path = true →
  let x := extract_audio_from_video w video_path (audio_file_of video_path) fs in
  let t := transcriber w video_path model_name seg (fs_of x) in
  result_of x = Ok true →
  result_of t = Ok r →
  r = Some "" ∨ r = None →
  process_video_to_text w video_path model_name seg fs =
  (process_prefix video_path ++ trace_of x ++ [EPrint (banner seg)] ++ trace_of t ++
     [EPrint "转录失败。"],
   fs_of t, Ok false).
Proof.
  intros Hex x t Hx Ht Hr.
  rewrite (process_run w video_path model_name seg fs Hex Hx).
  fold x. fold t. rewrite Ht.
  destruct Hr as [-> | ->]; by rewrite <- !List.app_assoc.
Qed.

Lemma failed_run_keeps_audio (video_path model_name : string) (seg : bool) (fs : FS) :
  let x := extract_audio_from_video w video_path (audio_file_of video_path) fs in
  let t := transcriber w video_path model_name seg (fs_of x) in
  result_of x = Ok true →
  Forall (no_save (audio_file_of video_path))
    (process_prefix video_path ++ trace_of x ++ [EPrint (banner seg)] ++ trace_of t ++
       [EPrint "转录失败。"]) ∧
  is_Some (files (fs_of t) !! audio_file_of video_path).
Proof.
  intros x t Hx.
  destruct (extract_no_save w video_path (audio_file_of video_path)
              (audio_file_of video_path) fs) as [Ex _].
  destruct (transcriber_no_save w video_path model_name seg (fs_of x)) as [Et Hu].
  split.
  - rewrite !Forall_app. repeat split; try done; by repeat constructor.
  - destruct (extract_true w video_path _ fs Hx) as [bytes Hb].
    unfold untouched in Hu. fold x in Hb. fold t in Hu. rewrite Hu, Hb. by eexists.
Qed.

End FailedRuns.

(** ** Segmented runs that go through *)

Lemma flat_map_seq_split {A} (f : nat -> list A) (k n : nat) :
  (k < n)%nat →
  flat_map f (seq 0 n) =
  flat_map f (seq 0 k) ++ f k ++ flat_map f (seq (S k) (n - S k)).
Proof.
  intros Hk. replace n with (k + S (n - S k))%nat at 1 by lia.
  rewrite seq_app, flat_map_app. reflexivity.
Qed.

Section SegmentedRuns.
Context (w : World).

Lemma files_makedirs_fs (fs : FS) (output_dir : string) :
  files (makedirs_fs fs output_dir) = files fs.
Proof. unfold makedirs_fs. by destruct (path_exists fs output_dir). Qed.

Lemma makedirs_live (fs : FS) (output_dir : string) (s : gset string) :
  live (makedirs_trace fs output_dir) s = s ∧
  peak (makedirs_trace fs output_dir) s = size s.
Proof.
  unfold makedirs_trace. destruct (path_exists fs output_dir); cbn; split; try done; lia.
Qed.

Lemma setup_live (audio_path : string) (msl thr : Z) (model_name : string)
    (s : gset string) :
  live (setup_trace audio_path msl thr model_name) s = s ∧
  peak (setup_trace audio_path msl thr model_name) s = size s.
Proof. cbn. split; [done | lia]. Qed.

Lemma later_chunks_in (output_dir : string) (total k j : nat) :
  (k < j < total)%nat →
  ECall (OpExport (chunk_filename_of output_dir j)) true ∈
    flat_map (iteration_trace w output_dir total) (seq (S k) (total - S k)) ∧
  ECall (OpTranscribe (chunk_filename_of output_dir j)) true ∈
    flat_map (iteration_trace w output_dir total) (seq (S k) (total - S k)).
Proof.
  intros Hj. rewrite !list_elem_of_In, !in_flat_map.
  split; exists j; (split; [apply in_seq; lia|]); unfold iteration_trace; cbn; tauto.
Qed.

(** The run of [split_and_transcribe_audio] when every step but the
    deletions returns. *)
Lemma split_success_run (audio_path output_dir : string) (msl thr : Z)
    (model_name : string) (fs : FS) bytes audio chunks model texts :
  path_exists fs output_dir = true ∨ os_fault w (OpMakedirs output_dir) = None →
  files fs !! audio_path = Some bytes →
  lib_from_file w bytes = Ok audio →
  lib_split_on_silence w audio msl thr 200 = Ok chunks →
  lib_load_model w model_name = Ok model →
  chunk_texts w model output_dir 0 chunks = Ok texts →
  split_and_transcribe_audio w audio_path output_dir msl thr model_name fs =
  (makedirs_trace fs output_dir ++ setup_trace audio_path msl thr model_name ++
   flat_map (iteration_trace w output_dir (List.length chunks))
     (seq 0 (List.length chunks)),
   chunks_fs w output_dir 0 chunks (makedirs_fs fs output_dir),
   Ok (Some (String.concat " " texts))).
Proof.
  intros Hready Hb Ha Hc Hm Ht. rewrite split_run_ready by exact Hready.
  rewrite <- (files_makedirs_fs fs output_dir) in Hb.
  by rewrite (split_body_success w _ _ _ _ _ _ _ _ _ _ _ Hb Ha Hc Hm Ht).
Qed.

End SegmentedRuns.

(** ** The paths a run writes to *)

Lemma get_filename_in_dir (dir p : string) :
  get_filename_without_extension (dir +:+ "/" +:+ Path.basename p) =
  get_filename_without_extension p.
Proof.
  unfold get_filename_without_extension.
  change (dir +:+ "/" +:+ Path.basename p)
    with (dir +:+ String Path.sep (Path.basename p)).
  by rewrite basename_app by apply basename_no_sep.
Qed.

Lemma process_writes_only (w : World) (video_path model_name : string) (seg : bool)
    (fs : FS) :
  (∀ q ok, ECall (OpWriteAudiofile q) ok ∈
             trace_of (process_video_to_text w video_path model_name seg fs) →
           q = audio_file_of video_path) ∧
  (∀ q ok, ECall (OpOpenWrite q) ok ∈
             trace_of (process_video_to_text w video_path model_name seg fs) →
           q = text_output_file_of video_path) ∧
  (∀ q ok, ECall (OpMakedirs q) ok ∈
             trace_of (process_video_to_text w video_path model_name seg fs) →
           q = chunks_dir_of video_path).
Proof.
  destruct (process_footprint w video_path model_name seg fs) as [Hall _].
  rewrite Forall_forall in Hall.
  repeat split; intros q ok Hin; apply Hall in Hin;
    inversion Hin as [| | |e Hs| | | | |]; subst; try done; inversion Hs.
  done.
Qed.

End ProgramFacts.

(* ===================================================================== *)
(** * Further facts about the program *)
(* ===================================================================== *)

Module MoreFacts.
Import Effects Transcriber Spec EntryPoint PathFacts EffectFacts ProgramFacts.

(** Decides a closed proposition by evaluation. *)
Ltac by_evaluation := apply (bool_decide_unpack _); vm_compute; exact I.

Section Parts.
Context (w : World).

(** ** The three transcribing functions, call by call *)

Lemma extract_run (video_path audio : string) (fs : FS) :
  extract_audio_from_video w video_path audio fs =
  match lib_VideoFileClip w video_path with
  | Raise e =>
      ([ECall (OpVideoFileClip video_path) false;
        EPrint ("提取音频时发生错误: " +:+ e)], fs, Ok false)
  | Ok video =>
      match lib_write_audiofile w video audio with
      | Ok bytes =>
          ([ECall (OpVideoFileClip video_path) true; ECall (OpWriteAudiofile audio) true;
            EPrint ("音频已成功提取到: " +:+ audio)],
           fs_write audio bytes fs, Ok true)
      | Raise e =>
          ([ECall (OpVideoFileClip video_path) true; ECall (OpWriteAudiofile audio) false;
            EPrint ("提取音频时发生错误: " +:+ e)],
           partial_fs w video audio fs, Ok false)
      end
  end.
Proof.
  unfold extract_audio_from_video, try_except, mbind, M_bind, bind, VideoFileClip,
    write_audiofile, call, call_writing, print, partial_fs.
  destruct (lib_VideoFileClip w video_path) as [video|e]; [|reflexivity].
  by destruct (lib_write_audiofile w video audio) as [bytes|e].
Qed.

Lemma whisper_total (audio_path model_name : string) (fs : FS) :
  ∃ r, result_of (transcribe_audio_with_whisper w audio_path model_name fs) = Ok r.
Proof.
  unfold transcribe_audio_with_whisper, try_except, mbind, M_bind, bind,
    whisper_load_model, model_transcribe, call, print.
  destruct (lib_load_model w model_name) as [model|]; [|by eexists].
  destruct (files fs !! audio_path) as [bytes|]; [|by eexists].
  destruct (lib_transcribe w model bytes); by eexists.
Qed.

Lemma whisper_keeps_fs (audio_path model_name : string) :
  keeps (fun _ => True) eq (transcribe_audio_with_whisper w audio_path model_name).
Proof. unfold transcribe_audio_with_whisper. repeat keeps_step; by intros. Qed.

Lemma whisper_missing_file (audio_path model_name : string) (fs : FS) :
  files fs !! audio_path = None →
  result_of (transcribe_audio_with_whisper w audio_path model_name fs) = Ok None.
Proof.
  intros Hf.
  unfold transcribe_audio_with_whisper, try_except, mbind, M_bind, bind,
    whisper_load_model, model_transcribe, call, print.
  destruct (lib_load_model w model_name); [by rewrite Hf | done].
Qed.

Lemma split_body_total (audio_path output_dir : string) (msl thr : Z)
    (model_name : string) (fs : FS) :
  ∃ r, result_of (split_body w audio_path output_dir msl thr model_name fs) = Ok r.
Proof.
  unfold split_body, try_except.
  match goal with
  | |- context [match ?run with _ => _ end] => destruct run as [[t f] [a|e]]
  end; by eexists.
Qed.

Lemma split_raise_inv (audio_path output_dir : string) (msl thr : Z)
    (model_name : string) (fs : FS) (e : string) :
  result_of (split_and_transcribe_audio w audio_path output_dir msl thr model_name fs)
    = Raise e →
  path_exists fs output_dir = false ∧
  os_fault w (OpMakedirs output_dir) = Some e.
Proof.
  intros Hr. destruct (path_exists fs output_dir) eqn:Hex.
  - rewrite split_run_ready in Hr by (by left).
    destruct (split_body_total audio_path output_dir msl thr model_name
                (makedirs_fs fs output_dir)) as [r Hb].
    unfold result_of in Hr, Hb. simpl snd in Hr. congruence.
  - destruct (os_fault w (OpMakedirs output_dir)) as [e'|] eqn:Hf.
    + rewrite (split_makedirs_raises w _ _ _ _ _ _ _ Hex Hf) in Hr.
      by injection Hr as ->.
    + rewrite split_run_ready in Hr by (by right).
      destruct (split_body_total audio_path output_dir msl thr model_name
                  (makedirs_fs fs output_dir)) as [r Hb].
      unfold result_of in Hr, Hb. simpl snd in Hr. congruence.
Qed.

Lemma save_text_total (video_path text : string) (fs : FS) :
  ∃ b, result_of (save_text w video_path text fs) = Ok b.
Proof.
  unfold save_text, try_except.
  match goal with
  | |- context [match ?run with _ => _ end] => destruct run as [[t f] [a|e]]
  end; by eexists.
Qed.

Lemma save_and_cleanup_total (video_path text : string) (seg : bool) (fs : FS) :
  ∃ b, result_of (save_and_cleanup w video_path seg text fs) = Ok b.
Proof.
  unfold save_and_cleanup, mbind, M_bind, bind, print.
  destruct (save_text_total video_path text fs) as [b Hb].
  destruct (save_text w video_path text fs) as [[t1 fs1] r1].
  cbn [result_of snd] in Hb. subst r1. destruct b; cbn [negb].
  - pose proof (cleanup_total w video_path seg fs1) as Hc.
    destruct (cleanup w video_path seg fs1) as [[t2 fs2] r2].
    cbn [result_of snd] in Hc. subst r2. by eexists.
  - by eexists.
Qed.

End Parts.

Section OrchestratorX.
Context (w : World).

(** ** [process_video_to_text] on its other paths *)

Lemma process_not_found (video_path model_name : string) (seg : bool) (fs : FS) :
  path_exists fs video_path = false →
  process_video_to_text w video_path model_name seg fs =
  ([EPrint ("错误：视频文件不存在: " +:+ video_path)], fs, Ok false).
Proof.
  intros Hex. unfold process_video_to_text.
  unfold mbind at 1, M_bind at 1, bind at 1, os_path_exists at 1.
  unfold mbind at 1, M_bind at 1, bind at 1, get_fs at 1, mret at 1, M_ret at 1, ret at 1.
  by rewrite Hex.
Qed.

Lemma process_extract_fails (video_path model_name : string) (seg : bool) (fs : FS) :
  path_exists fs video_path = true →
  result_of (extract_audio_from_video w video_path (audio_file_of video_path) fs)
    = Ok false →
  process_video_to_text w video_path model_name seg fs =
  (process_prefix video_path ++
   trace_of (extract_audio_from_video w video_path (audio_file_of video_path) fs) ++
   [EPrint "音频提取失败，无法继续处理。"],
   fs_of (extract_audio_from_video w video_path (audio_file_of video_path) fs),
   Ok false).
Proof.
  intros Hex Hx.
  unfold process_video_to_text, process_prefix, audio_file_of, text_output_file_of in *.
  set (name := get_filename_without_extension video_path) in *.
  unfold mbind at 1, M_bind at 1, bind at 1. unfold os_path_exists at 1.
  unfold mbind at 1, M_bind at 1, bind at 1, get_fs at 1, mret at 1, M_ret at 1, ret at 1.
  rewrite Hex. cbn [negb].
  unfold mbind at 1, M_bind at 1, bind at 1, print at 1.
  unfold mbind at 1, M_bind at 1, bind at 1, print at 1.
  unfold mbind at 1, M_bind at 1, bind at 1.
  destruct (extract_audio_from_video w video_path _ fs) as [[t1 fs1] r1].
  unfold result_of in Hx. simpl snd in Hx. subst r1. cbn [negb].
  unfold mbind, M_bind, bind, print, mret, M_ret, ret. by cbn.
Qed.

(** What a run that returns [True] went through. *)
Lemma process_true_inv (video_path model_name : string) (seg : bool) (fs : FS) :
  result_of (process_video_to_text w video_path model_name seg fs) = Ok true →
  path_exists fs video_path = true ∧
  result_of (extract_audio_from_video w video_path (audio_file_of video_path) fs)
    = Ok true ∧
  ∃ c s,
    result_of (transcriber w video_path model_name seg
                 (fs_of (extract_audio_from_video w video_path
                           (audio_file_of video_path) fs)))
      = Ok (Some (String c s)) ∧
    result_of (save_and_cleanup w video_path seg (String c s)
                 (fs_of (transcriber w video_path model_name seg
                           (fs_of (extract_audio_from_video w video_path
                                     (audio_file_of video_path) fs)))))
      = Ok true ∧
    fs_of (process_video_to_text w video_path model_name seg fs) =
    fs_of (save_and_cleanup w video_path seg (String c s)
             (fs_of (transcriber w video_path model_name seg
                       (fs_of (extract_audio_from_video w video_path
                                 (audio_file_of video_path) fs))))).
Proof.
  intros Hr. destruct (path_exists fs video_path) eqn:Hex.
  2:{ rewrite (process_not_found _ _ _ _ Hex) in Hr. discriminate. }
  destruct (extract_total w video_path (audio_file_of video_path) fs) as [[|] Hx].
  2:{ rewrite (process_extract_fails _ _ _ _ Hex Hx) in Hr. discriminate. }
  rewrite (process_run w video_path model_name seg fs Hex Hx) in *.
  destruct (result_of (transcriber w video_path model_name seg _))
    as [[[|c s]|]|e] eqn:Ht; try discriminate.
  repeat split; try done. by exists c, s.
Qed.

(** ** Cleanup *)

Lemma cleanup_removes (video_path : string) (seg : bool) (fs : FS) (bytes : string) :
  files fs !! audio_file_of video_path = Some bytes →
  os_fault w (OpRemove (audio_file_of video_path)) = None →
  os_fault w (OpRmtree (chunks_dir_of video_path)) = None →
  files (fs_of (cleanup w video_path seg fs)) !! audio_file_of video_path = None ∧
  (seg = true → chunks_dir_of video_path ∉ dirs (fs_of (cleanup w video_path seg fs))).
Proof.
  intros Hb Hrm Hrt. unfold cleanup, os_path_exists, os_remove, shutil_rmtree.
  unfold try_except, mbind, M_bind, bind, get_fs, mret, M_ret, ret, call, print.
  assert (Hex : path_exists fs (audio_file_of video_path) = true).
  { unfold path_exists. rewrite Hb. by rewrite bool_decide_eq_true_2 by by eexists. }
  lazy beta iota. rewrite Hex. cbn [when]. lazy beta iota. rewrite Hrm, Hb.
  destruct seg; cbn [when]; lazy beta iota.
  - destruct (path_exists (fs_delete (audio_file_of video_path) fs)
                (chunks_dir_of video_path)) eqn:Hd; cbn [when]; lazy beta iota.
    + rewrite Hrt.
      destruct (bool_decide (chunks_dir_of video_path ∈
                  dirs (fs_delete (audio_file_of video_path) fs))) eqn:Hin.
      * split.
        -- change (files (fs_rmtree (chunks_dir_of video_path)
                     (fs_delete (audio_file_of video_path) fs))
                     !! audio_file_of video_path = None).
           cbn. apply map_lookup_filter_None. left. apply lookup_delete_eq.
        -- intros _.
           change (chunks_dir_of video_path ∉
                   dirs (fs_rmtree (chunks_dir_of video_path)
                           (fs_delete (audio_file_of video_path) fs))).
           cbn. rewrite elem_of_filter. by intros [[? _] _].
      * apply bool_decide_eq_false_1 in Hin. split.
        -- change (files (fs_delete (audio_file_of video_path) fs)
                     !! audio_file_of video_path = None).
           apply lookup_delete_eq.
        -- intros _. exact Hin.
    + split.
      * change (files (fs_delete (audio_file_of video_path) fs)
                  !! audio_file_of video_path = None).
        apply lookup_delete_eq.
      * intros _. unfold path_exists in Hd. apply orb_false_iff in Hd as [_ Hd].
        by apply bool_decide_eq_false_1 in Hd.
  - split; [|discriminate].
    change (files (fs_delete (audio_file_of video_path) fs)
              !! audio_file_of video_path = None).
    apply lookup_delete_eq.
Qed.

End OrchestratorX.

(** ** Chunk file names *)

Lemma app_inv_tail (a b c : string) : a +:+ c = b +:+ c → a = b.
Proof.
  revert b. induction a as [|x a IH]; intros [|y b] H.
  - reflexivity.
  - apply (f_equal String.length) in H. rewrite !str_length_app in H. simpl in H. lia.
  - apply (f_equal String.length) in H. rewrite !str_length_app in H. simpl in H. lia.
  - change (String x (a +:+ c) = String y (b +:+ c)) in H.
    injection H as -> H. f_equal. by apply IH.
Qed.

Lemma join_inj (a b b' : string) :
  Path.starts_with_sep b = false → Path.starts_with_sep b' = false →
  Path.join a b = Path.join a b' → b = b'.
Proof.
  unfold Path.join. intros -> ->.
  destruct (_ || _); intros H.
  - by apply String.app_inj in H.
  - apply String.app_inj in H. by apply String.app_inj in H.
Qed.

Lemma chunk_filename_inj (output_dir : string) (i j : nat) :
  chunk_filename_of output_dir i = chunk_filename_of output_dir j → i = j.
Proof.
  unfold chunk_filename_of. intros H.
  apply join_inj in H; [|reflexivity..].
  apply String.app_inj in H. apply app_inv_tail in H.
  by apply pretty_nat_inj in H.
Qed.

Lemma chunk_below_chunks_dir (name : string) (i : nat) :
  below (name +:+ "_audio_chunks") (chunk_filename_of (name +:+ "_audio_chunks") i) = true.
Proof.
  rewrite chunk_filename_in_chunks_dir. unfold below.
  by rewrite str_app_assoc, prefix_app.
Qed.

(** ** Names without an extension *)

Lemma slice_to_0 (p : string) : Path.slice_to p 0 = "".
Proof. by destruct p. Qed.

Lemma splitext_no_dot (b : string) :
  Path.contains Path.sep b = false →
  Path.contains Path.extsep b = false →
  Path.splitext b = (b, "").
Proof.
  intros Hs Hd. unfold Path.splitext.
  rewrite (rfind_absent _ _ Hs), (rfind_absent _ _ Hd). cbn. by rewrite slice_to_0.
Qed.

Lemma splitext_loop_all_dots (pre suf rest : string) :
  all_dots suf = true →
  Path.splitext_loop ((pre +:+ suf) +:+ rest)
    (Z.of_nat (String.length (pre +:+ suf))) (String.length suf)
  = ((pre +:+ suf) +:+ rest, "").
Proof.
  revert pre. induction suf as [|c suf IH]; intros pre Hdots.
  - cbn [String.length Path.splitext_loop]. by rewrite slice_to_0.
  - cbn [all_dots] in Hdots. apply andb_true_iff in Hdots as [Hc Hdots].
    apply Ascii.eqb_eq in Hc. subst c.
    cbn [String.length Path.splitext_loop].
    replace (Z.of_nat (String.length (pre +:+ String Path.extsep suf)) -
             Z.of_nat (S (String.length suf)))
      with (Z.of_nat (String.length pre)) by (rewrite str_length_app; simpl; lia).
    assert (Hs : Path.slice ((pre +:+ String Path.extsep suf) +:+ rest)
                   (Z.of_nat (String.length pre))
                   (Z.of_nat (String.length pre) + 1) = String Path.extsep "")
      by (rewrite str_app_assoc; exact (slice_one pre (suf +:+ rest) Path.extsep)).
    rewrite Hs; clear Hs. rewrite String.eqb_refl. cbn [negb].
    replace (pre +:+ String Path.extsep suf)
      with ((pre +:+ String Path.extsep "") +:+ suf) by now rewrite str_app_assoc.
    by apply IH.
Qed.

Lemma splitext_hidden (dots rest : string) :
  all_dots dots = true →
  Path.contains Path.sep rest = false →
  Path.contains Path.extsep rest = false →
  Path.splitext (dots +:+ String Path.extsep rest) =
  (dots +:+ String Path.extsep rest, "").
Proof.
  intros Hd Hs Hx. unfold Path.splitext.
  assert (Hds : Path.contains Path.sep dots = false).
  { clear -Hd. induction dots as [|c d IH]; [done|].
    cbn in *. apply andb_true_iff in Hd as [Hc Hd]. apply Ascii.eqb_eq in Hc.
    subst c. by rewrite IH. }
  rewrite rfind_absent by (rewrite contains_app; cbn; by rewrite Hds, Hs).
  rewrite rfind_last by exact Hx.
  replace (-1 <? Z.of_nat (String.length dots)) with true
    by (symmetry; apply Z.ltb_lt; lia).
  replace (Z.to_nat (Z.of_nat (String.length dots) - (-1 + 1)))
    with (String.length dots) by lia.
  exact (splitext_loop_all_dots "" dots (String Path.extsep rest) Hd).
Qed.

Section Frames.
Context (w : World).

(** ** What [process_video_to_text] leaves alone *)

Lemma process_frame (video_path model_name : string) (seg : bool) (q : string) :
  q ≠ audio_file_of video_path →
  q ≠ text_output_file_of video_path →
  below (chunks_dir_of video_path) q = false →
  keeps (fun _ => True) (untouched q) (process_video_to_text w video_path model_name seg).
Proof.
  intros Ha Ho Hb.
  assert (Hc : ∀ i, chunk_filename_of (chunks_dir_of video_path) i ≠ q).
  { intros i <-. unfold chunks_dir_of in Hb. by rewrite chunk_below_chunks_dir in Hb. }
  unfold audio_file_of, text_output_file_of, chunks_dir_of in *.
  unfold process_video_to_text, extract_audio_from_video, transcribe_audio_with_whisper,
    split_and_transcribe_audio.
  repeat keeps_step; try (by intros); intros; unfold untouched; cbn;
    try (by apply lookup_insert_ne); try (by apply lookup_delete_ne).
  destruct (files fs !! q) as [content|] eqn:Hq.
  - apply map_lookup_filter_Some. by split.
  - apply map_lookup_filter_None. by left.
Qed.


Lemma direct_mode_footprint (video_path model_name : string) :
  keeps not_chunk_op any_fs (process_video_to_text w video_path model_name false).
Proof.
  unfold process_video_to_text, extract_audio_from_video, transcribe_audio_with_whisper.
  cbv beta iota delta [when]. fold (@when). repeat keeps_step; by intros.
Qed.

Lemma process_raise_inv (video_path model_name : string) (seg : bool) (fs : FS)
    (e : string) :
  result_of (process_video_to_text w video_path model_name seg fs) = Raise e →
  seg = true ∧
  path_exists (fs_of (extract_audio_from_video w video_path
                        (audio_file_of video_path) fs))
    (chunks_dir_of video_path) = false ∧
  os_fault w (OpMakedirs (chunks_dir_of video_path)) = Some e.
Proof.
  intros Hr. destruct (path_exists fs video_path) eqn:Hex.
  2:{ rewrite (process_not_found _ _ _ _ _ Hex) in Hr. discriminate. }
  destruct (extract_total w video_path (audio_file_of video_path) fs) as [[|] Hx].
  2:{ rewrite (process_extract_fails _ _ _ _ _ Hex Hx) in Hr. discriminate. }
  rewrite (process_run w video_path model_name seg fs Hex Hx) in Hr.
  destruct (result_of (transcriber w video_path model_name seg _))
    as [[[|c s]|]|e'] eqn:Ht; try discriminate.
  - destruct (save_and_cleanup_total w video_path (String c s) seg
                (fs_of (transcriber w video_path model_name seg
                          (fs_of (extract_audio_from_video w video_path
                                    (audio_file_of video_path) fs))))) as [b Hb].
    unfold result_of in Hr, Hb. simpl snd in Hr. congruence.
  - injection Hr as ->. unfold transcriber in Ht. destruct seg.
    + apply split_raise_inv in Ht as [H1 H2]. by repeat split.
    + destruct (whisper_total w (audio_file_of video_path) model_name
                  (fs_of (extract_audio_from_video w video_path
                            (audio_file_of video_path) fs))) as [r Hw].
      congruence.
Qed.

End Frames.

(** ** Stripping characters *)

Lemma rstrip_cons (chars : list ascii) (a : ascii) (r : string) :
  rstrip_chars chars (String a r) =
  match rstrip_chars chars r with
  | EmptyString => if char_in chars a then EmptyString else String a EmptyString
  | r' => String a r'
  end.
Proof. reflexivity. Qed.

Lemma rstrip_all_in (chars : list ascii) (r : string) :
  all_in chars r = true → rstrip_chars chars r = "".
Proof.
  induction r as [|a r IH]; [done|]. cbn. intros H.
  apply andb_true_iff in H as [Ha Hr]. by rewrite (IH Hr), Ha.
Qed.

Lemma rstrip_keeps (chars : list ascii) (p : string) :
  ends_in chars p = false → rstrip_chars chars p = p.
Proof.
  induction p as [|a p IH]; [done|]. intros H.
  destruct p as [|b p].
  - cbn in *. by rewrite H.
  - change (ends_in chars (String b p) = false) in H.
    rewrite rstrip_cons, (IH H). reflexivity.
Qed.

Lemma rstrip_app (chars : list ascii) (p r : string) :
  p ≠ "" → ends_in chars p = false → all_in chars r = true →
  rstrip_chars chars (p +:+ r) = p.
Proof.
  induction p as [|a p IH]; [done|]. intros _ He Hr.
  change (String a p +:+ r) with (String a (p +:+ r)). rewrite rstrip_cons.
  destruct p as [|b p].
  - change ("" +:+ r) with r. rewrite (rstrip_all_in _ _ Hr).
    cbn in He. by rewrite He.
  - change (ends_in chars (String b p) = false) in He.
    rewrite IH by done. reflexivity.
Qed.

Lemma lstrip_app (chars : list ascii) (l p : string) :
  all_in chars l = true → starts_in chars p = false →
  lstrip_chars chars (l +:+ p) = p.
Proof.
  induction l as [|a l IH]; intros Hl Hp.
  - change ("" +:+ p) with p. destruct p as [|b p]; [done|].
    cbn in *. by rewrite Hp.
  - cbn in Hl. apply andb_true_iff in Hl as [Ha Hl].
    change (String a l +:+ p) with (String a (l +:+ p)). cbn [lstrip_chars].
    rewrite Ha. by apply IH.
Qed.

Lemma lstrip_all_in (chars : list ascii) (l : string) :
  all_in chars l = true → lstrip_chars chars l = "".
Proof.
  intros H. rewrite <- (str_app_nil_r l). by apply lstrip_app.
Qed.

Lemma rstrip_app_l (chars : list ascii) (l p : string) :
  p ≠ "" → ends_in chars p = false →
  rstrip_chars chars (l +:+ p) = l +:+ p.
Proof.
  intros Hp He. induction l as [|a l IH].
  - change ("" +:+ p) with p. by apply rstrip_keeps.
  - change (String a l +:+ p) with (String a (l +:+ p)). rewrite rstrip_cons.
    rewrite IH. destruct (l +:+ p) eqn:Hlp; [|done].
    destruct l; [|discriminate]. by subst.
Qed.

Lemma all_in_app (chars : list ascii) (l r : string) :
  all_in chars l = true → all_in chars r = true → all_in chars (l +:+ r) = true.
Proof.
  intros Hl Hr. induction l as [|a l IH]; [done|].
  cbn in Hl. apply andb_true_iff in Hl as [Ha Hl].
  change (String a l +:+ r) with (String a (l +:+ r)). cbn [all_in].
  by rewrite Ha, IH.
Qed.

Lemma strip_chars_between (chars : list ascii) (l p r : string) :
  all_in chars l = true → all_in chars r = true →
  starts_in chars p = false → ends_in chars p = false →
  strip_chars chars (l +:+ p +:+ r) = p.
Proof.
  intros Hl Hr Hs He. unfold strip_chars. destruct p as [|b p].
  - change ("" +:+ r) with r.
    by rewrite (rstrip_all_in _ _ (all_in_app _ _ _ Hl Hr)).
  - rewrite <- str_app_assoc.
    rewrite (rstrip_app chars (l +:+ String b p) r); try done.
    + by apply lstrip_app.
    + by destruct l.
    + clear -He. induction l as [|a l IH]; [done|].
      change (String a l +:+ String b p) with (String a (l +:+ String b p)).
      cbn [ends_in]. destruct (l +:+ String b p) eqn:Hlp; [by destruct l|].
      exact IH.
Qed.

(** ** The dialogue *)

Lemma selected_model_valid (model_choice : string) :
  default "base" (model_map !! model_choice) ∈ whisper_models.
Proof.
  unfold model_map, whisper_models.
  rewrite !lookup_insert, lookup_singleton.
  repeat case_decide; cbn; rewrite !elem_of_cons; tauto.
Qed.

Section Main.
Context (w : World) (b : Builtins).

Lemma main_eof (fs : FS) :
  main w b [] fs = ([EPrint "请输入视频文件路径: "], fs, Raise "EOF when reading a line").
Proof. reflexivity. Qed.

Lemma main_no_path (line : string) (stdin : list string) (fs : FS) :
  strip_chars quote_chars (str_strip b line) = "" →
  main w b (line :: stdin) fs =
  ([EPrint "请输入视频文件路径: "; EPrint "错误：未提供视频文件路径"], fs, Ok 1).
Proof.
  intros H. unfold main, mbind, M_bind, bind, input, print, mret, M_ret, ret.
  lazy beta iota. by rewrite H.
Qed.

Lemma main_run (line1 line2 line3 : string) (stdin : list string) (fs : FS) :
  strip_chars quote_chars (str_strip b line1) ≠ "" →
  main w b (line1 :: line2 :: line3 :: stdin) fs =
  match result_of (process_video_to_text w
                     (strip_chars quote_chars (str_strip b line1))
                     (default "base" (model_map !! str_strip b line2))
                     (bool_decide (str_lower b (str_strip b line3) ∈ ["y"; "yes"; "是"]))
                     fs) with
  | Ok success =>
      (dialogue (default "base" (model_map !! str_strip b line2)) ++
       trace_of (process_video_to_text w
                   (strip_chars quote_chars (str_strip b line1))
                   (default "base" (model_map !! str_strip b line2))
                   (bool_decide (str_lower b (str_strip b line3) ∈ ["y"; "yes"; "是"]))
                   fs) ++
       [EPrint (final_banner success)],
       fs_of (process_video_to_text w
                (strip_chars quote_chars (str_strip b line1))
                (default "base" (model_map !! str_strip b line2))
                (bool_decide (str_lower b (str_strip b line3) ∈ ["y"; "yes"; "是"]))
                fs),
       Ok 0)
  | Raise e =>
      (dialogue (default "base" (model_map !! str_strip b line2)) ++
       trace_of (process_video_to_text w
                   (strip_chars quote_chars (str_strip b line1))
                   (default "base" (model_map !! str_strip b line2))
                   (bool_decide (str_lower b (str_strip b line3) ∈ ["y"; "yes"; "是"]))
                   fs),
       fs_of (process_video_to_text w
                (strip_chars quote_chars (str_strip b line1))
                (default "base" (model_map !! str_strip b line2))
                (bool_decide (str_lower b (str_strip b line3) ∈ ["y"; "yes"; "是"]))
                fs),
       Raise e)
  end.
Proof.
  intros H. apply String.eqb_neq in H.
  unfold main, mbind, M_bind, bind, input, print, mret, M_ret, ret.
  lazy beta iota. rewrite H.
  destruct (process_video_to_text w _ _ _ fs) as [[t f] [[|]|e]]; reflexivity.
Qed.

Lemma main_cut_short (stdin : list string) (fs : FS) :
  (List.length stdin < 3)%nat →
  fs_of (main w b stdin fs) = fs ∧
  Forall (fun e => ∃ line, e = EPrint line) (trace_of (main w b stdin fs)) ∧
  result_of (main w b stdin fs) ≠ Ok 0.
Proof.
  intros Hlen.
  destruct stdin as [|line1 stdin]; [by repeat constructor; eauto|].
  destruct (String.eqb (strip_chars quote_chars (str_strip b line1)) "") eqn:Hp.
  { apply String.eqb_eq in Hp. rewrite (main_no_path _ _ _ Hp).
    repeat split; [repeat constructor; eauto | discriminate]. }
  unfold main, mbind, M_bind, bind, input, print, mret, M_ret, ret.
  lazy beta iota. rewrite Hp.
  destruct stdin as [|line2 stdin].
  { repeat split; [repeat constructor; eauto | discriminate]. }
  destruct stdin as [|line3 stdin]; [|simpl in Hlen; lia].
  repeat split; [repeat constructor; eauto | discriminate].
Qed.

End Main.

Section Saving.
Context (w : World).

(** ** Saving and cleaning up *)

Lemma save_text_refused (video_path text e : string) (fs : FS) :
  os_fault w (OpOpenWrite (text_output_file_of video_path)) = Some e →
  save_text w video_path text fs =
  ([ECall (OpOpenWrite (text_output_file_of video_path)) false;
    EPrint ("保存文件时发生错误: " +:+ e)], fs, Ok false).
Proof.
  intros Hf.
  unfold save_text, try_except, mbind, M_bind, bind, open_write, call, print.
  by rewrite Hf.
Qed.

Lemma save_and_cleanup_refused (video_path text e : string) (seg : bool) (fs : FS) :
  os_fault w (OpOpenWrite (text_output_file_of video_path)) = Some e →
  save_and_cleanup w video_path seg text fs =
  ([EPrint (newline +:+ "--- 转录完成 ---"); EPrint "转录结果预览:"; EPrint (preview text);
    ECall (OpOpenWrite (text_output_file_of video_path)) false;
    EPrint ("保存文件时发生错误: " +:+ e)], fs, Ok false).
Proof.
  intros Hf. unfold save_and_cleanup.
  unfold mbind, M_bind, bind, print, mret, M_ret, ret.
  by rewrite (save_text_refused _ _ _ _ Hf).
Qed.

Lemma cleanup_remove_refused (video_path e : string) (seg : bool) (fs : FS) :
  path_exists fs (audio_file_of video_path) = true →
  os_fault w (OpRemove (audio_file_of video_path)) = Some e →
  cleanup w video_path seg fs =
  ([ECall (OpRemove (audio_file_of video_path)) false;
    EPrint ("清理临时文件时发生警告: " +:+ e)], fs, Ok tt).
Proof.
  intros Hex Hf. unfold cleanup, os_path_exists, os_remove.
  unfold try_except, mbind, M_bind, bind, get_fs, mret, M_ret, ret, call, print.
  lazy beta iota. rewrite Hex. cbn [when]. lazy beta iota. by rewrite Hf.
Qed.

Lemma save_and_cleanup_remove_refused (video_path text e : string) (seg : bool)
    (fs : FS) :
  os_fault w (OpOpenWrite (text_output_file_of video_path)) = None →
  text_output_file_of video_path ∉ dirs fs →
  is_Some (files fs !! audio_file_of video_path) →
  os_fault w (OpRemove (audio_file_of video_path)) = Some e →
  save_and_cleanup w video_path seg text fs =
  ([EPrint (newline +:+ "--- 转录完成 ---"); EPrint "转录结果预览:"; EPrint (preview text);
    ECall (OpOpenWrite (text_output_file_of video_path)) true;
    EPrint (newline +:+ "转录文本已成功保存到: " +:+ text_output_file_of video_path);
    ECall (OpRemove (audio_file_of video_path)) false;
    EPrint ("清理临时文件时发生警告: " +:+ e)],
   fs_write (text_output_file_of video_path) text fs, Ok true).
Proof.
  intros Hw Hd [bytes Hb] Hr. unfold save_and_cleanup.
  unfold mbind, M_bind, bind, print, mret, M_ret, ret.
  rewrite (save_text_ok w _ _ _ Hw Hd). cbn [negb].
  assert (Hex : path_exists (fs_write (text_output_file_of video_path) text fs)
                  (audio_file_of video_path) = true).
  { unfold path_exists. cbn [files fs_write].
    rewrite lookup_insert_ne by apply text_file_not_audio.
    rewrite Hb. by rewrite bool_decide_eq_true_2 by by eexists. }
  by rewrite (cleanup_remove_refused _ _ _ _ Hex Hr).
Qed.

Lemma save_text_keeps_audio (video_path text : string) :
  keeps (fun _ => True) (untouched (audio_file_of video_path))
    (save_text w video_path text).
Proof.
  unfold save_text. repeat keeps_step; try (by intros).
  intros fs. unfold untouched. cbn. apply lookup_insert_ne, text_file_not_audio.
Qed.

Lemma save_and_cleanup_cleans (video_path text : string) (seg : bool) (fs : FS)
    (bytes : string) :
  files fs !! audio_file_of video_path = Some bytes →
  result_of (save_and_cleanup w video_path seg text fs) = Ok true →
  os_fault w (OpRemove (audio_file_of video_path)) = None →
  os_fault w (OpRmtree (chunks_dir_of video_path)) = None →
  files (fs_of (save_and_cleanup w video_path seg text fs))
    !! audio_file_of video_path = None ∧
  (seg = true →
   chunks_dir_of video_path ∉ dirs (fs_of (save_and_cleanup w video_path seg text fs))).
Proof.
  intros Hb Hr Hrm Hrt. unfold save_and_cleanup in *.
  unfold mbind, M_bind, bind, print, mret, M_ret, ret in *.
  destruct (save_text_keeps_audio video_path text fs) as [_ Hu].
  destruct (save_text w video_path text fs) as [[t1 fs1] [[|]|e]];
    cbn [negb] in *; try discriminate.
  unfold untouched, fs_of in Hu. simpl in Hu. rewrite Hb in Hu.
  pose proof (cleanup_removes w video_path seg fs1 bytes Hu Hrm Hrt) as Hc.
  destruct (cleanup w video_path seg fs1) as [[t2 fs2] [[]|e]]; try discriminate.
  exact Hc.
Qed.

End Saving.

Lemma strip_chars_bare (chars : list ascii) (p : string) :
  starts_in chars p = false → ends_in chars p = false → strip_chars chars p = p.
Proof.
  intros Hs He.
  pose proof (strip_chars_between chars "" p "" eq_refl eq_refl Hs He) as H.
  change ("" +:+ p +:+ "") with (p +:+ "") in H. by rewrite str_app_nil_r in H.
Qed.

Section MainFacts.
Context (w : World) (b : Builtins).

Lemma main_path_only (line line' : string) (stdin : list string) (fs : FS) :
  strip_chars quote_chars (str_strip b line) =
  strip_chars quote_chars (str_strip b line') →
  main w b (line :: stdin) fs = main w b (line' :: stdin) fs.
Proof.
  intros H. unfold main, mbind, M_bind, bind, input, print, mret, M_ret, ret.
  lazy beta iota. by rewrite H.
Qed.

Lemma main_trace_cases (stdin : list string) (fs : FS) :
  Forall (fun e => ∃ line, e = EPrint line) (trace_of (main w b stdin fs)) ∨
  ∃ line1 line2 line3 rest success_banner,
    stdin = line1 :: line2 :: line3 :: rest ∧
    trace_of (main w b stdin fs) =
    dialogue (default "base" (model_map !! str_strip b line2)) ++
    trace_of (process_video_to_text w
                (strip_chars quote_chars (str_strip b line1))
                (default "base" (model_map !! str_strip b line2))
                (bool_decide (str_lower b (str_strip b line3) ∈ ["y"; "yes"; "是"]))
                fs) ++ success_banner ∧
    Forall (fun e => ∃ line, e = EPrint line) success_banner.
Proof.
  destruct (decide (List.length stdin < 3)%nat) as [Hlt|Hge].
  { left. by destruct (main_cut_short w b stdin fs Hlt) as (_ & H & _). }
  destruct stdin as [|line1 [|line2 [|line3 rest]]]; try (simpl in Hge; lia).
  destruct (decide (strip_chars quote_chars (str_strip b line1) = "")) as [Hp|Hp].
  { left. rewrite (main_no_path w b _ _ _ Hp). repeat constructor; eauto. }
  right. rewrite (main_run w b _ _ _ _ _ Hp).
  destruct (result_of (process_video_to_text w _ _ _ fs)) as [success|e].
  - exists line1, line2, line3, rest, [EPrint (final_banner success)].
    repeat split; [repeat constructor; eauto].
  - exists line1, line2, line3, rest, []. cbn [trace_of fst].
    rewrite List.app_nil_r. by repeat split.
Qed.

End MainFacts.

Section Creates.
Context (w : World).

(** ** What a run that returns [True] has created *)

Lemma save_and_cleanup_true_inv (video_path text : string) (seg : bool) (fs : FS) :
  result_of (save_and_cleanup w video_path seg text fs) = Ok true →
  ECall (OpOpenWrite (text_output_file_of video_path)) true ∈
    trace_of (save_and_cleanup w video_path seg text fs) ∧
  files (fs_of (save_and_cleanup w video_path seg text fs))
    !! text_output_file_of video_path = Some text.
Proof.
  intros Hr.
  destruct (os_fault w (OpOpenWrite (text_output_file_of video_path))) as [e|] eqn:Hf.
  { rewrite (save_and_cleanup_refused w _ _ _ _ _ Hf) in Hr. discriminate. }
  destruct (decide (text_output_file_of video_path ∈ dirs fs)) as [Hd|Hd].
  { exfalso. revert Hr.
    unfold save_and_cleanup, save_text, try_except, mbind, M_bind, bind, open_write,
      call, print, mret, M_ret, ret.
    rewrite Hf, bool_decide_eq_true_2 by exact Hd. discriminate. }
  split; [|by apply save_and_cleanup_saves].
  unfold save_and_cleanup. unfold mbind, M_bind, bind, print, mret, M_ret, ret.
  rewrite (save_text_ok w _ _ _ Hf Hd). cbn [negb].
  destruct (cleanup w video_path seg _) as [[t f] r].
  destruct r; cbn [trace_of fst]; rewrite !elem_of_app, !elem_of_cons; tauto.
Qed.

Lemma audio_file_not_chunks_dir (name : string) :
  name +:+ "_audio_chunks" ≠ name +:+ "_temp_audio.mp3".
Proof. intros H. apply String.app_inj in H. discriminate. Qed.

Lemma process_creates (video_path model_name : string) (seg : bool) (fs : FS) :
  result_of (process_video_to_text w video_path model_name seg fs) = Ok true →
  ECall (OpWriteAudiofile (audio_file_of video_path)) true ∈
    trace_of (process_video_to_text w video_path model_name seg fs) ∧
  ECall (OpOpenWrite (text_output_file_of video_path)) true ∈
    trace_of (process_video_to_text w video_path model_name seg fs) ∧
  (∃ text, text ≠ "" ∧
     files (fs_of (process_video_to_text w video_path model_name seg fs))
       !! text_output_file_of video_path = Some text) ∧
  (seg = true → path_exists fs (chunks_dir_of video_path) = false →
   ECall (OpMakedirs (chunks_dir_of video_path)) true ∈
     trace_of (process_video_to_text w video_path model_name seg fs)).
Proof.
  intros Hr.
  destruct (process_true_inv w _ _ _ _ Hr) as (Hex & Hx & c & s & Ht & Hs & Hfs).
  destruct (save_and_cleanup_true_inv _ _ _ _ Hs) as [Hopen Hfile].
  rewrite Hfs.
  rewrite (process_run w video_path model_name seg fs Hex Hx), Ht.
  cbn [trace_of fst].
  assert (Hxrun : ∃ bytes,
    extract_audio_from_video w video_path (audio_file_of video_path) fs =
    ([ECall (OpVideoFileClip video_path) true;
      ECall (OpWriteAudiofile (audio_file_of video_path)) true;
      EPrint ("音频已成功提取到: " +:+ audio_file_of video_path)],
     fs_write (audio_file_of video_path) bytes fs, Ok true)).
  { revert Hx. rewrite extract_run.
    destruct (lib_VideoFileClip w video_path) as [video|]; [|discriminate].
    destruct (lib_write_audiofile w video _) as [bytes|]; [|discriminate].
    by exists bytes. }
  destruct Hxrun as [bytes Hxrun].
  repeat split.
  - rewrite Hxrun. cbn [trace_of fst]. rewrite !elem_of_app, !elem_of_cons. tauto.
  - rewrite !elem_of_app. by right.
  - by exists (String c s).
  - intros -> Hno. rewrite !elem_of_app. left. right. right. right.
    revert Ht. rewrite Hxrun. cbn [fs_of fst snd]. unfold transcriber.
    assert (Hno' : path_exists (fs_write (audio_file_of video_path) bytes fs)
                     (chunks_dir_of video_path) = false).
    { unfold path_exists in *. cbn.
      rewrite lookup_insert_ne by (symmetry; apply audio_file_not_chunks_dir).
      exact Hno. }
    destruct (os_fault w (OpMakedirs (chunks_dir_of video_path))) as [e|] eqn:Hf.
    { rewrite (split_makedirs_raises w _ _ _ _ _ _ _ Hno' Hf). discriminate. }
    rewrite (split_run_ready w) by (by right). intros _.
    cbn [trace_of fst]. unfold makedirs_trace. rewrite Hno'.
    rewrite elem_of_app, elem_of_cons. by left; left.
Qed.

End Creates.

(** ** The preview of the transcript *)

Lemma text_len_slice_to (s : string) (n : nat) :
  Path.text_len (Path.text_slice_to s n) = Nat.min n (Path.text_len s).
Proof.
  revert n. induction s as [|c r IH]; intros n; [by destruct n|].
  cbn [Path.text_slice_to Path.text_len].
  destruct (Path.is_continuation c) eqn:Hc.
  - cbn [Path.text_len]. rewrite Hc. apply IH.
  - destruct n as [|k]; [reflexivity|].
    cbn [Path.text_len]. rewrite Hc, IH. reflexivity.
Qed.

Lemma preview_short (text : string) :
  (Path.text_len text ≤ 200)%nat → preview text = text.
Proof.
  intros H. unfold preview.
  destruct (Z.ltb_spec 200 (Z.of_nat (Path.text_len text))); [lia | reflexivity].
Qed.

Lemma preview_long (text : string) :
  (200 < Path.text_len text)%nat →
  preview text = Path.text_slice_to text 200 +:+ "..." ∧
  Path.text_len (Path.text_slice_to text 200) = 200%nat.
Proof.
  intros H. unfold preview. rewrite text_len_slice_to.
  destruct (Z.ltb_spec 200 (Z.of_nat (Path.text_len text))); [|lia].
  split; [reflexivity | lia].
Qed.

(** A transcript of 70 Chinese characters takes 210 bytes and is shown
    whole; one of 201 characters is cut after the 200th. *)
Example preview_of_70_characters :
  String.length (String.concat "" (replicate 70 "转")) = 210%nat ∧
  preview (String.concat "" (replicate 70 "转")) = String.concat "" (replicate 70 "转").
Proof. by vm_compute. Qed.

Example preview_of_201_characters :
  preview (String.concat "" (replicate 201 "转")) =
  String.concat "" (replicate 200 "转") +:+ "...".
Proof. by vm_compute. Qed.

End MoreFacts.

(* ===================================================================== *)
(** * The claims of the specification *)
(* ===================================================================== *)

Module Claims.
Import Effects Transcriber Spec PathFacts EffectFacts ProgramFacts.

(** Decides a closed membership, equality or disequality by evaluation. *)
Ltac by_evaluation := apply (bool_decide_unpack _); vm_compute; exact I.

(** C7: for a video path at which nothing exists, [process_video_to_text]
    prints the error line and returns [False]; it calls nothing (no audio
    extraction in particular) and leaves the file system as it found it. *)
Theorem missing_video_fails (w : World) (video_path model_name : string)
    (use_segmentation : bool) (fs : FS) :
  path_exists fs video_path = false →
  process_video_to_text w video_path model_name use_segmentation fs =
  ([EPrint ("错误：视频文件不存在: " +:+ video_path)], fs, Ok false).
Proof.
  intros Hex. unfold process_video_to_text.
  unfold mbind at 1, M_bind at 1, bind at 1, os_path_exists at 1.
  unfold mbind at 1, M_bind at 1, bind at 1, get_fs at 1, mret at 1, M_ret at 1, ret at 1.
  by rewrite Hex.
Qed.

Lemma missing_video_fails_witness :
  path_exists demo_fs "videos/absent.mp4" = false ∧
  process_video_to_text (demo_world [] no_fault) "videos/absent.mp4" "base" true demo_fs =
  ([EPrint ("错误：视频文件不存在: " +:+ "videos/absent.mp4")], demo_fs, Ok false).
Proof.
  split; [by vm_compute|].
  apply (missing_video_fails (demo_world [] no_fault) "videos/absent.mp4" "base" true demo_fs).
  by vm_compute.
Defined.

(** C4 (as amended): the silence parameters [process_video_to_text] passes
    on in segmented mode are 700 ms and -35 dB: the minimum silence length
    is longer than the default of [split_and_transcribe_audio] (500 ms) and
    the silence threshold is higher than its default (-40 dB). *)
Theorem segmented_silence_parameters (w : World) (video_path model_name : string)
    (fs : FS) (m t k : Z) (ok : bool) :
  ECall (OpSplitOnSilence m t k) ok ∈
    trace_of (process_video_to_text w video_path model_name true fs) →
  m = 700 ∧ t = -35 ∧ default_min_silence_len < m ∧ default_silence_thresh < t.
Proof.
  intros Hin.
  destruct (process_footprint w video_path model_name true fs) as [Hall _].
  rewrite Forall_forall in Hall. apply Hall in Hin.
  inversion Hin as [| | |e Hs| | | | |]; subst.
  inversion Hs; subst. unfold default_min_silence_len, default_silence_thresh. lia.
Qed.

Lemma segmented_silence_parameters_witness :
  ECall (OpSplitOnSilence 700 (-35) 200) true ∈
    trace_of (process_video_to_text (demo_world ["hello"; "world"] no_fault)
                "videos/clip.mp4" "base" true demo_fs) ∧
  (700 = 700 ∧ -35 = -35 ∧ default_min_silence_len < 700 ∧ default_silence_thresh < -35).
Proof.
  split; [by_evaluation|].
  apply (segmented_silence_parameters (demo_world ["hello"; "world"] no_fault)
           "videos/clip.mp4" "base" demo_fs 700 (-35) 200 true).
  by_evaluation.
Defined.

(** C4 (as stated) fails: the threshold passed on in segmented mode, -35 dB,
    is not lower than the default threshold of -40 dB. *)
Lemma segmented_threshold_not_lower :
  ¬ (∀ (w : World) (video_path model_name : string) (fs : FS) (m t k : Z) (ok : bool),
       ECall (OpSplitOnSilence m t k) ok ∈
         trace_of (process_video_to_text w video_path model_name true fs) →
       default_min_silence_len < m ∧ t < default_silence_thresh).
Proof.
  intros H.
  destruct (H (demo_world ["hello"; "world"] no_fault) "videos/clip.mp4" "base" demo_fs
              700 (-35) 200 true) as [_ Hlt].
  - by_evaluation.
  - unfold default_silence_thresh in Hlt. lia.
Qed.

(** C1 (the code departs from it): when audio extraction succeeded and the
    transcriber returns [None] (as it does when the model cannot be loaded),
    [process_video_to_text] returns [False] at once: it never tries to
    delete the temporary audio file, which is still on disk when the run
    ends. *)
Theorem null_transcript_leaves_temp_audio (w : World) (video_path model_name : string)
    (use_segmentation : bool) (fs : FS) :
  path_exists fs video_path = true →
  result_of (extract_audio_from_video w video_path (audio_file_of video_path) fs)
    = Ok true →
  result_of (transcriber w video_path model_name use_segmentation
               (fs_of (extract_audio_from_video w video_path
                         (audio_file_of video_path) fs)))
    = Ok None →
  result_of (process_video_to_text w video_path model_name use_segmentation fs)
    = Ok false ∧
  (∀ ok, ECall (OpRemove (audio_file_of video_path)) ok ∉
           trace_of (process_video_to_text w video_path model_name use_segmentation fs)) ∧
  is_Some (files (fs_of (process_video_to_text w video_path model_name
                           use_segmentation fs))
             !! audio_file_of video_path).
Proof.
  intros Hex Hx Ht.
  rewrite (process_falsy_run w video_path model_name use_segmentation fs None Hex Hx Ht)
    by (by right).
  destruct (failed_run_keeps_audio w video_path model_name use_segmentation fs Hx)
    as [Hall Hsome].
  apply no_save_not_in in Hall as (_ & Hrm & _).
  by repeat split.
Qed.

Lemma null_transcript_leaves_temp_audio_witness :
  path_exists demo_fs "videos/clip.mp4" = true ∧
  result_of (extract_audio_from_video (demo_world [] no_fault) "videos/clip.mp4"
               (audio_file_of "videos/clip.mp4") demo_fs) = Ok true ∧
  result_of (transcriber (demo_world [] no_fault) "videos/clip.mp4" "huge" false
               (fs_of (extract_audio_from_video (demo_world [] no_fault)
                         "videos/clip.mp4" (audio_file_of "videos/clip.mp4") demo_fs)))
    = Ok None ∧
  (result_of (process_video_to_text (demo_world [] no_fault) "videos/clip.mp4" "huge"
                false demo_fs) = Ok false ∧
   (∀ ok, ECall (OpRemove (audio_file_of "videos/clip.mp4")) ok ∉
            trace_of (process_video_to_text (demo_world [] no_fault) "videos/clip.mp4"
                        "huge" false demo_fs)) ∧
   is_Some (files (fs_of (process_video_to_text (demo_world [] no_fault)
                            "videos/clip.mp4" "huge" false demo_fs))
              !! audio_file_of "videos/clip.mp4")).
Proof.
  split; [by vm_compute|]. split; [by vm_compute|]. split; [by vm_compute|].
  apply (null_transcript_leaves_temp_audio (demo_world [] no_fault)
             "videos/clip.mp4" "huge" false demo_fs); by vm_compute.
Defined.

(** C9: a transcript that is the empty string is treated exactly like no
    transcript at all: in both cases [process_video_to_text] prints the
    failure line right after the transcriber and returns [False], with the
    file system as the transcriber left it: no output file is written, no
    cleanup is run, and the temporary audio file stays on disk. *)
Theorem empty_transcript_is_failure (w : World) (video_path model_name : string)
    (use_segmentation : bool) (fs : FS) (transcribed_text : option string) :
  path_exists fs video_path = true →
  result_of (extract_audio_from_video w video_path (audio_file_of video_path) fs)
    = Ok true →
  result_of (transcriber w video_path model_name use_segmentation
               (fs_of (extract_audio_from_video w video_path
                         (audio_file_of video_path) fs)))
    = Ok transcribed_text →
  transcribed_text = Some "" ∨ transcribed_text = None →
  process_video_to_text w video_path model_name use_segmentation fs =
  (process_prefix video_path ++
   trace_of (extract_audio_from_video w video_path (audio_file_of video_path) fs) ++
   [EPrint (banner use_segmentation)] ++
   trace_of (transcriber w video_path model_name use_segmentation
               (fs_of (extract_audio_from_video w video_path
                         (audio_file_of video_path) fs))) ++
   [EPrint "转录失败。"],
   fs_of (transcriber w video_path model_name use_segmentation
            (fs_of (extract_audio_from_video w video_path
                      (audio_file_of video_path) fs))),
   Ok false) ∧
  (∀ q ok, ECall (OpOpenWrite q) ok ∉
             trace_of (process_video_to_text w video_path model_name use_segmentation fs)) ∧
  (∀ ok, ECall (OpRemove (audio_file_of video_path)) ok ∉
           trace_of (process_video_to_text w video_path model_name use_segmentation fs)) ∧
  (∀ q ok, ECall (OpRmtree q) ok ∉
             trace_of (process_video_to_text w video_path model_name use_segmentation fs)) ∧
  is_Some (files (fs_of (process_video_to_text w video_path model_name
                           use_segmentation fs))
             !! audio_file_of video_path).
Proof.
  intros Hex Hx Ht Hr.
  rewrite (process_falsy_run w video_path model_name use_segmentation fs
             transcribed_text Hex Hx Ht Hr).
  destruct (failed_run_keeps_audio w video_path model_name use_segmentation fs Hx)
    as [Hall Hsome].
  apply no_save_not_in in Hall as (Hw & Hrm & Hrt).
  by repeat split.
Qed.

Lemma empty_transcript_is_failure_witness :
  path_exists demo_fs "videos/clip.mp4" = true ∧
  result_of (extract_audio_from_video (demo_world [] no_fault) "videos/clip.mp4"
               (audio_file_of "videos/clip.mp4") demo_fs) = Ok true ∧
  result_of (transcriber (demo_world [] no_fault) "videos/clip.mp4" "base" true
               (fs_of (extract_audio_from_video (demo_world [] no_fault)
                         "videos/clip.mp4" (audio_file_of "videos/clip.mp4") demo_fs)))
    = Ok (Some "") ∧
  result_of (process_video_to_text (demo_world [] no_fault) "videos/clip.mp4" "base"
               true demo_fs) = Ok false ∧
  is_Some (files (fs_of (process_video_to_text (demo_world [] no_fault)
                           "videos/clip.mp4" "base" true demo_fs))
             !! audio_file_of "videos/clip.mp4").
Proof.
  assert (H1 : path_exists demo_fs "videos/clip.mp4" = true) by (by vm_compute).
  assert (H2 : result_of (extract_audio_from_video (demo_world [] no_fault)
                 "videos/clip.mp4" (audio_file_of "videos/clip.mp4") demo_fs) = Ok true)
    by (by vm_compute).
  assert (H3 : result_of (transcriber (demo_world [] no_fault) "videos/clip.mp4" "base"
                 true (fs_of (extract_audio_from_video (demo_world [] no_fault)
                         "videos/clip.mp4" (audio_file_of "videos/clip.mp4") demo_fs)))
               = Ok (Some "")) by (by vm_compute).
  destruct (empty_transcript_is_failure (demo_world [] no_fault) "videos/clip.mp4" "base"
              true demo_fs (Some "") H1 H2 H3 (or_introl eq_refl))
    as (Hrun & _ & _ & _ & Hsome).
  split; [exact H1|]. split; [exact H2|]. split; [exact H3|].
  split; [by rewrite Hrun | exact Hsome].
Defined.

(** C3 (the code departs from it): when the chunk directory is absent and
    [os.makedirs] fails, [split_and_transcribe_audio] does not return
    [None]: the exception leaves the function, nothing is printed, since
    the call stands before the [try] statement. *)
Theorem makedirs_failure_escapes (w : World) (audio_path output_dir : string)
    (min_silence_len silence_thresh : Z) (model_name : string) (fs : FS) (e : string) :
  path_exists fs output_dir = false →
  os_fault w (OpMakedirs output_dir) = Some e →
  split_and_transcribe_audio w audio_path output_dir min_silence_len silence_thresh
    model_name fs =
  ([ECall (OpMakedirs output_dir) false], fs, Raise e).
Proof. apply split_makedirs_raises. Qed.

Lemma makedirs_failure_escapes_witness :
  path_exists audio_fs "audio_chunks" = false ∧
  os_fault (demo_world ["hello"] makedirs_denied) (OpMakedirs "audio_chunks")
    = Some "[Errno 13] Permission denied" ∧
  split_and_transcribe_audio (demo_world ["hello"] makedirs_denied) "speech.mp3"
    "audio_chunks" 500 (-40) "base" audio_fs =
  ([ECall (OpMakedirs "audio_chunks") false], audio_fs,
   Raise "[Errno 13] Permission denied").
Proof.
  split; [by vm_compute|]. split; [by vm_compute|].
  apply (makedirs_failure_escapes (demo_world ["hello"] makedirs_denied) "speech.mp3"
           "audio_chunks" 500 (-40) "base" audio_fs); by vm_compute.
Defined.

(** C5: when the transcription of a chunk raises, [split_and_transcribe_audio]
    returns [None], and the failed call is the last thing it does before
    printing the error: no later chunk is exported or transcribed, and no
    partial transcript is returned. *)
Theorem chunk_failure_aborts (w : World) (audio_path output_dir : string)
    (min_silence_len silence_thresh : Z) (model_name : string) (fs : FS)
    (chunk_filename : string) :
  ECall (OpTranscribe chunk_filename) false ∈
    trace_of (split_and_transcribe_audio w audio_path output_dir min_silence_len
                silence_thresh model_name fs) →
  result_of (split_and_transcribe_audio w audio_path output_dir min_silence_len
               silence_thresh model_name fs) = Ok None ∧
  ∃ before e,
    trace_of (split_and_transcribe_audio w audio_path output_dir min_silence_len
                silence_thresh model_name fs) =
    before ++ [ECall (OpTranscribe chunk_filename) false;
               EPrint ("分段和转录音频时发生错误: " +:+ e)].
Proof.
  destruct (path_exists fs output_dir) eqn:Hex;
    [|destruct (os_fault w (OpMakedirs output_dir)) as [e|] eqn:Hf].
  2:{ rewrite (split_makedirs_raises w _ _ _ _ _ _ _ Hex Hf). cbn.
      intros H. apply list_elem_of_singleton in H. discriminate. }
  all: rewrite split_run_ready by auto; cbn [trace_of result_of fst snd];
    unfold makedirs_trace; rewrite Hex; intros Hin.
  - destruct (split_body_abort w _ _ _ _ _ _ _ Hin) as (Hr & t0 & e & Ht).
    split; [exact Hr|]. exists t0, e. by rewrite Ht.
  - apply elem_of_cons in Hin as [Hin|Hin]; [discriminate|].
    destruct (split_body_abort w _ _ _ _ _ _ _ Hin) as (Hr & t0 & e & Ht).
    split; [exact Hr|]. exists (ECall (OpMakedirs output_dir) true :: t0), e.
    by rewrite Ht.
Qed.

Lemma chunk_failure_aborts_witness :
  ECall (OpTranscribe "audio_chunks/chunk_1.wav") false ∈
    trace_of (split_and_transcribe_audio (demo_world ["hello"; "noise"; "world"] no_fault)
                "speech.mp3" "audio_chunks" 500 (-40) "base" audio_fs) ∧
  result_of (split_and_transcribe_audio (demo_world ["hello"; "noise"; "world"] no_fault)
               "speech.mp3" "audio_chunks" 500 (-40) "base" audio_fs) = Ok None ∧
  ∃ before e,
    trace_of (split_and_transcribe_audio (demo_world ["hello"; "noise"; "world"] no_fault)
                "speech.mp3" "audio_chunks" 500 (-40) "base" audio_fs) =
    before ++ [ECall (OpTranscribe "audio_chunks/chunk_1.wav") false;
               EPrint ("分段和转录音频时发生错误: " +:+ e)].
Proof.
  split; [by_evaluation|].
  apply (chunk_failure_aborts (demo_world ["hello"; "noise"; "world"] no_fault)
           "speech.mp3" "audio_chunks" 500 (-40) "base" audio_fs
           "audio_chunks/chunk_1.wav").
  by_evaluation.
Defined.

(** C2 (as amended): the transcript a segmented run returns is the
    per-chunk transcription results, in chunk order, joined with single
    spaces; each iteration writes its chunk file, transcribes it and tries
    to delete it before the next chunk is written; and when no deletion
    fails, at most one chunk file of the run is on disk at a time and none
    is left at the end. *)
Theorem segmented_transcript (w : World) (audio_path output_dir : string)
    (min_silence_len silence_thresh : Z) (model_name : string) (fs : FS)
    (text : string) :
  result_of (split_and_transcribe_audio w audio_path output_dir min_silence_len
               silence_thresh model_name fs) = Ok (Some text) →
  ∃ audio chunks model texts,
    lib_split_on_silence w audio min_silence_len silence_thresh 200 = Ok chunks ∧
    lib_load_model w model_name = Ok model ∧
    List.length texts = List.length chunks ∧
    (∀ j chunk, chunks !! j = Some chunk →
       ∃ chunk_text, texts !! j = Some chunk_text ∧
                     chunk_result w model output_dir j chunk = Ok chunk_text) ∧
    text = String.concat " " texts ∧
    trace_of (split_and_transcribe_audio w audio_path output_dir min_silence_len
                silence_thresh model_name fs) =
      makedirs_trace fs output_dir ++
      setup_trace audio_path min_silence_len silence_thresh model_name ++
      flat_map (iteration_trace w output_dir (List.length chunks))
        (seq 0 (List.length chunks)) ∧
    ((∀ i, os_fault w (OpRemove (chunk_filename_of output_dir i)) = None) →
     (peak (trace_of (split_and_transcribe_audio w audio_path output_dir
                        min_silence_len silence_thresh model_name fs)) ∅ ≤ 1)%nat ∧
     ∀ j, (j < List.length chunks)%nat →
       files (fs_of (split_and_transcribe_audio w audio_path output_dir
                       min_silence_len silence_thresh model_name fs))
         !! chunk_filename_of output_dir j = None).
Proof.
  intros Hr.
  assert (Hready : path_exists fs output_dir = true ∨
                   os_fault w (OpMakedirs output_dir) = None).
  { destruct (path_exists fs output_dir) eqn:Hex; [by left|].
    destruct (os_fault w (OpMakedirs output_dir)) as [e|] eqn:Hf; [|by right].
    rewrite (split_makedirs_raises w _ _ _ _ _ _ _ Hex Hf) in Hr. discriminate. }
  pose proof Hr as Hr'. rewrite split_run_ready in Hr' by exact Hready.
  cbn [result_of snd] in Hr'.
  apply split_body_inv in Hr' as (bytes & audio & chunks & model & texts &
                                  Hb & Ha & Hc & Hm & Ht & ->).
  rewrite files_makedirs_fs in Hb.
  rewrite (split_success_run w _ _ _ _ _ _ _ _ _ _ _ Hready Hb Ha Hc Hm Ht).
  cbn [trace_of fs_of result_of fst snd].
  destruct (chunk_texts_lookup w model output_dir chunks 0 texts Ht) as [Hlen Hall].
  exists audio, chunks, model, texts. repeat split; try done.
  - rewrite !peak_app.
    destruct (makedirs_live fs output_dir ∅) as [-> ->].
    destruct (setup_live audio_path min_silence_len silence_thresh model_name ∅)
      as [-> ->].
    destruct (iterations_live w output_dir (List.length chunks) (List.length chunks) H 0%nat)
      as [_ Hp].
    rewrite size_empty. lia.
  - intros j Hj. apply (chunks_fs_absent w model output_dir chunks H 0%nat texts _ j Ht). lia.
Qed.

Lemma segmented_transcript_witness :
  result_of (split_and_transcribe_audio (demo_world ["hello"; "world"] no_fault)
               "speech.mp3" "audio_chunks" 500 (-40) "base" audio_fs)
    = Ok (Some "hello world") ∧
  ∃ audio chunks model texts,
    lib_split_on_silence (demo_world ["hello"; "world"] no_fault) audio 500 (-40) 200
      = Ok chunks ∧
    lib_load_model (demo_world ["hello"; "world"] no_fault) "base" = Ok model ∧
    List.length texts = List.length chunks ∧
    (∀ j chunk, chunks !! j = Some chunk →
       ∃ chunk_text, texts !! j = Some chunk_text ∧
         chunk_result (demo_world ["hello"; "world"] no_fault) model "audio_chunks" j chunk
           = Ok chunk_text) ∧
    "hello world" = String.concat " " texts ∧
    trace_of (split_and_transcribe_audio (demo_world ["hello"; "world"] no_fault)
                "speech.mp3" "audio_chunks" 500 (-40) "base" audio_fs) =
      makedirs_trace audio_fs "audio_chunks" ++
      setup_trace "speech.mp3" 500 (-40) "base" ++
      flat_map (iteration_trace (demo_world ["hello"; "world"] no_fault) "audio_chunks"
                  (List.length chunks))
        (seq 0 (List.length chunks)) ∧
    ((∀ i, os_fault (demo_world ["hello"; "world"] no_fault)
             (OpRemove (chunk_filename_of "audio_chunks" i)) = None) →
     (peak (trace_of (split_and_transcribe_audio (demo_world ["hello"; "world"] no_fault)
                        "speech.mp3" "audio_chunks" 500 (-40) "base" audio_fs)) ∅ ≤ 1)%nat ∧
     ∀ j, (j < List.length chunks)%nat →
       files (fs_of (split_and_transcribe_audio (demo_world ["hello"; "world"] no_fault)
                       "speech.mp3" "audio_chunks" 500 (-40) "base" audio_fs))
         !! chunk_filename_of "audio_chunks" j = None).
Proof.
  split; [by vm_compute|].
  apply (segmented_transcript (demo_world ["hello"; "world"] no_fault) "speech.mp3"
           "audio_chunks" 500 (-40) "base" audio_fs "hello world").
  by vm_compute.
Defined.

(** C2 (as stated) fails: a segmented run can succeed although a chunk file
    was not deleted after its transcription. Here deleting [chunk_0.wav] is
    refused: the run still returns the transcript, the file is on disk when
    [chunk_1.wav] is written (two chunk files at a time) and when the
    function returns. *)
Lemma chunk_file_can_outlive_its_transcription :
  result_of (split_and_transcribe_audio
               (demo_world ["hello"; "world"] (remove_denied "audio_chunks/chunk_0.wav"))
               "speech.mp3" "audio_chunks" 500 (-40) "base" audio_fs)
    = Ok (Some "hello world") ∧
  peak (trace_of (split_and_transcribe_audio
                    (demo_world ["hello"; "world"] (remove_denied "audio_chunks/chunk_0.wav"))
                    "speech.mp3" "audio_chunks" 500 (-40) "base" audio_fs)) ∅ = 2%nat ∧
  files (fs_of (split_and_transcribe_audio
                  (demo_world ["hello"; "world"] (remove_denied "audio_chunks/chunk_0.wav"))
                  "speech.mp3" "audio_chunks" 500 (-40) "base" audio_fs))
    !! "audio_chunks/chunk_0.wav" = Some "hello".
Proof. repeat split; by vm_compute. Qed.

(** C6: when deleting the file of chunk [k] fails, the failure is followed
    by the warning line and nothing else changes: with every chunk
    exported and transcribed without error, the run goes through all
    iterations, every later chunk is written and transcribed after the
    warning, and the transcript of all chunks is returned. *)
Theorem remove_failure_is_not_fatal (w : World) (audio_path output_dir : string)
    (min_silence_len silence_thresh : Z) (model_name : string) (fs : FS)
    (bytes : string) (audio : Audio w) (chunks : list (Chunk w)) (model : Model w)
    (texts : list string) (k : nat) (e : string) :
  path_exists fs output_dir = true ∨ os_fault w (OpMakedirs output_dir) = None →
  files fs !! audio_path = Some bytes →
  lib_from_file w bytes = Ok audio →
  lib_split_on_silence w audio min_silence_len silence_thresh 200 = Ok chunks →
  lib_load_model w model_name = Ok model →
  chunk_texts w model output_dir 0 chunks = Ok texts →
  (k < List.length chunks)%nat →
  os_fault w (OpRemove (chunk_filename_of output_dir k)) = Some e →
  result_of (split_and_transcribe_audio w audio_path output_dir min_silence_len
               silence_thresh model_name fs) = Ok (Some (String.concat " " texts)) ∧
  List.length texts = List.length chunks ∧
  trace_of (split_and_transcribe_audio w audio_path output_dir min_silence_len
              silence_thresh model_name fs) =
    makedirs_trace fs output_dir ++
    setup_trace audio_path min_silence_len silence_thresh model_name ++
    flat_map (iteration_trace w output_dir (List.length chunks))
      (seq 0 (List.length chunks)) ∧
  ∃ before after,
    trace_of (split_and_transcribe_audio w audio_path output_dir min_silence_len
                silence_thresh model_name fs) =
      before ++
      [ECall (OpRemove (chunk_filename_of output_dir k)) false;
       EPrint ("⚠️  删除分块文件时出错: " +:+ e)] ++
      after ∧
    ∀ j, (k < j < List.length chunks)%nat →
      ECall (OpExport (chunk_filename_of output_dir j)) true ∈ after ∧
      ECall (OpTranscribe (chunk_filename_of output_dir j)) true ∈ after.
Proof.
  intros Hready Hb Ha Hc Hm Ht Hk Hf.
  rewrite (split_success_run w _ _ _ _ _ _ _ _ _ _ _ Hready Hb Ha Hc Hm Ht).
  cbn [trace_of fs_of result_of fst snd].
  destruct (chunk_texts_lookup w model output_dir chunks 0 texts Ht) as [Hlen _].
  repeat split; try done.
  rewrite (flat_map_seq_split _ k _ Hk).
  unfold iteration_trace at 2. rewrite Hf.
  eexists _, (flat_map _ (seq (S k) (List.length chunks - S k))). split.
  - rewrite !List.app_assoc. reflexivity.
  - intros j Hj. by apply later_chunks_in.
Qed.

Lemma remove_failure_is_not_fatal_witness :
  result_of (split_and_transcribe_audio
               (demo_world ["hello"; "big"; "world"] (remove_denied "audio_chunks/chunk_0.wav"))
               "speech.mp3" "audio_chunks" 500 (-40) "base" audio_fs)
    = Ok (Some (String.concat " " ["hello"; "big"; "world"])) ∧
  ECall (OpRemove "audio_chunks/chunk_0.wav") false ∈
    trace_of (split_and_transcribe_audio
                (demo_world ["hello"; "big"; "world"] (remove_denied "audio_chunks/chunk_0.wav"))
                "speech.mp3" "audio_chunks" 500 (-40) "base" audio_fs).
Proof.
  destruct (remove_failure_is_not_fatal
              (demo_world ["hello"; "big"; "world"] (remove_denied "audio_chunks/chunk_0.wav"))
              "speech.mp3" "audio_chunks" 500 (-40) "base" audio_fs
              "AUDIO" "AUDIO" ["hello"; "big"; "world"] "base" ["hello"; "big"; "world"]
              0%nat "[Errno 13] Permission denied")
    as (Hr & _ & _ & before & after & Ht & _).
  - right. by vm_compute.
  - by vm_compute.
  - by vm_compute.
  - by vm_compute.
  - by vm_compute.
  - by vm_compute.
  - simpl. lia.
  - by vm_compute.
  - split; [exact Hr|]. rewrite Ht.
    apply elem_of_app. right. apply elem_of_app. left. apply list_elem_of_here.
Defined.

(** C8: for a video whose base name is [stem.ext] the transcript goes to
    [stem.txt], whatever the extension and the directory of the video; when
    extraction and transcription succeed and the file can be opened for
    writing, the run succeeds and leaves in [stem.txt] exactly the
    transcript, whatever the file held before. *)
Theorem transcript_file (w : World) (video_path stem ext model_name : string)
    (use_segmentation : bool) (fs : FS) (text : string) :
  Path.basename video_path = stem +:+ "." +:+ ext →
  all_dots stem = false →
  Path.contains Path.extsep ext = false →
  path_exists fs video_path = true →
  result_of (extract_audio_from_video w video_path (audio_file_of video_path) fs)
    = Ok true →
  result_of (transcriber w video_path model_name use_segmentation
               (fs_of (extract_audio_from_video w video_path
                         (audio_file_of video_path) fs)))
    = Ok (Some text) →
  text ≠ "" →
  os_fault w (OpOpenWrite (stem +:+ ".txt")) = None →
  stem +:+ ".txt" ∉
    dirs (fs_of (transcriber w video_path model_name use_segmentation
                   (fs_of (extract_audio_from_video w video_path
                             (audio_file_of video_path) fs)))) →
  text_output_file_of video_path = stem +:+ ".txt" ∧
  result_of (process_video_to_text w video_path model_name use_segmentation fs)
    = Ok true ∧
  (∀ q ok, ECall (OpOpenWrite q) ok ∈
             trace_of (process_video_to_text w video_path model_name use_segmentation fs) →
           q = stem +:+ ".txt") ∧
  files (fs_of (process_video_to_text w video_path model_name use_segmentation fs))
    !! (stem +:+ ".txt") = Some text.
Proof.
  intros Hb Hd Hx Hex Hok Ht Hne Hf Hdir.
  assert (Hout : text_output_file_of video_path = stem +:+ ".txt").
  { unfold text_output_file_of. by rewrite (get_filename_stem video_path stem ext Hb Hd Hx). }
  rewrite <- Hout in *.
  destruct (process_writes_only w video_path model_name use_segmentation fs)
    as (_ & Hw & _).
  split; [reflexivity|].
  rewrite (process_run w video_path model_name use_segmentation fs Hex Hok) in *.
  rewrite Ht in *. destruct text as [|c s]; [done|].
  cbn [trace_of fs_of result_of fst snd] in *.
  destruct (save_and_cleanup_saves w video_path (String c s) use_segmentation _ Hf Hdir)
    as [Hr Hfile].
  by repeat split.
Qed.

Lemma transcript_file_witness :
  text_output_file_of "videos/clip.mp4" = "clip" +:+ ".txt" ∧
  files demo_fs !! "clip.txt" = Some "old transcript" ∧
  result_of (process_video_to_text (demo_world ["hello"; "world"] no_fault)
               "videos/clip.mp4" "base" true demo_fs) = Ok true ∧
  files (fs_of (process_video_to_text (demo_world ["hello"; "world"] no_fault)
                  "videos/clip.mp4" "base" true demo_fs))
    !! ("clip" +:+ ".txt") = Some "hello world".
Proof.
  destruct (transcript_file (demo_world ["hello"; "world"] no_fault) "videos/clip.mp4"
              "clip" "mp4" "base" true demo_fs "hello world")
    as (Hname & Hr & _ & Hfile).
  - by vm_compute.
  - by vm_compute.
  - by vm_compute.
  - by vm_compute.
  - by vm_compute.
  - by vm_compute.
  - discriminate.
  - by vm_compute.
  - by_evaluation.
  - split; [exact Hname|]. split; [by vm_compute|]. split; [exact Hr | exact Hfile].
Defined.

(** C10: the names of the temporary audio file, of the output file and of
    the chunk directory contain no path separator, do not depend on the
    directory of the video and are built from its base name: for a base
    name [stem.ext] they are [stem_temp_audio.mp3], [stem.txt] and
    [stem_audio_chunks]. A run that returns [True] has extracted the audio
    to the first, has then written the transcript to the second, which holds
    it when the run ends, and, in segmented mode with the chunk directory
    absent, has created the third. They are the only paths a run extracts
    audio to, opens for writing or creates as a directory, and no file whose
    path has a directory part is changed, unless it lies in the chunk
    directory: the artifacts are made in the working directory, not next to
    the video. *)
Theorem artifacts_are_bare_names (w : World) (video_path model_name : string)
    (use_segmentation : bool) (fs : FS) :
  (Path.contains Path.sep (audio_file_of video_path) = false ∧
   Path.contains Path.sep (text_output_file_of video_path) = false ∧
   Path.contains Path.sep (chunks_dir_of video_path) = false) ∧
  (∀ dir,
     audio_file_of (dir +:+ "/" +:+ Path.basename video_path) = audio_file_of video_path ∧
     text_output_file_of (dir +:+ "/" +:+ Path.basename video_path)
       = text_output_file_of video_path ∧
     chunks_dir_of (dir +:+ "/" +:+ Path.basename video_path) = chunks_dir_of video_path) ∧
  (∀ stem ext,
     Path.basename video_path = stem +:+ "." +:+ ext →
     all_dots stem = false →
     Path.contains Path.extsep ext = false →
     audio_file_of video_path = stem +:+ "_temp_audio.mp3" ∧
     text_output_file_of video_path = stem +:+ ".txt" ∧
     chunks_dir_of video_path = stem +:+ "_audio_chunks") ∧
  (result_of (process_video_to_text w video_path model_name use_segmentation fs)
     = Ok true →
   ECall (OpWriteAudiofile (audio_file_of video_path)) true ∈
     trace_of (process_video_to_text w video_path model_name use_segmentation fs) ∧
   ECall (OpOpenWrite (text_output_file_of video_path)) true ∈
     trace_of (process_video_to_text w video_path model_name use_segmentation fs) ∧
   (∃ text, text ≠ "" ∧
      files (fs_of (process_video_to_text w video_path model_name use_segmentation fs))
        !! text_output_file_of video_path = Some text) ∧
   (use_segmentation = true →
    path_exists fs (chunks_dir_of video_path) = false →
    ECall (OpMakedirs (chunks_dir_of video_path)) true ∈
      trace_of (process_video_to_text w video_path model_name use_segmentation fs))) ∧
  ((∀ q ok, ECall (OpWriteAudiofile q) ok ∈
              trace_of (process_video_to_text w video_path model_name use_segmentation fs) →
            q = audio_file_of video_path) ∧
   (∀ q ok, ECall (OpOpenWrite q) ok ∈
              trace_of (process_video_to_text w video_path model_name use_segmentation fs) →
            q = text_output_file_of video_path) ∧
   (∀ q ok, ECall (OpMakedirs q) ok ∈
              trace_of (process_video_to_text w video_path model_name use_segmentation fs) →
            q = chunks_dir_of video_path)) ∧
  (∀ q, Path.contains Path.sep q = true →
        below (chunks_dir_of video_path) q = false →
        files (fs_of (process_video_to_text w video_path model_name use_segmentation fs))
          !! q = files fs !! q).
Proof.
  assert (Hsep : Path.contains Path.sep (audio_file_of video_path) = false ∧
                 Path.contains Path.sep (text_output_file_of video_path) = false ∧
                 Path.contains Path.sep (chunks_dir_of video_path) = false).
  { unfold audio_file_of, text_output_file_of, chunks_dir_of.
    repeat split; apply contains_sep_suffix; try apply get_filename_no_sep; reflexivity. }
  split; [exact Hsep|]. split; [|split; [|split; [|split]]].
  - intros dir. unfold audio_file_of, text_output_file_of, chunks_dir_of.
    by rewrite get_filename_in_dir.
  - intros stem ext Hb Hd Hx. unfold audio_file_of, text_output_file_of, chunks_dir_of.
    by rewrite (get_filename_stem video_path stem ext Hb Hd Hx).
  - apply MoreFacts.process_creates.
  - apply process_writes_only.
  - intros q Hq Hb. destruct Hsep as (Ha & Ht & _).
    assert (Hqa : q ≠ audio_file_of video_path) by (intros ->; congruence).
    assert (Hqt : q ≠ text_output_file_of video_path) by (intros ->; congruence).
    by destruct (MoreFacts.process_frame w video_path model_name use_segmentation q
                   Hqa Hqt Hb fs) as [_ H].
Qed.

Lemma artifacts_are_bare_names_witness :
  result_of (process_video_to_text (demo_world ["hello"; "world"] no_fault)
               "videos/clip.mp4" "base" true demo_fs) = Ok true ∧
  (audio_file_of "videos/clip.mp4" = "clip_temp_audio.mp3" ∧
   text_output_file_of "videos/clip.mp4" = "clip.txt" ∧
   chunks_dir_of "videos/clip.mp4" = "clip_audio_chunks") ∧
  ECall (OpWriteAudiofile "clip_temp_audio.mp3") true ∈
    trace_of (process_video_to_text (demo_world ["hello"; "world"] no_fault)
                "videos/clip.mp4" "base" true demo_fs) ∧
  ECall (OpOpenWrite "clip.txt") true ∈
    trace_of (process_video_to_text (demo_world ["hello"; "world"] no_fault)
                "videos/clip.mp4" "base" true demo_fs) ∧
  ECall (OpMakedirs "clip_audio_chunks") true ∈
    trace_of (process_video_to_text (demo_world ["hello"; "world"] no_fault)
                "videos/clip.mp4" "base" true demo_fs) ∧
  files (fs_of (process_video_to_text (demo_world ["hello"; "world"] no_fault)
                  "videos/clip.mp4" "base" true demo_fs)) !! "videos/clip.txt"
  = files demo_fs !! "videos/clip.txt".
Proof.
  destruct (artifacts_are_bare_names (demo_world ["hello"; "world"] no_fault)
              "videos/clip.mp4" "base" true demo_fs)
    as (_ & _ & Hstem & Hmade & _ & Hframe).
  assert (Hr : result_of (process_video_to_text (demo_world ["hello"; "world"] no_fault)
                            "videos/clip.mp4" "base" true demo_fs) = Ok true)
    by (by vm_compute).
  destruct (Hmade Hr) as (Haudio & Htext & _ & Hdir).
  split; [exact Hr|].
  split; [exact (Hstem "clip" "mp4" eq_refl eq_refl eq_refl)|].
  split; [exact Haudio|]. split; [exact Htext|].
  split; [apply Hdir; [reflexivity | by vm_compute]|].
  apply Hframe; by vm_compute.
Defined.

(** The examples of the specification: [clip.mp4] and [clip.mov], in any
    directory, both give [clip.txt], in the working directory. *)
Example clip_mp4 : text_output_file_of "videos/clip.mp4" = "clip.txt".
Proof. reflexivity. Qed.

Example clip_mov : text_output_file_of "/home/user/clip.mov" = "clip.txt".
Proof. reflexivity. Qed.

End Claims.

(* ------------------------------------------------------------------ *)
(** * Further properties of the program                                *)
(* ------------------------------------------------------------------ *)

Module Extras.
Import Effects Transcriber Spec EntryPoint PathFacts EffectFacts ProgramFacts MoreFacts.

(** ** The audio extractor and the two transcribers *)

(** X1: [extract_audio_from_video] never raises, and its message is the
    error of the call that failed. Either both calls return: it prints the
    success line and returns [True], with the audio file written. Or
    [VideoFileClip] raises: it prints that error and returns [False], with
    the file system as it found it. Or [write_audiofile] raises: it prints
    that error and returns [False], and what the failed write left at the
    path is still there, since the function removes nothing. *)
Theorem extract_reports_outcome (w : World) (video_path audio_output_path : string)
    (fs : FS) :
  (∃ video bytes,
     lib_VideoFileClip w video_path = Ok video ∧
     lib_write_audiofile w video audio_output_path = Ok bytes ∧
     extract_audio_from_video w video_path audio_output_path fs =
     ([ECall (OpVideoFileClip video_path) true;
       ECall (OpWriteAudiofile audio_output_path) true;
       EPrint ("音频已成功提取到: " +:+ audio_output_path)],
      fs_write audio_output_path bytes fs, Ok true)) ∨
  (∃ e,
     lib_VideoFileClip w video_path = Raise e ∧
     extract_audio_from_video w video_path audio_output_path fs =
     ([ECall (OpVideoFileClip video_path) false;
       EPrint ("提取音频时发生错误: " +:+ e)],
      fs, Ok false)) ∨
  (∃ video e,
     lib_VideoFileClip w video_path = Ok video ∧
     lib_write_audiofile w video audio_output_path = Raise e ∧
     extract_audio_from_video w video_path audio_output_path fs =
     ([ECall (OpVideoFileClip video_path) true;
       ECall (OpWriteAudiofile audio_output_path) false;
       EPrint ("提取音频时发生错误: " +:+ e)],
      partial_fs w video audio_output_path fs, Ok false)).
Proof.
  rewrite extract_run.
  destruct (lib_VideoFileClip w video_path) as [video|e].
  - destruct (lib_write_audiofile w video audio_output_path) as [bytes|e] eqn:Hw.
    + left. exists video, bytes. by rewrite Hw.
    + right; right. exists video, e. by rewrite Hw.
  - right; left. by exists e.
Qed.

(** X2: [transcribe_audio_with_whisper] never raises and never changes the
    file system: it returns the text or [None]. *)
Theorem direct_transcriber_is_read_only (w : World) (audio_path model_name : string)
    (fs : FS) :
  fs_of (transcribe_audio_with_whisper w audio_path model_name fs) = fs ∧
  ∃ r, result_of (transcribe_audio_with_whisper w audio_path model_name fs) = Ok r.
Proof.
  split; [|apply whisper_total].
  by destruct (whisper_keeps_fs w audio_path model_name fs) as [_ <-].
Qed.

(** X3: when the model cannot be loaded, [transcribe_audio_with_whisper]
    prints the error and returns [None] without trying to transcribe. *)
Theorem unknown_model_is_reported (w : World) (audio_path model_name e : string)
    (fs : FS) :
  lib_load_model w model_name = Raise e →
  transcribe_audio_with_whisper w audio_path model_name fs =
  ([EPrint ("正在加载 Whisper 模型: " +:+ model_name +:+ "...");
    ECall (OpLoadModel model_name) false;
    EPrint ("转录音频时发生错误: " +:+ e)], fs, Ok None).
Proof. apply whisper_load_fails. Qed.

Lemma unknown_model_is_reported_witness :
  lib_load_model (demo_world [] no_fault) "huge" = Raise "unknown model: huge" ∧
  transcribe_audio_with_whisper (demo_world [] no_fault) "speech.mp3" "huge" audio_fs =
  ([EPrint ("正在加载 Whisper 模型: " +:+ "huge" +:+ "...");
    ECall (OpLoadModel "huge") false;
    EPrint ("转录音频时发生错误: " +:+ "unknown model: huge")], audio_fs, Ok None).
Proof.
  split; [by vm_compute|].
  apply (unknown_model_is_reported (demo_world [] no_fault) "speech.mp3" "huge"
           "unknown model: huge" audio_fs).
  by vm_compute.
Defined.

(** X4: the only exception that leaves [split_and_transcribe_audio] is the
    one of [os.makedirs]: when the function raises, the chunk directory was
    absent and could not be created. *)
Theorem segmenting_raises_only_from_makedirs (w : World)
    (audio_path output_dir : string) (min_silence_len silence_thresh : Z)
    (model_name : string) (fs : FS) (e : string) :
  result_of (split_and_transcribe_audio w audio_path output_dir min_silence_len
               silence_thresh model_name fs) = Raise e →
  path_exists fs output_dir = false ∧
  os_fault w (OpMakedirs output_dir) = Some e.
Proof. apply split_raise_inv. Qed.

Lemma segmenting_raises_only_from_makedirs_witness :
  result_of (split_and_transcribe_audio (demo_world ["hello"] makedirs_denied)
               "speech.mp3" "audio_chunks" 500 (-40) "base" audio_fs)
    = Raise "[Errno 13] Permission denied" ∧
  path_exists audio_fs "audio_chunks" = false ∧
  os_fault (demo_world ["hello"] makedirs_denied) (OpMakedirs "audio_chunks")
    = Some "[Errno 13] Permission denied".
Proof.
  split; [by vm_compute|].
  apply (segmenting_raises_only_from_makedirs (demo_world ["hello"] makedirs_denied)
           "speech.mp3" "audio_chunks" 500 (-40) "base" audio_fs).
  by vm_compute.
Defined.

(** X5: whatever happens, [split_and_transcribe_audio] changes no file
    other than the chunk files [chunk_<i>.wav] of its output directory. *)
Theorem segmenting_touches_only_chunk_files (w : World)
    (audio_path output_dir : string) (min_silence_len silence_thresh : Z)
    (model_name : string) (fs : FS) (q : string) :
  (∀ i, q ≠ chunk_filename_of output_dir i) →
  files (fs_of (split_and_transcribe_audio w audio_path output_dir min_silence_len
                  silence_thresh model_name fs)) !! q = files fs !! q.
Proof.
  intros Hq.
  destruct (split_and_transcribe_audio_footprint w audio_path output_dir
              min_silence_len silence_thresh model_name fs) as [_ H].
  by apply H.
Qed.

Lemma segmenting_touches_only_chunk_files_witness :
  (∀ i, "speech.mp3" ≠ chunk_filename_of "audio_chunks" i) ∧
  files (fs_of (split_and_transcribe_audio (demo_world ["hello"; "world"] no_fault)
                  "speech.mp3" "audio_chunks" 500 (-40) "base" audio_fs))
    !! "speech.mp3" = files audio_fs !! "speech.mp3".
Proof.
  assert (H : ∀ i, "speech.mp3" ≠ chunk_filename_of "audio_chunks" i)
    by (intros i; discriminate).
  split; [exact H|].
  exact (segmenting_touches_only_chunk_files (demo_world ["hello"; "world"] no_fault)
           "speech.mp3" "audio_chunks" 500 (-40) "base" audio_fs "speech.mp3" H).
Defined.

(** X6: two chunks of one run never share a file name: different indices
    give different paths [<output_dir>/chunk_<i>.wav]. *)
Theorem chunk_filenames_are_distinct (output_dir : string) (i j : nat) :
  i ≠ j → chunk_filename_of output_dir i ≠ chunk_filename_of output_dir j.
Proof. intros Hne Heq. by apply Hne, (chunk_filename_inj output_dir). Qed.

Lemma chunk_filenames_are_distinct_witness :
  9%nat ≠ 10%nat ∧
  chunk_filename_of "audio_chunks" 9 ≠ chunk_filename_of "audio_chunks" 10.
Proof.
  assert (H : 9%nat ≠ 10%nat) by lia.
  split; [exact H|].
  exact (chunk_filenames_are_distinct "audio_chunks" 9 10 H).
Defined.

(** X7: when silence detection finds no chunk, [split_and_transcribe_audio]
    still loads the model, exports nothing and returns the empty string,
    not [None]. *)
Theorem no_chunks_gives_empty_transcript (w : World) (audio_path output_dir : string)
    (min_silence_len silence_thresh : Z) (model_name : string) (fs : FS)
    (bytes : string) (audio : Audio w) (model : Model w) :
  path_exists fs output_dir = true ∨ os_fault w (OpMakedirs output_dir) = None →
  files fs !! audio_path = Some bytes →
  lib_from_file w bytes = Ok audio →
  lib_split_on_silence w audio min_silence_len silence_thresh 200 = Ok [] →
  lib_load_model w model_name = Ok model →
  split_and_transcribe_audio w audio_path output_dir min_silence_len silence_thresh
    model_name fs =
  (makedirs_trace fs output_dir ++
   setup_trace audio_path min_silence_len silence_thresh model_name,
   makedirs_fs fs output_dir, Ok (Some "")).
Proof.
  intros Hready Hb Ha Hc Hm.
  rewrite (split_success_run w _ _ _ _ _ _ _ _ _ _ [] Hready Hb Ha Hc Hm eq_refl).
  cbn [List.length seq flat_map chunks_fs String.concat]. by rewrite List.app_nil_r.
Qed.

Lemma no_chunks_gives_empty_transcript_witness :
  split_and_transcribe_audio (demo_world [] no_fault) "speech.mp3" "audio_chunks"
    500 (-40) "base" audio_fs =
  (makedirs_trace audio_fs "audio_chunks" ++ setup_trace "speech.mp3" 500 (-40) "base",
   makedirs_fs audio_fs "audio_chunks", Ok (Some "")).
Proof.
  apply (no_chunks_gives_empty_transcript (demo_world [] no_fault) "speech.mp3"
           "audio_chunks" 500 (-40) "base" audio_fs "AUDIO" "AUDIO" "base").
  - right. by vm_compute.
  - by vm_compute.
  - by vm_compute.
  - by vm_compute.
  - by vm_compute.
Defined.

(** ** The orchestrator *)

(** X8: when audio extraction fails, [process_video_to_text] stops there:
    it prints that it cannot go on and returns [False]. It has called
    nothing but the two calls of the extraction, so no model is loaded,
    nothing is transcribed, written or removed; every other file is as
    before, and what a failed [write_audiofile] left of the temporary audio
    file stays on disk. *)
Theorem extraction_failure_stops_the_run (w : World) (video_path model_name : string)
    (use_segmentation : bool) (fs : FS) :
  path_exists fs video_path = true →
  result_of (extract_audio_from_video w video_path (audio_file_of video_path) fs)
    = Ok false →
  process_video_to_text w video_path model_name use_segmentation fs =
  (process_prefix video_path ++
   trace_of (extract_audio_from_video w video_path (audio_file_of video_path) fs) ++
   [EPrint "音频提取失败，无法继续处理。"],
   fs_of (extract_audio_from_video w video_path (audio_file_of video_path) fs),
   Ok false) ∧
  (∀ o ok,
     ECall o ok ∈ trace_of (process_video_to_text w video_path model_name
                              use_segmentation fs) →
     o = OpVideoFileClip video_path ∨ o = OpWriteAudiofile (audio_file_of video_path)) ∧
  (∀ q, q ≠ audio_file_of video_path →
        files (fs_of (process_video_to_text w video_path model_name use_segmentation fs))
          !! q = files fs !! q) ∧
  (∀ video partial,
     lib_VideoFileClip w video_path = Ok video →
     lib_write_audiofile_partial w video (audio_file_of video_path) = Some partial →
     files (fs_of (process_video_to_text w video_path model_name use_segmentation fs))
       !! audio_file_of video_path = Some partial).
Proof.
  intros Hex Hx. rewrite (process_extract_fails w _ _ _ _ Hex Hx).
  split; [reflexivity|]. revert Hx. rewrite extract_run.
  unfold trace_of, fs_of, result_of, process_prefix, partial_fs.
  destruct (lib_VideoFileClip w video_path) as [video|e]; cbn [fst snd].
  - destruct (lib_write_audiofile w video (audio_file_of video_path)) as [bytes|e];
      cbn [fst snd]; [discriminate|]. intros _. repeat split.
    + intros o ok Hin. cbn in Hin. rewrite !elem_of_cons in Hin.
      destruct Hin as [Hin|[Hin|[Hin|[Hin|[Hin|[Hin|Hin]]]]]]; try discriminate.
      * left. congruence.
      * right. congruence.
      * by apply elem_of_nil in Hin.
    + intros q Hq.
      destruct (lib_write_audiofile_partial w video (audio_file_of video_path));
        [|reflexivity].
      cbn. by rewrite lookup_insert_ne.
    + intros video' partial [= <-] ->. cbn. by rewrite lookup_insert_eq.
  - intros _. repeat split.
    + intros o ok Hin. cbn in Hin. rewrite !elem_of_cons in Hin.
      destruct Hin as [Hin|[Hin|[Hin|[Hin|[Hin|Hin]]]]]; try discriminate.
      * left. congruence.
      * by apply elem_of_nil in Hin.
    + intros video' partial [=].
Qed.

Lemma extraction_failure_stops_the_run_witness :
  process_video_to_text truncating_world "videos/clip.mp4" "base" true demo_fs =
  (process_prefix "videos/clip.mp4" ++
   [ECall (OpVideoFileClip "videos/clip.mp4") true;
    ECall (OpWriteAudiofile "clip_temp_audio.mp3") false;
    EPrint ("提取音频时发生错误: " +:+ "[Errno 28] No space left on device")] ++
   [EPrint "音频提取失败，无法继续处理。"],
   fs_write "clip_temp_audio.mp3" "mp3:" demo_fs, Ok false) ∧
  files (fs_of (process_video_to_text truncating_world "videos/clip.mp4" "base" true
                  demo_fs)) !! audio_file_of "videos/clip.mp4" = Some "mp3:".
Proof.
  destruct (extraction_failure_stops_the_run truncating_world "videos/clip.mp4" "base"
              true demo_fs) as (Hrun & _ & _ & Hpartial).
  - by vm_compute.
  - by vm_compute.
  - split; [by rewrite Hrun|].
    apply (Hpartial "videos/clip.mp4" "mp3:"); reflexivity.
Defined.



(** X10: a run that returns [True] has removed its temporary files, when the
    operating system refuses neither deletion: the temporary audio file is
    gone and, in segmented mode, so is the chunk directory. *)
Theorem successful_run_cleans_up (w : World) (video_path model_name : string)
    (use_segmentation : bool) (fs : FS) :
  result_of (process_video_to_text w video_path model_name use_segmentation fs)
    = Ok true →
  os_fault w (OpRemove (audio_file_of video_path)) = None →
  os_fault w (OpRmtree (chunks_dir_of video_path)) = None →
  files (fs_of (process_video_to_text w video_path model_name use_segmentation fs))
    !! audio_file_of video_path = None ∧
  (use_segmentation = true →
   chunks_dir_of video_path ∉
     dirs (fs_of (process_video_to_text w video_path model_name use_segmentation fs))).
Proof.
  intros Hr Hrm Hrt.
  destruct (process_true_inv w _ _ _ _ Hr) as (Hex & Hx & c & s & Ht & Hs & ->).
  destruct (failed_run_keeps_audio w video_path model_name use_segmentation fs Hx)
    as [_ [bytes Hb]].
  exact (save_and_cleanup_cleans w _ _ _ _ _ Hb Hs Hrm Hrt).
Qed.

Lemma successful_run_cleans_up_witness :
  result_of (process_video_to_text (demo_world ["hello"; "world"] no_fault)
               "videos/clip.mp4" "base" true demo_fs) = Ok true ∧
  files (fs_of (process_video_to_text (demo_world ["hello"; "world"] no_fault)
                  "videos/clip.mp4" "base" true demo_fs))
    !! audio_file_of "videos/clip.mp4" = None ∧
  (true = true →
   chunks_dir_of "videos/clip.mp4" ∉
     dirs (fs_of (process_video_to_text (demo_world ["hello"; "world"] no_fault)
                    "videos/clip.mp4" "base" true demo_fs))).
Proof.
  split; [by vm_compute|].
  apply (successful_run_cleans_up (demo_world ["hello"; "world"] no_fault)
           "videos/clip.mp4" "base" true demo_fs); by vm_compute.
Defined.

(** X11: a failure to delete the temporary audio file is only a warning,
    and it ends the cleanup: the run still returns [True], and the chunk
    directory is not removed, since both deletions share one [try]. *)
Theorem cleanup_failure_is_only_a_warning (w : World) (video_path model_name : string)
    (use_segmentation : bool) (fs : FS) (text e : string) :
  path_exists fs video_path = true →
  result_of (extract_audio_from_video w video_path (audio_file_of video_path) fs)
    = Ok true →
  result_of (transcriber w video_path model_name use_segmentation
               (fs_of (extract_audio_from_video w video_path
                         (audio_file_of video_path) fs)))
    = Ok (Some text) →
  text ≠ "" →
  os_fault w (OpOpenWrite (text_output_file_of video_path)) = None →
  text_output_file_of video_path ∉
    dirs (fs_of (transcriber w video_path model_name use_segmentation
                   (fs_of (extract_audio_from_video w video_path
                             (audio_file_of video_path) fs)))) →
  os_fault w (OpRemove (audio_file_of video_path)) = Some e →
  result_of (process_video_to_text w video_path model_name use_segmentation fs)
    = Ok true ∧
  (∃ before,
     trace_of (process_video_to_text w video_path model_name use_segmentation fs) =
     before ++ [ECall (OpRemove (audio_file_of video_path)) false;
                EPrint ("清理临时文件时发生警告: " +:+ e)]) ∧
  (∀ q ok, ECall (OpRmtree q) ok ∉
             trace_of (process_video_to_text w video_path model_name use_segmentation fs)).
Proof.
  intros Hex Hx Ht Hne Hw Hd Hf.
  destruct (failed_run_keeps_audio w video_path model_name use_segmentation fs Hx)
    as [Hall Hsome].
  rewrite (process_run w video_path model_name use_segmentation fs Hex Hx), Ht.
  destruct text as [|c s]; [done|].
  rewrite (save_and_cleanup_remove_refused w _ _ _ _ _ Hw Hd Hsome Hf).
  cbn [trace_of fs_of result_of fst snd].
  split; [reflexivity|]. split.
  - match goal with
    | |- ∃ before, ?pre ++ [?a1; ?a2; ?a3; ?a4; ?a5; ?a6; ?a7] = _ =>
        exists (pre ++ [a1; a2; a3; a4; a5]);
        exact (List.app_assoc pre [a1; a2; a3; a4; a5] [a6; a7])
    end.
  - intros q ok Hin. rewrite !Forall_app in Hall.
    destruct Hall as (H1 & H2 & H3 & H4 & _).
    rewrite Forall_forall in H1, H2, H3, H4.
    rewrite !elem_of_app in Hin.
    destruct Hin as [[Hin|[Hin|[Hin|Hin]]]|Hin];
      [exact (H1 _ Hin) | exact (H2 _ Hin) | exact (H3 _ Hin) | exact (H4 _ Hin) |].
    rewrite !elem_of_cons in Hin.
    destruct Hin as [Hin|[Hin|[Hin|[Hin|[Hin|[Hin|[Hin|Hin]]]]]]]; try discriminate.
    by apply elem_of_nil in Hin.
Qed.

Lemma cleanup_failure_is_only_a_warning_witness :
  result_of (process_video_to_text
               (demo_world ["hello"] (remove_denied "clip_temp_audio.mp3"))
               "videos/clip.mp4" "base" true demo_fs) = Ok true ∧
  "clip_audio_chunks" ∈
    dirs (fs_of (process_video_to_text
                   (demo_world ["hello"] (remove_denied "clip_temp_audio.mp3"))
                   "videos/clip.mp4" "base" true demo_fs)).
Proof.
  destruct (cleanup_failure_is_only_a_warning
              (demo_world ["hello"] (remove_denied "clip_temp_audio.mp3"))
              "videos/clip.mp4" "base" true demo_fs "hello"
              "[Errno 13] Permission denied") as (Hr & _ & _).
  - by vm_compute.
  - by vm_compute.
  - by vm_compute.
  - discriminate.
  - by vm_compute.
  - by_evaluation.
  - by vm_compute.
  - split; [exact Hr | by_evaluation].
Defined.

(** X12: [process_video_to_text] raises in one case only: in segmented
    mode, when the chunk directory is absent after the extraction and
    [os.makedirs] fails. In direct mode it always returns. *)
Theorem only_makedirs_escapes_the_orchestrator (w : World)
    (video_path model_name : string) (use_segmentation : bool) (fs : FS) (e : string) :
  result_of (process_video_to_text w video_path model_name use_segmentation fs)
    = Raise e →
  use_segmentation = true ∧
  path_exists (fs_of (extract_audio_from_video w video_path
                        (audio_file_of video_path) fs))
    (chunks_dir_of video_path) = false ∧
  os_fault w (OpMakedirs (chunks_dir_of video_path)) = Some e.
Proof. apply process_raise_inv. Qed.

Lemma only_makedirs_escapes_the_orchestrator_witness :
  result_of (process_video_to_text (demo_world ["hello"] makedirs_denied)
               "videos/clip.mp4" "base" true demo_fs)
    = Raise "[Errno 13] Permission denied" ∧
  true = true ∧
  path_exists (fs_of (extract_audio_from_video (demo_world ["hello"] makedirs_denied)
                        "videos/clip.mp4" (audio_file_of "videos/clip.mp4") demo_fs))
    (chunks_dir_of "videos/clip.mp4") = false ∧
  os_fault (demo_world ["hello"] makedirs_denied)
    (OpMakedirs (chunks_dir_of "videos/clip.mp4")) = Some "[Errno 13] Permission denied".
Proof.
  split; [by vm_compute|].
  apply (only_makedirs_escapes_the_orchestrator (demo_world ["hello"] makedirs_denied)
           "videos/clip.mp4" "base" true demo_fs).
  by vm_compute.
Defined.

(** X13: whatever happens, [process_video_to_text] changes no file other
    than its temporary audio file, its output file and what lies in its
    chunk directory. *)
Theorem other_files_are_left_alone (w : World) (video_path model_name : string)
    (use_segmentation : bool) (fs : FS) (q : string) :
  q ≠ audio_file_of video_path →
  q ≠ text_output_file_of video_path →
  below (chunks_dir_of video_path) q = false →
  files (fs_of (process_video_to_text w video_path model_name use_segmentation fs)) !! q
  = files fs !! q.
Proof.
  intros Ha Ho Hb.
  by destruct (process_frame w video_path model_name use_segmentation q Ha Ho Hb fs)
    as [_ H].
Qed.

Lemma other_files_are_left_alone_witness :
  "videos/clip.mp4" ≠ audio_file_of "videos/clip.mp4" ∧
  "videos/clip.mp4" ≠ text_output_file_of "videos/clip.mp4" ∧
  below (chunks_dir_of "videos/clip.mp4") "videos/clip.mp4" = false ∧
  files (fs_of (process_video_to_text (demo_world ["hello"; "world"] no_fault)
                  "videos/clip.mp4" "base" true demo_fs)) !! "videos/clip.mp4"
  = files demo_fs !! "videos/clip.mp4".
Proof.
  assert (H1 : "videos/clip.mp4" ≠ audio_file_of "videos/clip.mp4") by discriminate.
  assert (H2 : "videos/clip.mp4" ≠ text_output_file_of "videos/clip.mp4") by discriminate.
  assert (H3 : below (chunks_dir_of "videos/clip.mp4") "videos/clip.mp4" = false)
    by (by vm_compute).
  split; [exact H1|]. split; [exact H2|]. split; [exact H3|].
  exact (other_files_are_left_alone (demo_world ["hello"; "world"] no_fault)
           "videos/clip.mp4" "base" true demo_fs "videos/clip.mp4" H1 H2 H3).
Defined.

(** X14: in direct mode [process_video_to_text] never creates or removes a
    directory, never decodes or splits the audio and never exports a
    chunk. *)
Theorem direct_mode_needs_no_chunks (w : World) (video_path model_name : string)
    (fs : FS) (o : op) (ok : bool) :
  ECall o ok ∈ trace_of (process_video_to_text w video_path model_name false fs) →
  chunk_op o = false.
Proof.
  intros Hin.
  destruct (direct_mode_footprint w video_path model_name fs) as [Hall _].
  rewrite Forall_forall in Hall. exact (Hall _ Hin).
Qed.

Lemma direct_mode_needs_no_chunks_witness :
  ECall (OpLoadModel "base") true ∈
    trace_of (process_video_to_text (demo_world ["hello"; "world"] no_fault)
                "videos/clip.mp4" "base" false demo_fs) ∧
  chunk_op (OpLoadModel "base") = false.
Proof.
  split; [by_evaluation|].
  apply (direct_mode_needs_no_chunks (demo_world ["hello"; "world"] no_fault)
           "videos/clip.mp4" "base" demo_fs (OpLoadModel "base") true).
  by_evaluation.
Defined.

(** X15: a base name without a dot has no extension to strip:
    [get_filename_without_extension] returns the whole base name. *)
Theorem name_without_extension_is_kept (file_path : string) :
  Path.contains Path.extsep (Path.basename file_path) = false →
  get_filename_without_extension file_path = Path.basename file_path.
Proof.
  intros Hd. unfold get_filename_without_extension.
  by rewrite splitext_no_dot by (apply basename_no_sep || exact Hd).
Qed.

Lemma name_without_extension_is_kept_witness :
  Path.contains Path.extsep (Path.basename "videos/recording") = false ∧
  get_filename_without_extension "videos/recording" = Path.basename "videos/recording".
Proof.
  split; [reflexivity|].
  apply (name_without_extension_is_kept "videos/recording"). reflexivity.
Defined.

(** X16: a base name whose only dots are leading ones (a hidden file such
    as [.mp4]) is not split: [get_filename_without_extension] returns the
    whole base name, so the transcript of [.mp4] goes to [.mp4.txt]. *)
Theorem hidden_file_name_is_kept (file_path dots rest : string) :
  Path.basename file_path = dots +:+ "." +:+ rest →
  all_dots dots = true →
  Path.contains Path.extsep rest = false →
  get_filename_without_extension file_path = Path.basename file_path.
Proof.
  intros Hb Hd Hx. unfold get_filename_without_extension.
  pose proof (basename_no_sep file_path) as Hs. rewrite Hb in *.
  rewrite contains_app in Hs. apply orb_false_iff in Hs as [_ Hs].
  change (Path.contains Path.sep rest = false) in Hs.
  change (dots +:+ "." +:+ rest) with (dots +:+ String Path.extsep rest).
  by rewrite splitext_hidden.
Qed.

Lemma hidden_file_name_is_kept_witness :
  Path.basename "videos/.mp4" = "" +:+ "." +:+ "mp4" ∧
  all_dots "" = true ∧
  Path.contains Path.extsep "mp4" = false ∧
  get_filename_without_extension "videos/.mp4" = Path.basename "videos/.mp4" ∧
  text_output_file_of "videos/.mp4" = ".mp4.txt".
Proof.
  split; [reflexivity|]. split; [reflexivity|]. split; [reflexivity|].
  split; [|reflexivity].
  apply (hidden_file_name_is_kept "videos/.mp4" "" "mp4"); reflexivity.
Defined.

(** ** The entry point *)

(** X17: when the path typed is empty after stripping blanks and quotes,
    the entry point prints the error and exits with status 1: it asks
    nothing more, calls nothing and leaves the file system alone. *)
Theorem no_path_exits_with_status_1 (w : World) (b : Builtins) (line : string)
    (stdin : list string) (fs : FS) :
  strip_chars quote_chars (str_strip b line) = "" →
  main w b (line :: stdin) fs =
  ([EPrint "请输入视频文件路径: "; EPrint "错误：未提供视频文件路径"], fs, Ok 1).
Proof. apply main_no_path. Qed.

Lemma no_path_exits_with_status_1_witness :
  strip_chars quote_chars (str_strip ascii_builtins "  '' ") = "" ∧
  main (demo_world [] no_fault) ascii_builtins ["  '' "; "2"; "n"] demo_fs =
  ([EPrint "请输入视频文件路径: "; EPrint "错误：未提供视频文件路径"], demo_fs, Ok 1).
Proof.
  split; [by vm_compute|].
  apply (no_path_exits_with_status_1 (demo_world [] no_fault) ascii_builtins "  '' "
           ["2"; "n"] demo_fs).
  by vm_compute.
Defined.

(** X18: once [process_video_to_text] has returned, the entry point ends
    with the banner of its result and with exit status 0, also when the
    transcription failed. *)
Theorem failed_run_still_exits_with_status_0 (w : World) (b : Builtins)
    (line1 line2 line3 : string) (stdin : list string) (fs : FS) (success : bool) :
  strip_chars quote_chars (str_strip b line1) ≠ "" →
  result_of (process_video_to_text w
               (strip_chars quote_chars (str_strip b line1))
               (default "base" (model_map !! str_strip b line2))
               (bool_decide (str_lower b (str_strip b line3) ∈ ["y"; "yes"; "是"]))
               fs) = Ok success →
  main w b (line1 :: line2 :: line3 :: stdin) fs =
  (dialogue (default "base" (model_map !! str_strip b line2)) ++
   trace_of (process_video_to_text w
               (strip_chars quote_chars (str_strip b line1))
               (default "base" (model_map !! str_strip b line2))
               (bool_decide (str_lower b (str_strip b line3) ∈ ["y"; "yes"; "是"]))
               fs) ++
   [EPrint (final_banner success)],
   fs_of (process_video_to_text w
            (strip_chars quote_chars (str_strip b line1))
            (default "base" (model_map !! str_strip b line2))
            (bool_decide (str_lower b (str_strip b line3) ∈ ["y"; "yes"; "是"]))
            fs),
   Ok 0).
Proof. intros Hp Hr. by rewrite (main_run w b _ _ _ _ _ Hp), Hr. Qed.

Lemma failed_run_still_exits_with_status_0_witness :
  result_of (process_video_to_text (demo_world [] no_fault) "videos/absent.mp4" "base"
               false demo_fs) = Ok false ∧
  result_of (main (demo_world [] no_fault) ascii_builtins
               ["videos/absent.mp4"; "2"; "n"] demo_fs) = Ok 0.
Proof.
  split; [by vm_compute|].
  rewrite (failed_run_still_exits_with_status_0 (demo_world [] no_fault) ascii_builtins
             "videos/absent.mp4" "2" "n" [] demo_fs false); [reflexivity| |].
  - by vm_compute.
  - by vm_compute.
Defined.

(** X19: whatever the user types, the only model names the entry point
    ever has loaded are the five of its menu. *)
Theorem only_menu_models_are_loaded (w : World) (b : Builtins) (stdin : list string)
    (fs : FS) (model_name : string) (ok : bool) :
  ECall (OpLoadModel model_name) ok ∈ trace_of (main w b stdin fs) →
  model_name ∈ whisper_models.
Proof.
  intros Hin.
  destruct (main_trace_cases w b stdin fs)
    as [Hall | (l1 & l2 & l3 & rest & tail & _ & Ht & Htail)].
  { rewrite Forall_forall in Hall. by destruct (Hall _ Hin). }
  rewrite Ht in Hin. rewrite !elem_of_app in Hin.
  destruct Hin as [Hin|[Hin|Hin]].
  - unfold dialogue, menu in Hin. cbn in Hin. rewrite !elem_of_cons in Hin.
    repeat (destruct Hin as [Hin|Hin]; [discriminate|]). by apply elem_of_nil in Hin.
  - destruct (process_footprint w (strip_chars quote_chars (str_strip b l1))
                (default "base" (model_map !! str_strip b l2))
                (bool_decide (str_lower b (str_strip b l3) ∈ ["y"; "yes"; "是"])) fs)
      as [Hall _].
    rewrite Forall_forall in Hall. apply Hall in Hin.
    inversion Hin as [| | |e Hs|ok' | | | |]; subst.
    + inversion Hs; subst. apply selected_model_valid.
    + apply selected_model_valid.
  - rewrite Forall_forall in Htail. by destruct (Htail _ Hin).
Qed.

Lemma only_menu_models_are_loaded_witness :
  ECall (OpLoadModel "base") true ∈
    trace_of (main (demo_world ["hello"] no_fault) ascii_builtins
                ["videos/clip.mp4"; "9"; "n"] demo_fs) ∧
  "base" ∈ whisper_models.
Proof.
  split; [by_evaluation|].
  apply (only_menu_models_are_loaded (demo_world ["hello"] no_fault) ascii_builtins
           ["videos/clip.mp4"; "9"; "n"] demo_fs "base" true).
  by_evaluation.
Defined.

(** X20: quotes around the path do not matter: a path typed between double
    or single quotes gives the same run as the bare path, provided the path
    itself neither begins nor ends with a quote. *)
Theorem quoted_path_is_unquoted (w : World) (b : Builtins)
    (quoted bare opening path closing : string) (stdin : list string) (fs : FS) :
  str_strip b quoted = opening +:+ path +:+ closing →
  str_strip b bare = path →
  all_in quote_chars opening = true →
  all_in quote_chars closing = true →
  starts_in quote_chars path = false →
  ends_in quote_chars path = false →
  main w b (quoted :: stdin) fs = main w b (bare :: stdin) fs.
Proof.
  intros Hq Hb Ho Hc Hs He. apply main_path_only. rewrite Hq, Hb.
  by rewrite (strip_chars_between _ _ _ _ Ho Hc Hs He), (strip_chars_bare _ _ Hs He).
Qed.

Lemma quoted_path_is_unquoted_witness :
  main (demo_world ["hello"] no_fault) ascii_builtins
    [String (ascii_of_nat 34) "videos/clip.mp4" +:+ String (ascii_of_nat 34) " ";
     "2"; "n"] demo_fs =
  main (demo_world ["hello"] no_fault) ascii_builtins ["videos/clip.mp4"; "2"; "n"] demo_fs.
Proof.
  apply (quoted_path_is_unquoted (demo_world ["hello"] no_fault) ascii_builtins
           (String (ascii_of_nat 34) "videos/clip.mp4" +:+ String (ascii_of_nat 34) " ")
           "videos/clip.mp4" (String (ascii_of_nat 34) "") "videos/clip.mp4"
           (String (ascii_of_nat 34) "") ["2"; "n"] demo_fs); by vm_compute.
Defined.

(** X21: when the input ends before the three answers are given, the entry
    point has called nothing and changed nothing, and it does not end with
    status 0. *)
Theorem cut_short_dialogue_does_nothing (w : World) (b : Builtins) (stdin : list string)
    (fs : FS) :
  (List.length stdin < 3)%nat →
  fs_of (main w b stdin fs) = fs ∧
  (∀ o ok, ECall o ok ∉ trace_of (main w b stdin fs)) ∧
  result_of (main w b stdin fs) ≠ Ok 0.
Proof.
  intros Hlen. destruct (main_cut_short w b stdin fs Hlen) as (Hfs & Hall & Hr).
  repeat split; try done.
  intros o ok Hin. rewrite Forall_forall in Hall. by destruct (Hall _ Hin).
Qed.

Lemma cut_short_dialogue_does_nothing_witness :
  (List.length ["videos/clip.mp4"; "2"] < 3)%nat ∧
  result_of (main (demo_world ["hello"] no_fault) ascii_builtins
               ["videos/clip.mp4"; "2"] demo_fs) = Raise "EOF when reading a line" ∧
  fs_of (main (demo_world ["hello"] no_fault) ascii_builtins
           ["videos/clip.mp4"; "2"] demo_fs) = demo_fs.
Proof.
  assert (H : (List.length ["videos/clip.mp4"; "2"] < 3)%nat) by (simpl; lia).
  destruct (cut_short_dialogue_does_nothing (demo_world ["hello"] no_fault) ascii_builtins
              ["videos/clip.mp4"; "2"] demo_fs H) as (Hfs & _ & _).
  split; [exact H|]. split; [by vm_compute | exact Hfs].
Defined.

(** X22: unless the answer to the last question is [y], [yes] or [是]
    (after stripping and lowering), the entry point runs in direct mode: no
    directory is created or removed, no audio is split, no chunk is
    exported. *)
Theorem answer_decides_the_mode (w : World) (b : Builtins) (stdin : list string)
    (line1 line2 line3 : string) (rest : list string) (fs : FS) (o : op) (ok : bool) :
  stdin = line1 :: line2 :: line3 :: rest →
  str_lower b (str_strip b line3) ∉ ["y"; "yes"; "是"] →
  ECall o ok ∈ trace_of (main w b stdin fs) →
  chunk_op o = false.
Proof.
  intros -> Hno Hin.
  destruct (main_trace_cases w b (line1 :: line2 :: line3 :: rest) fs)
    as [Hall | (l1 & l2 & l3 & rest' & tail & Heq & Ht & Htail)].
  { rewrite Forall_forall in Hall. by destruct (Hall _ Hin). }
  injection Heq as <- <- <- <-.
  rewrite Ht in Hin. rewrite (bool_decide_eq_false_2 _ Hno) in Hin.
  rewrite !elem_of_app in Hin. destruct Hin as [Hin|[Hin|Hin]].
  - unfold dialogue, menu in Hin. cbn in Hin. rewrite !elem_of_cons in Hin.
    repeat (destruct Hin as [Hin|Hin]; [discriminate|]). by apply elem_of_nil in Hin.
  - destruct (direct_mode_footprint w (strip_chars quote_chars (str_strip b line1))
                (default "base" (model_map !! str_strip b line2)) fs) as [Hall _].
    rewrite Forall_forall in Hall. exact (Hall _ Hin).
  - rewrite Forall_forall in Htail. by destruct (Htail _ Hin).
Qed.

Lemma answer_decides_the_mode_witness :
  (str_lower ascii_builtins (str_strip ascii_builtins " Maybe ") ∉ ["y"; "yes"; "是"]) ∧
  ECall (OpTranscribe "clip_temp_audio.mp3") true ∈
    trace_of (main (demo_world ["hello"] no_fault) ascii_builtins
                ["videos/clip.mp4"; "2"; " Maybe "] demo_fs) ∧
  chunk_op (OpTranscribe "clip_temp_audio.mp3") = false.
Proof.
  assert (H : str_lower ascii_builtins (str_strip ascii_builtins " Maybe ")
              ∉ ["y"; "yes"; "是"]) by by_evaluation.
  split; [exact H|]. split; [by_evaluation|].
  apply (answer_decides_the_mode (demo_world ["hello"] no_fault) ascii_builtins
           ["videos/clip.mp4"; "2"; " Maybe "] "videos/clip.mp4" "2" " Maybe " []
           demo_fs (OpTranscribe "clip_temp_audio.mp3") true eq_refl H).
  by_evaluation.
Defined.

End Extras.
